(** * Verification model of [app.py] (TT form auto-fill service)

    Shallow embedding of the pure parts of the Flask service: the amount
    speller [amount_to_words] (with the [num2words] cardinal speller it calls),
    the signature resolver [fetch_signature_url_from_notion], the template
    variable listing [list_template_vars] and the [/generate] handler.

    Strings are modelled as ASCII [String.string]; Python exceptions are the
    constructors of [exn]; every external call (Notion HTTP API, DocxTemplate,
    the clock) is an oracle field of a record passed to the model. *)

From Stdlib Require Import String Ascii ZArith List Bool Lia Sorting.Permutation Sorting.Sorted DecimalString.
Import ListNotations.
Open Scope string_scope.
Open Scope Z_scope.

(** ** Python exceptions and results *)

Inductive exn : Type :=
| OverflowError
| ValueError
| TypeError
| AttributeError
| RuntimeError (msg : string)
| HTTPError (msg : string)
| OtherExn (name : string).

Inductive outcome (A : Type) : Type :=
| Ok (a : A)
| Raise (e : exn).
Arguments Ok {A} a.
Arguments Raise {A} e.

Definition bind {A B} (m : outcome A) (k : A -> outcome B) : outcome B :=
  match m with Ok a => k a | Raise e => Raise e end.

Notation "x <- m ;; k" := (bind m (fun x => k))
  (at level 61, m at next level, right associativity).

(** ** Python string helpers (ASCII) *)

Module Py.

(** [str.isspace] on ASCII: \t \n \v \f \r, \x1c-\x1f and space. *)
Definition is_space (c : ascii) : bool :=
  let n := nat_of_ascii c in
  ((9 <=? n) && (n <=? 13))%nat || ((28 <=? n) && (n <=? 32))%nat.

Definition is_digit (c : ascii) : bool :=
  let n := nat_of_ascii c in ((48 <=? n) && (n <=? 57))%nat.

Definition digit_value (c : ascii) : Z := Z.of_nat (nat_of_ascii c) - 48.

Definition is_lower (c : ascii) : bool :=
  let n := nat_of_ascii c in ((97 <=? n) && (n <=? 122))%nat.

Definition is_upper (c : ascii) : bool :=
  let n := nat_of_ascii c in ((65 <=? n) && (n <=? 90))%nat.

Definition to_upper_char (c : ascii) : ascii :=
  if is_lower c then ascii_of_nat (nat_of_ascii c - 32) else c.

Definition to_lower_char (c : ascii) : ascii :=
  if is_upper c then ascii_of_nat (nat_of_ascii c + 32) else c.

(** [str.upper] *)
Fixpoint upper (s : string) : string :=
  match s with
  | EmptyString => EmptyString
  | String c s' => String (to_upper_char c) (upper s')
  end.

(** [str.lstrip()] *)
Fixpoint lstrip (s : string) : string :=
  match s with
  | String c s' => if is_space c then lstrip s' else s
  | EmptyString => EmptyString
  end.

Fixpoint rev_str (s : string) (acc : string) : string :=
  match s with
  | EmptyString => acc
  | String c s' => rev_str s' (String c acc)
  end.

(** [str.strip()] *)
Definition strip (s : string) : string :=
  rev_str (lstrip (rev_str (lstrip s) EmptyString)) EmptyString.

(** [str.replace(c, r)] for a one-character pattern [c]. *)
Fixpoint replace_char (c : ascii) (r : string) (s : string) : string :=
  match s with
  | EmptyString => EmptyString
  | String d s' =>
      if Ascii.eqb c d then r ++ replace_char c r s'
      else String d (replace_char c r s')
  end.

(** [str.split(c)] for a one-character separator: always at least one part. *)
Fixpoint split_char (c : ascii) (s : string) : list string :=
  match s with
  | EmptyString => [EmptyString]
  | String d s' =>
      match split_char c s' with
      | [] => []
      | p :: ps =>
          if Ascii.eqb c d then EmptyString :: p :: ps
          else String d p :: ps
      end
  end.

(** [str.isdigit()] *)
Definition isdigit (s : string) : bool :=
  match s with
  | EmptyString => false
  | _ => forallb is_digit (list_ascii_of_string s)
  end.

(** [str.title()]: a cased character following a cased character is
    lower-cased, any other cased character is upper-cased. *)
Fixpoint title_from (prev_cased : bool) (s : string) : string :=
  match s with
  | EmptyString => EmptyString
  | String c s' =>
      let c' := if prev_cased then to_lower_char c else to_upper_char c in
      String c' (title_from (is_lower c' || is_upper c') s')
  end.

Definition title (s : string) : string := title_from false s.

(** Body of [int(str)] in base 10 after the sign: digits, single
    underscores allowed between digits. *)
Fixpoint digits_value (acc : Z) (after_digit : bool) (s : string) : option Z :=
  match s with
  | EmptyString => if after_digit then Some acc else None
  | String c s' =>
      if is_digit c then digits_value (10 * acc + digit_value c) true s'
      else if Ascii.eqb c "_"%char then
        match s' with
        | String d _ => if after_digit && is_digit d
                        then digits_value acc false s' else None
        | EmptyString => None
        end
      else None
  end.

(** [sys.get_int_max_str_digits()] at its default. *)
Definition max_str_digits : nat := 4300.

Definition count_digits (s : string) : nat :=
  List.length (filter is_digit (list_ascii_of_string s)).

(** The body after the sign: more than [max_str_digits] digits (leading
    zeros included, underscores not) is refused with [ValueError]. *)
Definition int_body (s : string) : option Z :=
  if (max_str_digits <? count_digits s)%nat then None else digits_value 0 false s.

(** [int(s)] for a [str] argument: surrounding whitespace, an optional sign;
    [None] stands for the [ValueError] it raises. *)
Definition int_of_string (s : string) : option Z :=
  match strip s with
  | String c s' =>
      if Ascii.eqb c "-"%char then option_map Z.opp (int_body s')
      else if Ascii.eqb c "+"%char then int_body s'
      else int_body (String c s')
  | EmptyString => None
  end.

(** [n * s] for an [int] and a [str]. *)
Fixpoint repeat_str (n : nat) (s : string) : string :=
  match n with O => EmptyString | S k => s ++ repeat_str k s end.

End Py.

(** ** The [num2words] cardinal speller ([lang_EU], [lang_EN], [lang_EN_IN])

    [cards] is the ordered dictionary of the converter, in insertion order;
    [splitnum], [merge] and [clean] are the methods of [Num2Word_Base] and
    [Num2Word_EN].  The Python fragments are ported with a fuel argument;
    [None] stands for running out of fuel. *)

Module Num2Words.

Definition eu_lows : list string :=
  ["non"; "oct"; "sept"; "sext"; "quint"; "quadr"; "tr"; "b"; "m"].
Definition eu_units : list string :=
  [""; "un"; "duo"; "tre"; "quattuor"; "quin"; "sex"; "sept"; "octo"; "novem"].
Definition eu_tens : list string :=
  ["dec"; "vigint"; "trigint"; "quadragint"; "quinquagint"; "sexagint";
   "septuagint"; "octogint"; "nonagint"].

(** [Num2Word_EU.gen_high_numwords] and [high_numwords]. *)
Definition high_numwords : list string :=
  "cent" :: (rev (flat_map (fun t => map (fun u => String.append u t) eu_units) eu_tens)
             ++ eu_lows)%list.

(** [Num2Word_EN.set_high_numwords]: [10 ** n] for [n] in
    [range(3 + 3 * len(high), 3, -3)]. *)
Fixpoint en_high_cards (n : Z) (high : list string) : list (Z * string) :=
  match high with
  | [] => []
  | w :: ws => if n <=? 3 then [] else (10 ^ n, w ++ "illion") :: en_high_cards (n - 3) ws
  end.

Definition mid_numwords : list (Z * string) :=
  [(1000, "thousand"); (100, "hundred"); (90, "ninety"); (80, "eighty");
   (70, "seventy"); (60, "sixty"); (50, "fifty"); (40, "forty"); (30, "thirty")].

Definition low_numwords : list string :=
  ["twenty"; "nineteen"; "eighteen"; "seventeen"; "sixteen"; "fifteen";
   "fourteen"; "thirteen"; "twelve"; "eleven"; "ten"; "nine"; "eight";
   "seven"; "six"; "five"; "four"; "three"; "two"; "one"; "zero"].

(** [set_low_numwords]: the words get [len - 1], ..., [0]. *)
Fixpoint low_cards (n : Z) (ws : list string) : list (Z * string) :=
  match ws with
  | [] => []
  | w :: ws' => (n, w) :: low_cards (n - 1) ws'
  end.

(** [cards] of the [en] converter. *)
Definition en_cards : list (Z * string) :=
  (en_high_cards (3 + 3 * Z.of_nat (length high_numwords)) high_numwords
   ++ mid_numwords ++ low_cards 20 low_numwords)%list.

(** [cards] of the [en_IN] converter: its [set_high_numwords] only adds
    crore and lakh. *)
Definition en_in_cards : list (Z * string) :=
  ([(10 ^ 7, "crore"); (10 ^ 5, "lakh")] ++ mid_numwords ++ low_cards 20 low_numwords)%list.

(** [MAXVAL = 1000 * list(self.cards.keys())[0]]. *)
Definition maxval (cards : list (Z * string)) : Z :=
  match cards with (k, _) :: _ => 1000 * k | [] => 0 end.

(** Items of the nested lists built by [splitnum]: a [(text, num)] tuple or
    a nested Python list. *)
#[warnings="-register-all"]
Inductive item : Type :=
| Tup (text : string) (num : Z)
| Lst (l : list item).

Definition card_word (cards : list (Z * string)) (k : Z) : string :=
  match find (fun kw => fst kw =? k) cards with Some (_, w) => w | None => "" end.

(** [Num2Word_Base.splitnum]. *)
Fixpoint splitnum (cards : list (Z * string)) (fuel : nat) (value : Z)
  : option (list item) :=
  match fuel with
  | O => None
  | S f =>
      match find (fun kw => fst kw <=? value) cards with
      | None => None
      | Some (elem, word) =>
          let '(dv, md) := if value =? 0 then (1, 0) else (value / elem, value mod elem) in
          let tail :=
            if md =? 0 then Some []
            else option_map (fun l => [Lst l]) (splitnum cards f md) in
          if dv =? 1 then
            option_map (fun t => Tup (card_word cards 1) 1 :: Tup word elem :: t) tail
          else if dv =? value then
            Some [Tup (Py.repeat_str (Z.to_nat dv) word) (dv * elem)]
          else
            match splitnum cards f dv, tail with
            | Some l, Some t => Some (Lst l :: Tup word elem :: t)
            | _, _ => None
            end
      end
  end.

(** [Num2Word_EN.merge]. *)
Definition merge (ltext : string) (lnum : Z) (rtext : string) (rnum : Z) : string * Z :=
  if (lnum =? 1) && (rnum <? 100) then (rtext, rnum)
  else if (lnum <? 100) && (rnum <? lnum) then (ltext ++ "-" ++ rtext, lnum + rnum)
  else if (100 <=? lnum) && (rnum <? 100) then (ltext ++ " and " ++ rtext, lnum + rnum)
  else if lnum <? rnum then (ltext ++ " " ++ rtext, lnum * rnum)
  else (ltext ++ ", " ++ rtext, lnum + rnum).

(** The [else] branch of [clean]'s loop body: [elem[0]] for a one-element
    list, [self.clean(elem)] for a longer one, tuples kept. *)
Definition flat_with (cl : list item -> option item) : list item -> option (list item) :=
  fix flat (l : list item) : option (list item) :=
    match l with
    | [] => Some []
    | Tup t n :: l' => option_map (cons (Tup t n)) (flat l')
    | Lst [y] :: l' => option_map (cons y) (flat l')
    | Lst ys :: l' =>
        match cl ys, flat l' with
        | Some y, Some r => Some (y :: r)
        | _, _ => None
        end
    end.

(** [Num2Word_Base.clean]: each turn of its [while] loop is one unfolding. *)
Fixpoint clean (fuel : nat) (val : list item) : option item :=
  match fuel with
  | O => None
  | S f =>
      match val with
      | [] => None
      | [x] => Some x
      | Tup lt ln :: Tup rt rn :: rest =>
          let '(t, n) := merge lt ln rt rn in
          clean f (Tup t n :: match rest with [] => [] | _ => [Lst rest] end)
      | _ =>
          match flat_with (clean f) val with
          | Some out => clean f out
          | None => None
          end
      end
  end.

(** Fuel for [clean]: every turn of the loop lowers this weight. *)
Fixpoint item_weight (x : item) : nat :=
  match x with
  | Tup _ _ => 1
  | Lst l => fold_right (fun y acc => item_weight y + 1 + acc) 0 l
  end%nat.

Definition list_weight (l : list item) : nat :=
  fold_right (fun y acc => item_weight y + 1 + acc)%nat 0%nat l.

(** [Num2Word_Base.to_cardinal] for an [int] argument ([is_title] is off). *)
Definition to_cardinal (cards : list (Z * string)) (value : Z) : outcome string :=
  let '(out, v) := if value <? 0 then ("minus ", - value) else ("", value) in
  if maxval cards <=? v then Raise OverflowError
  else
    match splitnum cards (S (S (Z.to_nat (Z.log2 v)))) v with
    | None => Raise (OtherExn "num2words")
    | Some val =>
        match clean (S (list_weight val)) val with
        | Some (Tup words _) => Ok (out ++ words)
        | _ => Raise (OtherExn "num2words")
        end
    end.

(** [num2words(n, to="cardinal", lang=lang)] for [lang] in [en], [en_IN]. *)
Definition cardinal (lang : string) (n : Z) : outcome string :=
  to_cardinal (if String.eqb lang "en_IN" then en_in_cards else en_cards) n.

End Num2Words.

(** ** [amount_to_words] *)

(** Amount strings are ASCII text here: [str.isdigit] is the ASCII digit
    test, which leaves out the non-ASCII characters Python's [isdigit]
    accepts and [int] refuses (such as "²"). *)

Module Amount.

(** The [try] block of [amount_to_words]: [parts = s.split(".")],
    [major = int(parts[0]) if parts[0] else 0],
    [minor = int((parts[1] + "00")[:2]) if len(parts) > 1 and parts[1].isdigit() else 0];
    [None] is the [except Exception: return ""] exit. *)
Definition parse_parts (s : string) : option (Z * Z) :=
  let parts := Py.split_char "." s in
  let p0 := hd EmptyString parts in
  let major := if String.eqb p0 "" then Some 0 else Py.int_of_string p0 in
  let minor :=
    match parts with
    | _ :: p1 :: _ =>
        if Py.isdigit p1 then Py.int_of_string (substring 0 2 (p1 ++ "00")) else Some 0
    | _ => Some 0
    end in
  match major, minor with
  | Some ma, Some mi => Some (ma, mi)
  | _, _ => None
  end.

(** [s = amount_str.strip().replace(",", "")] *)
Definition normalize (amount_str : string) : string :=
  Py.replace_char "," "" (Py.strip amount_str).

(** The [if cur == ...] chain: [(major_unit, minor_unit)]. *)
Definition unit_names (cur : string) (major minor : Z) : string * string :=
  if String.eqb cur "INR" then
    (if major =? 1 then "Rupee" else "Rupees", if minor =? 1 then "Paisa" else "Paise")
  else if existsb (String.eqb cur) ["USD"; "CAD"; "AUD"; "NZD"; "SGD"; "HKD"] then
    (if major =? 1 then "Dollar" else "Dollars", if minor =? 1 then "Cent" else "Cents")
  else if String.eqb cur "EUR" then
    (if major =? 1 then "Euro" else "Euros", if minor =? 1 then "Cent" else "Cents")
  else if String.eqb cur "GBP" then
    (if major =? 1 then "Pound" else "Pounds", "Pence")
  else if existsb (String.eqb cur) ["AED"; "SAR"; "QAR"; "OMR"; "BHD"; "KWD"] then
    (if String.eqb cur "AED" then "Dirham"
     else if existsb (String.eqb cur) ["SAR"; "QAR"; "OMR"] then "Rial" else "Dinar",
     "Fils")
  else ("", "").

(** The three [return f"..."] statements at the end. *)
Definition compose (major_words minor_words major_unit minor_unit : string) (minor : Z)
  : string :=
  if negb (minor =? 0) && negb (String.eqb minor_unit "") then
    Py.title major_words ++ " " ++ major_unit ++ " And " ++ Py.title minor_words ++ " "
      ++ minor_unit ++ " Only"
  else if negb (String.eqb major_unit "") then
    Py.title major_words ++ " " ++ major_unit ++ " Only"
  else if minor =? 0 then Py.title major_words ++ " Only"
  else Py.title major_words ++ " Point " ++ Py.title minor_words ++ " Only".

(** [lang = "en_IN" if currency_code.upper() == "INR" else "en"] *)
Definition lang_of (currency_code : string) : string :=
  if String.eqb (Py.upper currency_code) "INR" then "en_IN" else "en".

(** [num2words(n, to="cardinal", lang=lang).replace("-", " ")] *)
Definition words (lang : string) (n : Z) : outcome string :=
  w <- Num2Words.cardinal lang n ;; Ok (Py.replace_char "-" " " w).

Definition amount_to_words (amount_str currency_code : string) : outcome string :=
  if String.eqb amount_str "" then Ok ""
  else
    match parse_parts (normalize amount_str) with
    | None => Ok ""
    | Some (major, minor) =>
        let lang := lang_of currency_code in
        major_words <- words lang major ;;
        minor_words <- (if minor =? 0 then Ok "" else words lang minor) ;;
        let cur := Py.upper currency_code in
        let '(major_unit, minor_unit) := unit_names cur major minor in
        Ok (compose major_words minor_words major_unit minor_unit minor)
    end.

End Amount.

(** ** JSON values, external calls and the handler monad *)

(** Values decoded by [request.get_json] and [requests.Response.json]
    (integers only; floats are not modelled). *)
#[warnings="-register-all"]
Inductive jval : Type :=
| JNull
| JBool (b : bool)
| JNum (z : Z)
| JStr (s : string)
| JList (l : list jval)
| JObj (fields : list (string * jval)).

(** Python truthiness. *)
Definition truthy (v : jval) : bool :=
  match v with
  | JNull => false
  | JBool b => b
  | JNum z => negb (z =? 0)
  | JStr s => negb (String.eqb s "")
  | JList l => match l with [] => false | _ => true end
  | JObj f => match f with [] => false | _ => true end
  end.

(** [a or b] *)
Definition py_or (a b : jval) : jval := if truthy a then a else b.

Fixpoint assoc {A} (k : string) (l : list (string * A)) : option A :=
  match l with
  | [] => None
  | (k', v) :: l' => if String.eqb k k' then Some v else assoc k l'
  end.

(** [d.get(k, default)]: [AttributeError] when [d] is not a dict. *)
Definition get (d : jval) (k : string) (default : jval) : outcome jval :=
  match d with
  | JObj fs => Ok (match assoc k fs with Some v => v | None => default end)
  | _ => Raise AttributeError
  end.

(** The helper [upper(v)]: upper-cases strings, leaves other values. *)
Definition upper_v (v : jval) : jval :=
  match v with JStr s => JStr (Py.upper s) | _ => v end.

(** [v.strip()] on a value that must be a [str]. *)
Definition strip_v (v : jval) : outcome string :=
  match v with JStr s => Ok (Py.strip s) | _ => Raise AttributeError end.

(** Observable external calls of a request. *)
Inductive event : Type :=
| FetchPage (page_id : jval)      (** GET /v1/pages/{id} *)
| GetDatabase                     (** [notion_get_database(REMITTER_DB)] *)
| QueryAll                        (** [notion_query_all(REMITTER_DB)] *)
| DownloadImage (url : jval)      (** [requests.get(url)] of the signature *)
| OpenTemplate                    (** [DocxTemplate(path)] *)
| ListVars (with_env : bool)      (** [get_undeclared_template_variables] *)
| Render                          (** [tpl.render(ctx)] *)
| MakeDirs (target : string)      (** [out_p.parent.mkdir(parents=True, exist_ok=True)] *)
| SaveTo (target : string).       (** [tpl.save(...)] *)

(** Computations that record their external calls and may raise. *)
Definition M (A : Type) : Type := (outcome A * list event)%type.

Definition ret {A} (a : A) : M A := (Ok a, []).

Definition mbind {A B} (m : M A) (k : A -> M B) : M B :=
  match m with
  | (Ok a, t) => let '(r, t') := k a in (r, (t ++ t')%list)
  | (Raise e, t) => (Raise e, t)
  end.

Notation "'let!' x ':=' m 'in' k" := (mbind m (fun x => k))
  (at level 200, x name, m at level 100, k at level 200).

(** A pure step that may raise. *)
Definition lift {A} (o : outcome A) : M A := (o, []).

(** An external call with its answer. *)
Definition call {A} (ev : event) (answer : outcome A) : M A := (answer, [ev]).

(** [try: m except ...: h(e)] *)
Definition try_except {A} (m : M A) (h : exn -> M A) : M A :=
  match m with
  | (Raise e, t) => let '(r, t') := h e in (r, (t ++ t')%list)
  | _ => m
  end.

(** ** Notion property decoders *)

Module Notion.

(** [get_title(p)] *)
Definition get_title (p : jval) : outcome string :=
  arr <- get p "title" (JList []) ;;
  if negb (truthy arr) then Ok ""
  else
    match arr with
    | JList xs =>
        let fix join (xs : list jval) : outcome string :=
          match xs with
          | [] => Ok ""
          | x :: xs' =>
              t <- get x "plain_text" (JStr "") ;;
              r <- join xs' ;;
              match t with JStr s => Ok (s ++ r) | _ => Raise TypeError end
          end in
        join xs
    | JStr _ | JObj _ => Raise AttributeError
    | _ => Raise TypeError
    end.

(** [get_file_url(p)]: first file of a [files] property. *)
Definition get_file_url (p : jval) : outcome jval :=
  files <- get p "files" (JList []) ;;
  if negb (truthy files) then Ok (JStr "")
  else
    match files with
    | JList (f :: _) =>
        t <- get f "type" JNull ;;
        if match t with JStr s => String.eqb s "file" | _ => false end then
          o <- get f "file" (JObj []) ;; get o "url" (JStr "")
        else if match t with JStr s => String.eqb s "external" | _ => false end then
          o <- get f "external" (JObj []) ;; get o "url" (JStr "")
        else Ok (JStr "")
    | JStr _ => Raise AttributeError
    | JObj _ => Raise (OtherExn "KeyError")
    | _ => Raise TypeError
    end.

(** [title_prop_name(db)]: the first property of type [title], else "Name". *)
Definition title_prop_name (db : jval) : outcome string :=
  props <- get db "properties" (JObj []) ;;
  match props with
  | JObj fs =>
      let fix scan (fs : list (string * jval)) : outcome string :=
        match fs with
        | [] => Ok "Name"
        | (name, prop) :: fs' =>
            ty <- get prop "type" JNull ;;
            match ty with
            | JStr s => if String.eqb s "title" then Ok name else scan fs'
            | _ => scan fs'
            end
        end in
      scan fs
  | _ => Raise AttributeError
  end.

End Notion.

(** ** Signature resolution *)

Module Resolver.

(** Answers of the Notion API for the remitter database. *)
Record store : Type := {
  fetch_page : jval -> outcome jval;   (** GET /v1/pages/{id}, [raise_for_status], [.json()] *)
  get_database : outcome jval;         (** [notion_get_database(REMITTER_DB)] *)
  query_all : outcome (list jval)      (** [notion_query_all(REMITTER_DB)] *)
}.

(** The [for page in pages] loop of [find_remitter_signature_by_name]. *)
Fixpoint scan_pages (title_prop target_upper : string) (pages : list jval) : outcome jval :=
  match pages with
  | [] => Ok (JStr "")
  | page :: pages' =>
      props <- get page "properties" (JObj []) ;;
      tp <- get props title_prop (JObj []) ;;
      page_name <- Notion.get_title tp ;;
      if negb (String.eqb page_name "")
         && String.eqb (Py.upper (Py.strip page_name)) target_upper then
        sigp <- get props "Signature" (JObj []) ;; Notion.get_file_url sigp
      else scan_pages title_prop target_upper pages'
  end.

(** [find_remitter_signature_by_name(name)] *)
Definition find_by_name (st : store) (name : jval) : M jval :=
  if negb (truthy name) then ret (JStr "")
  else
    try_except
      (let! db := call GetDatabase (get_database st) in
       let! title_prop := lift (Notion.title_prop_name db) in
       let! pages := call QueryAll (query_all st) in
       let! target := lift (match name with
                            | JStr s => Ok (Py.upper (Py.strip s))
                            | _ => Raise AttributeError
                            end) in
       lift (scan_pages title_prop target pages))
      (fun _ => ret (JStr "")).

(** Step 2 of [fetch_signature_url_from_notion]: [Some url] is the [return url]
    inside the [try]; [None] is the fall-through after the [except]. *)
Definition by_identity (st : store) (page_id : jval) : M (option jval) :=
  try_except
    (let! page := call (FetchPage page_id) (fetch_page st page_id) in
     let! props := lift (get page "properties" (JObj [])) in
     let! sigp := lift (get props "Signature" (JObj [])) in
     let! url := lift (Notion.get_file_url sigp) in
     ret (Some url))
    (fun _ => ret None).

(** [fetch_signature_url_from_notion(remitter)] *)
Definition fetch_signature_url (st : store) (remitter : jval) : M jval :=
  let! su := lift (get remitter "signature_url" JNull) in
  let url := py_or su (JStr "") in
  if truthy url then ret url
  else
    let! page_id := lift (get remitter "id" JNull) in
    let! found := (if truthy page_id then by_identity st page_id else ret None) in
    match found with
    | Some u => ret u
    | None =>
        let! n1 := lift (get remitter "name" JNull) in
        let! name := (if truthy n1 then ret n1
                      else let! n2 := lift (get remitter "remitter_name" JNull) in
                           ret (py_or n2 (JStr ""))) in
        find_by_name st name
    end.

(** The resolver as the spec's section 4.3 words it: three ordered
    strategies, each a miss or a non-empty reference, the first hit wins. *)
Definition direct_ref (remitter : jval) : option jval :=
  match get remitter "signature_url" JNull with
  | Ok v => if truthy v then Some v else None
  | Raise _ => None
  end.

Definition identity_ref (st : store) (remitter : jval) : option jval :=
  match get remitter "id" JNull with
  | Ok pid =>
      if truthy pid then
        match by_identity st pid with
        | (Ok (Some u), _) => if truthy u then Some u else None
        | _ => None
        end
      else None
  | Raise _ => None
  end.

Fixpoint first_named (target : string) (title_prop : string) (pages : list jval)
  : option jval :=
  match pages with
  | [] => None
  | page :: pages' =>
      match get page "properties" (JObj []) with
      | Ok props =>
          match bind (get props title_prop (JObj [])) Notion.get_title with
          | Ok n =>
              if String.eqb (Py.upper (Py.strip n)) target then
                match bind (get props "Signature" (JObj [])) Notion.get_file_url with
                | Ok u => if truthy u then Some u else None
                | Raise _ => None
                end
              else first_named target title_prop pages'
          | Raise _ => first_named target title_prop pages'
          end
      | Raise _ => first_named target title_prop pages'
      end
  end.

Definition name_ref (st : store) (remitter : jval) : option jval :=
  let candidate :=
    match get remitter "name" JNull, get remitter "remitter_name" JNull with
    | Ok n1, Ok n2 => py_or n1 (py_or n2 (JStr ""))
    | _, _ => JNull
    end in
  match candidate, get_database st, query_all st with
  | JStr s, Ok db, Ok pages =>
      match Notion.title_prop_name db with
      | Ok tp => first_named (Py.upper (Py.strip s)) tp pages
      | Raise _ => None
      end
  | _, _, _ => None
  end.

Definition resolve_as_specified (st : store) (remitter : jval) : jval :=
  match direct_ref remitter with
  | Some u => u
  | None =>
      match identity_ref st remitter with
      | Some u => u
      | None => match name_ref st remitter with Some u => u | None => JStr "" end
      end
  end.

End Resolver.

(** ** Template variables, context builder and the [/generate] handler *)

Module Generate.

(** Values of the flat context: JSON values, or the [InlineImage] built
    from a downloaded signature. *)
Inductive cval : Type :=
| CJ (v : jval)
| CImage (url : jval).

Definition context : Type := list (string * cval).

(** Answers of the environment to one request. *)
Record world : Type := {
  env_error : option string;                 (** [_assert_env()]: the message it raises *)
  today : string;                            (** [str(datetime.date.today())] *)
  template_path : outcome string;            (** [_template_path()] *)
  open_template : outcome unit;              (** [DocxTemplate(str(path))] *)
  store : Resolver.store;
  download : jval -> outcome unit;           (** signature download in [build_signature_image] *)
  vars_with_env : outcome (list string);     (** [tpl.get_undeclared_template_variables(env)] *)
  vars_without_env : outcome (list string);  (** [tpl.get_undeclared_template_variables()] *)
  render : context -> outcome unit;          (** [tpl.render(ctx)] *)
  base_dir : string;                         (** [BASE_DIR] *)
  pure_path : string -> string;              (** [str(Path(p))] *)
  resolve : string -> outcome string;        (** [str(Path(p).resolve())] *)
  mkdir : string -> outcome unit;            (** [Path(p).parent.mkdir(parents=True, exist_ok=True)] *)
  save : string -> outcome unit;             (** [tpl.save(target)] *)
  exn_str : exn -> string                    (** [str(e)] of an exception raised by a library *)
}.

(** What the view returns: a JSON body with its status (the dict the view
    returns or hands to [jsonify], in its insertion order; Flask writes its
    keys sorted), or [send_file]
    with the four components of [safe_name]
    (["FILE NAME – {name} – {currency} {amount} – {date}"]).
    An exception escaping the view is the [Raise] of the monad. *)
Inductive response : Type :=
| Json (status : Z) (body : list (string * jval))
| SendFile (name : string) (currency : string) (amount : string) (date : string).

(** [sorted(...)] on strings: code point order. *)
Fixpoint insert_sorted (x : string) (l : list string) : list string :=
  match l with
  | [] => [x]
  | y :: l' => if String.ltb x y then x :: l else y :: insert_sorted x l'
  end.

Definition py_sorted (l : list string) : list string := fold_right insert_sorted [] l.

(** [list_template_vars(docx_path)]; the enumeration answers a Python set,
    given as a duplicate-free list. *)
Definition list_template_vars (w : world) : M (list string) :=
  let! _ := call OpenTemplate (open_template w) in
  try_except
    (let! vs := call (ListVars true) (vars_with_env w) in ret (py_sorted vs))
    (fun e =>
       match e with
       | TypeError => let! vs := call (ListVars false) (vars_without_env w) in
                      ret (py_sorted vs)
       | _ => ret []
       end).

(** [build_signature_image(tpl, url)] *)
Definition build_signature_image (w : world) (url : jval) : M cval :=
  if negb (truthy url) then ret (CJ (JStr ""))
  else
    try_except
      (let! _ := call (DownloadImage url) (download w url) in ret (CImage url))
      (fun _ => ret (CJ (JStr ""))).

Inductive source : Type := FromBeneficiary | FromRemitter.

(** The beneficiary and remitter entries of the [ctx] literal:
    context key, record read, key read, whether [upper] is applied. *)
Definition record_fields : list (string * source * string * bool) :=
  [("beneficiary_account_number", FromBeneficiary, "beneficiary_account_number", false);
   ("beneficiary_name", FromBeneficiary, "beneficiary_name", true);
   ("beneficiary_address", FromBeneficiary, "beneficiary_address", true);
   ("beneficiary_country", FromBeneficiary, "beneficiary_country", true);
   ("beneficiary_bank_name", FromBeneficiary, "beneficiary_bank_name", true);
   ("beneficiary_bank_address", FromBeneficiary, "beneficiary_bank_address", true);
   ("beneficiary_bank_country", FromBeneficiary, "beneficiary_bank_country", true);
   ("beneficiary_bank_swift", FromBeneficiary, "beneficiary_bank_swift", true);
   ("intermediary_bank_name", FromBeneficiary, "intermediary_bank_name", true);
   ("intermediary_bank_address", FromBeneficiary, "intermediary_bank_address", true);
   ("intermediary_bank_swift", FromBeneficiary, "intermediary_bank_swift", true);
   ("remitter_name", FromRemitter, "name", true);
   ("remitter_account_no", FromRemitter, "account_no", false);
   ("remitter_address", FromRemitter, "address", true);
   ("remitter_phone", FromRemitter, "phone", false);
   ("remitter_id_type", FromRemitter, "id_type", true);
   ("remitter_id_value", FromRemitter, "id_value", true)].

Fixpoint record_entries (beneficiary remitter : jval)
  (fs : list (string * source * string * bool)) : outcome (list (string * cval)) :=
  match fs with
  | [] => Ok []
  | (key, src, k, up) :: fs' =>
      v <- get (match src with FromBeneficiary => beneficiary | FromRemitter => remitter end)
               k (JStr "") ;;
      rest <- record_entries beneficiary remitter fs' ;;
      Ok ((key, CJ (if up then upper_v v else v)) :: rest)
  end.

(** Lines from [data.get("beneficiary", {})] to the end of the [ctx]
    literal: the three records, the normalized currency and [ctx]. *)
Definition build_context (today : string) (data : jval)
  : outcome (jval * jval * jval * string * context) :=
  beneficiary <- get data "beneficiary" (JObj []) ;;
  remitter <- get data "remitter" (JObj []) ;;
  extra <- get data "extra" (JObj []) ;;
  c0 <- get extra "currency" JNull ;;
  cs <- strip_v (py_or c0 (JStr "USD")) ;;
  let currency := Py.upper cs in
  a0 <- get extra "amount_figures" JNull ;;
  amount_figures <- strip_v (py_or a0 (JStr "")) ;;
  words <- Amount.amount_to_words amount_figures currency ;;
  let amount_figures_text := Py.upper words in
  recs <- record_entries beneficiary remitter record_fields ;;
  d0 <- get extra "date" JNull ;;
  ch <- get extra "charges" (JStr "SHA") ;;
  acc <- get extra "account_to_be_debited_number_currency" (JStr "") ;;
  notes <- get extra "notes" (JStr "") ;;
  Ok (beneficiary, remitter, extra, currency,
      (recs ++
       [("date", CJ (py_or d0 (JStr today)));
        ("currency", CJ (JStr currency));
        ("amount_figures", CJ (JStr amount_figures));
        ("amount_figures_text", CJ (JStr amount_figures_text));
        ("charges", CJ (upper_v ch));
        ("account_to_be_debited_number_currency", CJ (upper_v acc));
        ("notes", CJ (upper_v notes))])%list).

(** [missing = [m for m in wanted if m not in ctx]] *)
Definition missing_vars (wanted : list string) (ctx : context) : list string :=
  filter (fun m => negb (existsb (String.eqb m) (map fst ctx))) wanted.

Definition missing_response (missing : list string) : response :=
  Json 400 [("ok", JBool false); ("error", JStr "Missing variables for template");
            ("missing_variables", JList (map JStr missing))].

Definition replace_unsafe (s : string) : string :=
  Py.replace_char "/" "-" (Py.replace_char ":" "-" s).

(** From [missing = ...] to the end of the [try] block. *)
Definition render_stage (w : world) (tpl_path currency : string) (ctx : context)
  (wanted : list string) (beneficiary extra : jval) : M response :=
  match missing_vars wanted ctx with
  | (_ :: _) as missing => ret (missing_response missing)
  | [] =>
      let! _ := call Render (render w ctx) in
      let! ov := lift (get extra "overwrite" JNull) in
      let! op := lift (get extra "out_path" JNull) in
      if truthy ov then
        let! _ := call (SaveTo tpl_path) (save w tpl_path) in
        ret (Json 200 [("ok", JBool true); ("message", JStr ("Overwrote template: " ++ tpl_path))])
      else if truthy op then
        let! p := lift (match op with JStr s => Ok s | _ => Raise TypeError end) in
        let! out_p := lift (if String.prefix "/" p then Ok (pure_path w p)
                            else resolve w (base_dir w ++ "/" ++ p)) in
        let! _ := call (MakeDirs out_p) (mkdir w out_p) in
        let! _ := call (SaveTo out_p) (save w out_p) in
        ret (Json 200 [("ok", JBool true); ("message", JStr ("Saved to: " ++ out_p))])
      else
        let! _ := call (SaveTo "") (save w "") in
        let! bn0 := lift (get beneficiary "beneficiary_name" JNull) in
        let! bn := lift (strip_v (py_or bn0 (JStr "Unknown"))) in
        let! av0 := lift (get extra "amount_figures" JNull) in
        let! av := lift (strip_v (py_or av0 (JStr "0"))) in
        let! cd0 := lift (get extra "date" JNull) in
        let! cd := lift (strip_v (py_or cd0 (JStr (today w)))) in
        ret (SendFile (replace_unsafe (Py.upper (Py.replace_char "/" "-" bn)))
                      (replace_unsafe (Py.upper (Py.strip currency)))
                      (replace_unsafe (Py.replace_char "," "" av))
                      (replace_unsafe cd))
  end.

(** [type(e).__name__] *)
Definition exn_name (e : exn) : string :=
  match e with
  | OverflowError => "OverflowError"
  | ValueError => "ValueError"
  | TypeError => "TypeError"
  | AttributeError => "AttributeError"
  | RuntimeError _ => "RuntimeError"
  | HTTPError _ => "HTTPError"
  | OtherExn n => n
  end.

(** [str(e)]: the message given to the constructor, or the library's. *)
Definition exn_message (w : world) (e : exn) : string :=
  match e with
  | RuntimeError m | HTTPError m => m
  | _ => exn_str w e
  end.

(** [f"{type(e).__name__}: {e}"] *)
Definition exn_text (w : world) (e : exn) : string :=
  exn_name e ++ ": " ++ exn_message w e.

Definition error_response (status : Z) (msg : string) : response :=
  Json status [("ok", JBool false); ("error", JStr msg)].

(** The [try] block of [generate]. *)
Definition generate_block (w : world) (currency : string) (ctx : context)
  (beneficiary remitter extra : jval) : M response :=
  let! tpl_path := lift (template_path w) in
  let! _ := call OpenTemplate (open_template w) in
  let! sig := Resolver.fetch_signature_url (store w) remitter in
  let! img := build_signature_image w sig in
  let ctx' := (ctx ++ [("signature", img)])%list in
  let! wanted := list_template_vars w in
  render_stage w tpl_path currency ctx' wanted beneficiary extra.

(** [generate()]; [body] is [request.get_json(force=True)]. *)
Definition generate (w : world) (body : outcome jval) : M response :=
  match env_error w with
  | Some msg => ret (error_response 400 msg)
  | None =>
      let! data := lift body in
      let! built := lift (build_context (today w) data) in
      let '(beneficiary, remitter, extra, currency, ctx) := built in
      try_except (generate_block w currency ctx beneficiary remitter extra)
                 (fun e => ret (error_response 500 (exn_text w e)))
  end.

End Generate.

(** ** Configuration checks: [_template_path], [_assert_env], [/debug/env] *)

Module Env.

(** The configuration read when the module is imported, and the file
    system answers [pathlib] gives for it. *)
Record config : Type := {
  NOTION_TOKEN : string;
  REMITTER_DB : string;
  BENEFICIARY_DB : string;
  TT_TEMPLATE_RAW : string;
  BASE_DIR : string;
  pure_path : string -> string;   (** [str(Path(raw))] *)
  resolve : string -> outcome string;     (** [str(Path(p).resolve())] *)
  path_exists : string -> outcome bool    (** [Path(p).exists()], which may raise (e.g. [PermissionError]) *)
}.

(** [_template_path()]; [Path(raw).is_absolute()] is a leading slash and
    [BASE_DIR / p] joins with one. *)
Definition template_path (c : config) : outcome string :=
  let raw := Py.strip (TT_TEMPLATE_RAW c) in
  if String.eqb raw "" then Raise (RuntimeError "TT_TEMPLATE missing.")
  else
    p <- (if String.prefix "/" raw then Ok (pure_path c raw)
          else resolve c (BASE_DIR c ++ "/" ++ raw)) ;;
    ex <- path_exists c p ;;
    if ex then Ok p else Raise (RuntimeError ("Template not found: " ++ p)).

(** [_assert_env()] *)
Definition assert_env (c : config) : outcome unit :=
  let tok := NOTION_TOKEN c in
  if String.eqb tok "" then Raise (RuntimeError "NOTION_TOKEN missing.")
  else if negb (String.prefix "secret_" tok || String.prefix "ntn_" tok) then
    Raise (RuntimeError "NOTION_TOKEN must start with 'secret_' or 'ntn_'.")
  else if negb ((String.length (REMITTER_DB c) =? 32)%nat
                && (String.length (BENEFICIARY_DB c) =? 32)%nat) then
    Raise (RuntimeError "Database IDs must be 32 characters (no dashes).")
  else _ <- template_path c ;; Ok tt.

(** The JSON body of [debug_env()]. *)
Definition debug_env (c : config) : list (string * jval) :=
  let '(tpl_exists, tpl_str) :=
    match (p <- template_path c ;; ex <- path_exists c p ;; Ok (ex, p)) with
    | Ok (ex, p) => (ex, p)
    | Raise _ => (false, TT_TEMPLATE_RAW c)
    end in
  let tok := NOTION_TOKEN c in
  [("token_prefix", if String.eqb tok "" then JNull else JStr (substring 0 6 tok ++ "..."));
   ("rem_db_len", JNum (Z.of_nat (String.length (REMITTER_DB c))));
   ("ben_db_len", JNum (Z.of_nat (String.length (BENEFICIARY_DB c))));
   ("template_env", JStr (TT_TEMPLATE_RAW c));
   ("template_resolved", JStr tpl_str);
   ("template_exists", JBool tpl_exists)].

End Env.

(** ** Python [str()] of a decoded JSON value *)

Module PyStr.

Definition dq : ascii := ascii_of_nat 34.
Definition bs : ascii := ascii_of_nat 92.

Definition hex_digit (n : nat) : ascii :=
  ascii_of_nat (if (n <? 10)%nat then 48 + n else 87 + n)%nat.

(** The characters of [repr(s)] between the quotes [q]. *)
Fixpoint repr_chars (q : ascii) (s : string) : string :=
  match s with
  | EmptyString => EmptyString
  | String c s' =>
      let n := nat_of_ascii c in
      let e :=
        if Ascii.eqb c q || Ascii.eqb c bs then String bs (String c EmptyString)
        else if (n =? 9)%nat then String bs "t"
        else if (n =? 10)%nat then String bs "n"
        else if (n =? 13)%nat then String bs "r"
        else if (n <? 32)%nat || (n =? 127)%nat then
          String bs (String "x" (String (hex_digit (n / 16)) (String (hex_digit (n mod 16)) EmptyString)))
        else String c EmptyString in
      e ++ repr_chars q s'
  end.

Definition has_char (c : ascii) (s : string) : bool :=
  existsb (Ascii.eqb c) (list_ascii_of_string s).

(** [repr(s)]: single quotes unless [s] has a single and no double quote. *)
Definition repr_str (s : string) : string :=
  let q := if has_char "'" s && negb (has_char dq s) then dq else "'"%char in
  String q (repr_chars q s ++ String q EmptyString).

(** [str(n)] for an [int]. *)
Definition int_str (z : Z) : string := NilZero.string_of_int (Z.to_int z).

Fixpoint join (sep : string) (l : list string) : string :=
  match l with
  | [] => ""
  | [x] => x
  | x :: l' => x ++ sep ++ join sep l'
  end.

(** [repr(v)] *)
Fixpoint repr (v : jval) : string :=
  match v with
  | JNull => "None"
  | JBool b => if b then "True" else "False"
  | JNum z => int_str z
  | JStr s => repr_str s
  | JList l => "[" ++ join ", " (map repr l) ++ "]"
  | JObj fs =>
      "{" ++ join ", " (map (fun kv => repr_str (fst kv) ++ ": " ++ repr (snd kv)) fs) ++ "}"
  end.

(** [str(v)] *)
Definition str (v : jval) : string :=
  match v with JStr s => s | _ => repr v end.

End PyStr.

(** ** Notion record codecs: [get_rich], [get_phone], [get_select],
    [parse_remitter], [parse_beneficiary] and the property builders *)

Module Codec.

(** [get_rich(p)] *)
Definition get_rich (p : jval) : outcome string :=
  arr <- get p "rich_text" (JList []) ;;
  if negb (truthy arr) then Ok ""
  else
    match arr with
    | JList xs =>
        let fix join (xs : list jval) : outcome string :=
          match xs with
          | [] => Ok ""
          | x :: xs' =>
              t <- get x "plain_text" (JStr "") ;;
              r <- join xs' ;;
              match t with JStr s => Ok (s ++ r) | _ => Raise TypeError end
          end in
        join xs
    | JStr _ | JObj _ => Raise AttributeError
    | _ => Raise TypeError
    end.

(** [get_phone(p)] *)
Definition get_phone (p : jval) : outcome jval :=
  v <- get p "phone_number" JNull ;; Ok (py_or v (JStr "")).

(** [get_select(p)] *)
Definition get_select (p : jval) : outcome jval :=
  s <- get p "select" JNull ;; get (py_or s (JObj [])) "name" (JStr "").

(** The decoders the two parsers apply to a property. *)
Inductive decoder : Type := DTitle | DRich | DPhone | DSelect | DFile.

Definition decode (d : decoder) (p : jval) : outcome jval :=
  match d with
  | DTitle => s <- Notion.get_title p ;; Ok (JStr s)
  | DRich => s <- get_rich p ;; Ok (JStr s)
  | DPhone => get_phone p
  | DSelect => get_select p
  | DFile => Notion.get_file_url p
  end.

(** The property read: the title property [t] or a named one. *)
Inductive prop_name : Type := PTitle | PNamed (name : string).

(** The entries after ["id"] of the dict literal of [parse_remitter]. *)
Definition remitter_layout : list (string * prop_name * decoder) :=
  [("name", PTitle, DTitle);
   ("account_no", PNamed "Account No", DRich);
   ("address", PNamed "Address", DRich);
   ("phone", PNamed "Phone", DPhone);
   ("id_type", PNamed "ID Type", DSelect);
   ("id_value", PNamed "ID Value", DRich);
   ("signature_url", PNamed "Signature", DFile)].

(** The entries after ["id"] of the dict literal of [parse_beneficiary]. *)
Definition beneficiary_layout : list (string * prop_name * decoder) :=
  [("beneficiary_name", PTitle, DTitle);
   ("beneficiary_account_number", PNamed "Beneficiary Account Number", DRich);
   ("beneficiary_address", PNamed "Beneficiary Address", DRich);
   ("beneficiary_country", PNamed "Beneficiary Country", DSelect);
   ("beneficiary_bank_name", PNamed "Beneficiary Bank Name", DRich);
   ("beneficiary_bank_address", PNamed "Beneficiary Bank Address", DRich);
   ("beneficiary_bank_country", PNamed "Beneficiary Bank Country", DSelect);
   ("beneficiary_bank_swift", PNamed "Beneficiary Bank SWIFT", DRich);
   ("intermediary_bank_name", PNamed "Intermediary Bank Name", DRich);
   ("intermediary_bank_address", PNamed "Intermediary Bank Address", DRich);
   ("intermediary_bank_swift", PNamed "Intermediary Bank SWIFT", DRich)].

Fixpoint parse_entries (p : jval) (t : string) (layout : list (string * prop_name * decoder))
  : outcome (list (string * jval)) :=
  match layout with
  | [] => Ok []
  | (key, pn, d) :: layout' =>
      x <- get p (match pn with PTitle => t | PNamed n => n end) (JObj []) ;;
      v <- decode d x ;;
      rest <- parse_entries p t layout' ;;
      Ok ((key, v) :: rest)
  end.

(** [p = page.get("properties", {})], then the dict literal. *)
Definition parse_with (layout : list (string * prop_name * decoder)) (page : jval) (t : string)
  : outcome (list (string * jval)) :=
  p <- get page "properties" (JObj []) ;;
  id <- get page "id" JNull ;;
  rest <- parse_entries p t layout ;;
  Ok (("id", id) :: rest).

Definition parse_remitter (page : jval) (t : string) : outcome (list (string * jval)) :=
  parse_with remitter_layout page t.

Definition parse_beneficiary (page : jval) (t : string) : outcome (list (string * jval)) :=
  parse_with beneficiary_layout page t.

Definition content (v : jval) : jval := JObj [("text", JObj [("content", JStr (PyStr.str v))])].

(** [_title], [_rich], [_phone], [_select] *)
Definition title_ (v : jval) : jval := JObj [("title", JList [content v])].
Definition rich_ (v : jval) : jval := JObj [("rich_text", JList [content v])].
Definition phone_ (v : jval) : jval :=
  JObj [("phone_number", JStr (match v with JNull => "" | _ => PyStr.str v end))].
Definition select_ (v : jval) : jval :=
  if truthy v then JObj [("select", JObj [("name", JStr (PyStr.str v))])]
  else JObj [("select", JNull)].

(** [d[k] = v] on a dict: replaces in place, or appends a new key. *)
Fixpoint dict_set {A} (k : string) (v : A) (d : list (string * A)) : list (string * A) :=
  match d with
  | [] => [(k, v)]
  | (k', v') :: d' => if String.eqb k k' then (k, v) :: d' else (k', v') :: dict_set k v d'
  end.

(** One assignment [props[key] = enc(upper(row.get(k, "")))] (or without
    [upper]). *)
Record assignment : Type := {
  target : prop_name;
  source_key : string;
  uppercase : bool;
  encoder : jval -> jval
}.

Fixpoint build_with (row : jval) (title_prop : string) (asg : list assignment)
  (props : list (string * jval)) : outcome (list (string * jval)) :=
  match asg with
  | [] => Ok props
  | a :: asg' =>
      v <- get row (source_key a) (JStr "") ;;
      let key := match target a with PTitle => title_prop | PNamed n => n end in
      build_with row title_prop asg'
        (dict_set key (encoder a (if uppercase a then upper_v v else v)) props)
  end.

Definition remitter_assignments : list assignment :=
  [{| target := PTitle; source_key := "name"; uppercase := true; encoder := title_ |};
   {| target := PNamed "Account No"; source_key := "account_no"; uppercase := false; encoder := rich_ |};
   {| target := PNamed "Address"; source_key := "address"; uppercase := true; encoder := rich_ |};
   {| target := PNamed "Phone"; source_key := "phone"; uppercase := false; encoder := phone_ |};
   {| target := PNamed "ID Type"; source_key := "id_type"; uppercase := true; encoder := select_ |};
   {| target := PNamed "ID Value"; source_key := "id_value"; uppercase := true; encoder := rich_ |}].

(** [r = lambda k: _rich(upper(row.get(k,"")))] and [s] likewise. *)
Definition r_ (name k : string) : assignment :=
  {| target := PNamed name; source_key := k; uppercase := true; encoder := rich_ |}.
Definition s_ (name k : string) : assignment :=
  {| target := PNamed name; source_key := k; uppercase := true; encoder := select_ |}.

Definition beneficiary_assignments : list assignment :=
  [{| target := PTitle; source_key := "beneficiary_name"; uppercase := true; encoder := title_ |};
   {| target := PNamed "Beneficiary Account Number"; source_key := "beneficiary_account_number";
      uppercase := false; encoder := rich_ |};
   r_ "Beneficiary Address" "beneficiary_address";
   s_ "Beneficiary Country" "beneficiary_country";
   r_ "Beneficiary Bank Name" "beneficiary_bank_name";
   r_ "Beneficiary Bank Address" "beneficiary_bank_address";
   s_ "Beneficiary Bank Country" "beneficiary_bank_country";
   r_ "Beneficiary Bank SWIFT" "beneficiary_bank_swift";
   r_ "Intermediary Bank Name" "intermediary_bank_name";
   r_ "Intermediary Bank Address" "intermediary_bank_address";
   r_ "Intermediary Bank SWIFT" "intermediary_bank_swift"].

Definition build_remitter_properties (row : jval) (title_prop : string)
  : outcome (list (string * jval)) :=
  build_with row title_prop remitter_assignments [].

Definition build_beneficiary_properties (row : jval) (title_prop : string)
  : outcome (list (string * jval)) :=
  build_with row title_prop beneficiary_assignments [].

End Codec.

(** ** The record API: [notion_get_database], [notion_query_all],
    [/api/options], [/api/record], [/api/upsert] *)

Module Api.

(** How a call ends: [abort(code, description)], another exception, or
    (for the unbounded [while True] loop) no end within the fuel given. *)
Inductive failure : Type :=
| Abort (code : Z) (description : string)
| Exc (e : exn)
| OutOfFuel.

Inductive result (A : Type) : Type :=
| Done (a : A)
| Fail (f : failure).
Arguments Done {A} a.
Arguments Fail {A} f.

(** Requests sent to the Notion API. *)
Inductive request : Type :=
| GetDatabaseReq (dbid : string)                          (** GET /v1/databases/{id} *)
| QueryReq (dbid : string) (payload : list (string * jval)) (** POST /v1/databases/{id}/query *)
| GetPageReq (page_id : string)                           (** GET /v1/pages/{id} *)
| PatchPageReq (page_id : jval) (body : jval)             (** PATCH /v1/pages/{id} *)
| CreatePageReq (body : jval).                            (** POST /v1/pages *)

Definition AM (A : Type) : Type := (result A * list request)%type.

Definition aret {A} (a : A) : AM A := (Done a, []).

Definition abind {A B} (m : AM A) (k : A -> AM B) : AM B :=
  match m with
  | (Done a, t) => let '(r, t') := k a in (r, (t ++ t')%list)
  | (Fail f, t) => (Fail f, t)
  end.

Notation "'let?' x ':=' m 'in' k" := (abind m (fun x => k))
  (at level 200, x name, m at level 100, k at level 200).

Definition alift {A} (o : outcome A) : AM A :=
  match o with Ok a => (Done a, []) | Raise e => (Fail (Exc e), []) end.

Definition abort {A} (code : Z) (description : string) : AM A :=
  (Fail (Abort code description), []).

(** A [requests] response. *)
Record http_response : Type := {
  status_code : Z;
  reason : string;      (** [res.reason] *)
  url : string;         (** [res.url] *)
  text : string;
  json : outcome jval   (** [res.json()] *)
}.

(** Answers of the Notion API ([requests] raising is [Raise]). *)
Record world : Type := {
  cfg : Env.config;
  http_get_database : string -> outcome http_response;
  http_query : string -> list (string * jval) -> outcome http_response;
  http_get_page : string -> outcome http_response;
  http_patch : jval -> jval -> outcome http_response;
  http_create : jval -> outcome http_response
}.

Definition send {A} (req : request) (answer : outcome A) : AM A :=
  let '(r, _) := alift answer in (r, [req]).

(** The message [raise_for_status] gives its [HTTPError]. *)
Definition http_error_msg (r : http_response) : string :=
  PyStr.int_str (status_code r) ++
  (if status_code r <? 500 then " Client Error: " else " Server Error: ") ++
  reason r ++ " for url: " ++ url r.

(** [r.raise_for_status()]: 4xx and 5xx raise [requests.HTTPError]. *)
Definition raise_for_status (r : http_response) : AM unit :=
  if (400 <=? status_code r) && (status_code r <? 600)
  then alift (Raise (HTTPError (http_error_msg r))) else aret tt.

(** [notion_get_database(dbid)] *)
Definition notion_get_database (w : world) (dbid : string) : AM jval :=
  let? r := send (GetDatabaseReq dbid) (http_get_database w dbid) in
  if status_code r =? 404 then abort 404 ("Database not found or not shared: " ++ dbid)
  else let? _ := raise_for_status r in alift (json r).

(** [results.extend(x)] for a decoded JSON value [x]. *)
Definition extend (acc : list jval) (x : jval) : outcome (list jval) :=
  match x with
  | JList l => Ok (acc ++ l)%list
  | JObj fs => Ok (acc ++ map (fun kv => JStr (fst kv)) fs)%list
  | JStr s => Ok (acc ++ map (fun c => JStr (String c EmptyString)) (list_ascii_of_string s))%list
  | _ => Raise TypeError
  end.

(** The [while True] loop of [notion_query_all(dbid)]; [fuel] bounds the
    number of turns. *)
Fixpoint query_loop (w : world) (dbid : string) (fuel : nat)
  (payload : list (string * jval)) (results : list jval) : AM (list jval) :=
  match fuel with
  | O => (Fail OutOfFuel, [])
  | S f =>
      let? r := send (QueryReq dbid payload) (http_query w dbid payload) in
      let? _ := raise_for_status r in
      let? data := alift (json r) in
      let? rs := alift (get data "results" (JList [])) in
      let? results' := alift (extend results rs) in
      let? hm := alift (get data "has_more" JNull) in
      if negb (truthy hm) then aret results'
      else
        let? nc := alift (get data "next_cursor" JNull) in
        query_loop w dbid f (Codec.dict_set "start_cursor" nc payload) results'
  end.

Definition notion_query_all (w : world) (dbid : string) (fuel : nat) : AM (list jval) :=
  query_loop w dbid fuel [] [].

(** [[parse(p, t) for p in pages]] *)
Fixpoint parse_all (parse : jval -> string -> outcome (list (string * jval))) (t : string)
  (pages : list jval) : outcome (list (list (string * jval))) :=
  match pages with
  | [] => Ok []
  | p :: ps => r <- parse p t ;; rs <- parse_all parse t ps ;; Ok (r :: rs)
  end.

(** [r[k]] on a dict. *)
Definition index (d : list (string * jval)) (k : string) : outcome jval :=
  match assoc k d with Some v => Ok v | None => Raise (OtherExn "KeyError") end.

(** [[{"id": r["id"], "name": r[k]} for r in records]] *)
Fixpoint summaries (k : string) (records : list (list (string * jval))) : outcome (list jval) :=
  match records with
  | [] => Ok []
  | r :: rs =>
      i <- index r "id" ;; n <- index r k ;; rest <- summaries k rs ;;
      Ok (JObj [("id", i); ("name", n)] :: rest)
  end.

(** [api_options()] *)
Definition api_options (w : world) (fuel : nat) : AM Generate.response :=
  let c := cfg w in
  let? _ := alift (Env.assert_env c) in
  let? rem_db := notion_get_database w (Env.REMITTER_DB c) in
  let? ben_db := notion_get_database w (Env.BENEFICIARY_DB c) in
  let? r_title := alift (Notion.title_prop_name rem_db) in
  let? b_title := alift (Notion.title_prop_name ben_db) in
  let? r_pages := notion_query_all w (Env.REMITTER_DB c) fuel in
  let? b_pages := notion_query_all w (Env.BENEFICIARY_DB c) fuel in
  let? remitters := alift (parse_all Codec.parse_remitter r_title r_pages) in
  let? beneficiaries := alift (parse_all Codec.parse_beneficiary b_title b_pages) in
  let? rs := alift (summaries "name" remitters) in
  let? bs := alift (summaries "beneficiary_name" beneficiaries) in
  aret (Generate.Json 200
          [("remitters", JList rs); ("beneficiaries", JList bs);
           ("title_props", JObj [("remitter", JStr r_title); ("beneficiary", JStr b_title)])]).

Definition rtype_error : string := "rtype must be remitter or beneficiary".

(** [api_record(rtype, page_id)] *)
Definition api_record (w : world) (rtype page_id : string) : AM Generate.response :=
  let c := cfg w in
  let? _ := alift (Env.assert_env c) in
  if negb (String.eqb rtype "remitter" || String.eqb rtype "beneficiary") then abort 400 rtype_error
  else
    let is_rem := String.eqb rtype "remitter" in
    let? db := notion_get_database w (if is_rem then Env.REMITTER_DB c else Env.BENEFICIARY_DB c) in
    let? title := alift (Notion.title_prop_name db) in
    let? r := send (GetPageReq page_id) (http_get_page w page_id) in
    let? _ := raise_for_status r in
    let? page := alift (json r) in
    let? data := alift (if is_rem then Codec.parse_remitter page title
                        else Codec.parse_beneficiary page title) in
    aret (Generate.Json 200 data).

(** [upper_body(obj)] *)
Definition upper_body (obj : jval) : jval :=
  match obj with
  | JObj fs => JObj (map (fun kv => (fst kv, upper_v (snd kv))) fs)
  | _ => obj
  end.

(** [api_upsert(rtype)]; [body0] is [request.get_json(force=True)]. *)
Definition api_upsert (w : world) (rtype : string) (body0 : jval) : AM Generate.response :=
  let c := cfg w in
  let? _ := alift (Env.assert_env c) in
  let body := upper_body body0 in
  let? props :=
    (if String.eqb rtype "remitter" then
       let? db := notion_get_database w (Env.REMITTER_DB c) in
       let? title := alift (Notion.title_prop_name db) in
       alift (Codec.build_remitter_properties body title)
     else if String.eqb rtype "beneficiary" then
       let? db := notion_get_database w (Env.BENEFICIARY_DB c) in
       let? title := alift (Notion.title_prop_name db) in
       alift (Codec.build_beneficiary_properties body title)
     else abort 400 rtype_error) in
  let? page_id := alift (get body "id" JNull) in
  let? res :=
    (if truthy page_id then
       let req := JObj [("properties", JObj props)] in
       send (PatchPageReq page_id req) (http_patch w page_id req)
     else
       let target_db := if String.eqb rtype "remitter" then Env.REMITTER_DB c
                        else Env.BENEFICIARY_DB c in
       let payload := JObj [("parent", JObj [("database_id", JStr target_db)]);
                            ("properties", JObj props)] in
       send (CreatePageReq payload) (http_create w payload)) in
  if 300 <=? status_code res then
    aret (Generate.Json 400 [("ok", JBool false); ("error", JStr (text res));
                             ("status", JNum (status_code res))])
  else
    let? page := alift (json res) in
    aret (Generate.Json 200 [("ok", JBool true); ("page", page)]).

End Api.

(** ** Definitions used by the properties *)

Module Context.
Import Generate.

(** The value of one context key after a successful build. *)
Definition context_field (today : string) (data : jval) (key : string) : option cval :=
  match build_context today data with
  | Ok (_, _, _, _, ctx) => assoc key ctx
  | Raise _ => None
  end.

(** The end-to-end request of the spec. *)
Definition scenario : jval :=
  JObj [("remitter", JObj [("name", JStr "Alice"); ("account_no", JStr "123")]);
        ("beneficiary", JObj [("beneficiary_name", JStr "Bob")]);
        ("extra", JObj [("currency", JStr "INR"); ("amount_figures", JStr "1500.50")])].

End Context.

(** The minor part as section 4.1 words it: the first two digits after the
    decimal point, a single digit padded with a zero, a non-numeric
    fractional part read as zero. *)
Definition minor_as_specified (frac : string) : Z :=
  if Py.isdigit frac then
    match frac with
    | String a EmptyString => 10 * Py.digit_value a
    | String a (String b _) => 10 * Py.digit_value a + Py.digit_value b
    | EmptyString => 0
    end
  else 0.

(** Shapes of the speller's internal values. *)

Module Shapes.
Import Num2Words.

(** Nested lists with no empty sub-list. *)
Fixpoint wf_item (x : item) : Prop :=
  match x with
  | Tup _ _ => True
  | Lst l =>
      l <> [] /\
      (fix wf_all (l : list item) : Prop :=
         match l with [] => True | y :: l' => wf_item y /\ wf_all l' end) l
  end.

Fixpoint wf_all (l : list item) : Prop :=
  match l with [] => True | y :: l' => wf_item y /\ wf_all l' end.

(** The lists [clean] is called on: at least two items, or one tuple. *)
Definition wf_list (l : list item) : Prop :=
  wf_all l /\ ((2 <= length l)%nat \/ exists t n, l = [Tup t n]).

Fixpoint count_lst (l : list item) : nat :=
  match l with
  | [] => 0
  | Lst _ :: l' => S (count_lst l')
  | Tup _ _ :: l' => count_lst l'
  end.

(** The properties of [cards] that [splitnum]'s recursion relies on. *)
Definition cards_ok (cards : list (Z * string)) : Prop :=
  (forall v, 2 <= v -> exists e w,
     find (fun kw => fst kw <=? v) cards = Some (e, w) /\ 2 <= e <= v) /\
  (exists w, find (fun kw => fst kw <=? 1) cards = Some (1, w)) /\
  (exists w, find (fun kw => fst kw <=? 0) cards = Some (0, w)).

Fixpoint two_before_small (cards : list (Z * string)) : bool :=
  match cards with
  | [] => false
  | (k, _) :: r => if k =? 2 then true else if k <? 2 then false else two_before_small r
  end.

End Shapes.

(** The [MAXVAL] of the converter [amount_to_words] picks: [en_IN] for INR,
    [en] otherwise. *)
Definition speller_limit (currency_code : string) : Z :=
  if String.eqb (Py.upper currency_code) "INR" then 10 ^ 10 else 10 ^ 306.



(** Strict code-point order on strings, the order of Python's [sorted]. *)
Definition str_lt (a b : string) : Prop := String.ltb a b = true.

(** [remitter.get(k)] on a remitter object. *)
Definition field (fs : list (string * jval)) (k : string) : jval :=
  match assoc k fs with Some v => v | None => JNull end.

(** [remitter.get("name") or remitter.get("remitter_name") or ""] *)
Definition candidate_name (fs : list (string * jval)) : jval :=
  py_or (field fs "name") (py_or (field fs "remitter_name") (JStr "")).

(** The fetch by identity and the extraction of the [Signature] file. *)
Definition fetch_and_extract (st : Resolver.store) (page_id : jval) : outcome jval :=
  page <- Resolver.fetch_page st page_id ;;
  props <- get page "properties" (JObj []) ;;
  sigp <- get props "Signature" (JObj []) ;;
  Notion.get_file_url sigp.

(** The display name of a page of the remitter collection. *)
Definition page_title (title_prop : string) (page : jval) : outcome string :=
  props <- get page "properties" (JObj []) ;;
  tp <- get props title_prop (JObj []) ;;
  Notion.get_title tp.

(** The signature reference of a page of the remitter collection. *)
Definition page_signature (page : jval) : outcome jval :=
  props <- get page "properties" (JObj []) ;;
  sigp <- get props "Signature" (JObj []) ;;
  Notion.get_file_url sigp.

(** A page whose display name decodes and does not match [target]. *)
Definition no_match (title_prop target : string) (page : jval) : Prop :=
  exists n, page_title title_prop page = Ok n /\
            (n = "" \/ Py.upper (Py.strip n) <> target).

(** A remitter store for C4: the page fetched by identity has no
    [Signature] file, while the collection holds a page named "Alice" whose
    signature is an external file. *)
Definition c4_alice_page : jval :=
  JObj [("id", JStr "p2");
        ("properties",
          JObj [("Name", JObj [("title", JList [JObj [("plain_text", JStr "Alice")]])]);
                ("Signature",
                  JObj [("files", JList [JObj [("type", JStr "external");
                                                ("external", JObj [("url", JStr "https://files.example/alice.png")])]])])])].

Definition c4_store : Resolver.store := {|
  Resolver.fetch_page := fun _ => Ok (JObj [("id", JStr "p1"); ("properties", JObj [])]);
  Resolver.get_database := Ok (JObj [("properties", JObj [("Name", JObj [("type", JStr "title")])])]);
  Resolver.query_all := Ok [c4_alice_page]
|}.

(** The text of a string value; [""] for anything else. *)
Definition text_of (v : jval) : string := match v with JStr s => s | _ => "" end.

(** [v or d] for an optional string value [v]. *)
Definition str_or (d : string) (v : jval) : string :=
  if String.eqb (text_of v) "" then d else text_of v.

(** A request record whose present fields are all strings. *)
Definition string_fields (fs : list (string * jval)) : Prop :=
  Forall (fun kv => exists s, snd kv = JStr s) fs.

Definition record_of (src : Generate.source) (bf rf : list (string * jval)) :=
  match src with Generate.FromBeneficiary => bf | Generate.FromRemitter => rf end.

(** One beneficiary or remitter entry for string-valued records: the field's
    text, [""] when absent, upper-cased where the code applies [upper]. *)
Definition record_entry (bf rf : list (string * jval))
  (f : string * Generate.source * string * bool) : string * Generate.cval :=
  let '(key, src, k, up) := f in
  let t := text_of (field (record_of src bf rf) k) in
  (key, Generate.CJ (JStr (if up then Py.upper t else t))).

(** The keys of the flat context built before the signature is added. *)
Definition context_keys : list string :=
  (map (fun '(k, _, _, _) => k) Generate.record_fields ++
   ["date"; "currency"; "amount_figures"; "amount_figures_text"; "charges";
    "account_to_be_debited_number_currency"; "notes"])%list.

(** Events that neither render a document, create a directory nor save. *)
Definition quiet (ev : event) : bool :=
  match ev with Render | MakeDirs _ | SaveTo _ => false | _ => true end.

(** A world in which every external call succeeds; the template declares
    [vars] and the remitter collection is [c4_store]. *)
Definition c9_world (vars : list string) : Generate.world := {|
  Generate.env_error := None;
  Generate.today := "2026-10-18";
  Generate.template_path := Ok "templates/tt_form.docx";
  Generate.open_template := Ok tt;
  Generate.store := c4_store;
  Generate.download := fun _ => Ok tt;
  Generate.vars_with_env := Ok vars;
  Generate.vars_without_env := Ok vars;
  Generate.render := fun _ => Ok tt;
  Generate.base_dir := "/srv/app";
  Generate.pure_path := fun p => p;
  Generate.resolve := fun p => Ok p;
  Generate.mkdir := fun _ => Ok tt;
  Generate.save := fun _ => Ok tt;
  Generate.exn_str := fun e =>
    match e with
    | TypeError => "expected str, bytes or os.PathLike object, not int"
    | _ => "unexpected '/'"
    end
|}.

Definition c9_context : Generate.context :=
  match Generate.build_context "2026-10-18" Context.scenario with
  | Ok (_, _, _, _, ctx) => ctx
  | Raise _ => []
  end.

(** The world of C9 whose enumeration with an environment raises [e] and
    whose retry answers [retry]. *)
Definition c10_world (e : exn) (retry : outcome (list string)) : Generate.world := {|
  Generate.env_error := None;
  Generate.today := "2026-10-18";
  Generate.template_path := Ok "templates/tt_form.docx";
  Generate.open_template := Ok tt;
  Generate.store := c4_store;
  Generate.download := fun _ => Ok tt;
  Generate.vars_with_env := Raise e;
  Generate.vars_without_env := retry;
  Generate.render := fun _ => Ok tt;
  Generate.base_dir := "/srv/app";
  Generate.pure_path := fun p => p;
  Generate.resolve := fun p => Ok p;
  Generate.mkdir := fun _ => Ok tt;
  Generate.save := fun _ => Ok tt;
  Generate.exn_str := fun e =>
    match e with
    | TypeError => "expected str, bytes or os.PathLike object, not int"
    | _ => "unexpected '/'"
    end
|}.

(** ** Definitions used by the further properties *)

Definition render_save_shape (post : list event) : Prop :=
  post = [] \/ post = [Render] \/ (exists target, post = [Render; SaveTo target]) \/
  (exists target, post = [Render; MakeDirs target]) \/
  (exists target, post = [Render; MakeDirs target; SaveTo target]).

Definition safe_char (c : ascii) : bool := negb (Ascii.eqb c ":") && negb (Ascii.eqb c "/").

Definition name_safe (s : string) : bool := forallb safe_char (list_ascii_of_string s).

Definition quiet_then (P : list event -> Prop) (t : list event) : Prop :=
  exists pre post, t = (pre ++ post)%list /\ Forall (fun ev => quiet ev = true) pre /\ P post.

Definition x7_extra : jval := JObj [("overwrite", JBool true); ("out_path", JStr "out/tt.docx")].

Definition x7_data : jval := JObj [("extra", x7_extra)].

Definition response_safe (resp : Generate.response) : bool :=
  match resp with
  | Generate.SendFile n c a d => name_safe n && name_safe c && name_safe a && name_safe d
  | Generate.Json _ _ => true
  end.

Definition x5_data : jval :=
  JObj [("beneficiary", JObj [("beneficiary_name", JStr "A/B Traders")]);
        ("extra", JObj [("amount_figures", JStr "1,200"); ("date", JStr "2026-10-18T10:30")])].

Definition with_token (c : Env.config) (tok : string) : Env.config := {|
  Env.NOTION_TOKEN := tok;
  Env.REMITTER_DB := Env.REMITTER_DB c;
  Env.BENEFICIARY_DB := Env.BENEFICIARY_DB c;
  Env.TT_TEMPLATE_RAW := Env.TT_TEMPLATE_RAW c;
  Env.BASE_DIR := Env.BASE_DIR c;
  Env.pure_path := Env.pure_path c;
  Env.resolve := Env.resolve c;
  Env.path_exists := Env.path_exists c
|}.

Definition id_of (fs : list (string * jval)) : jval :=
  match assoc "id" fs with Some v => v | None => JNull end.

Definition remitter_fixed_props : list string := ["Account No"; "Address"; "Phone"; "ID Type"; "ID Value"].

Definition env_fixture : Env.config := {|
  Env.NOTION_TOKEN := "secret_0123456789";
  Env.REMITTER_DB := "0123456789abcdef0123456789abcdef";
  Env.BENEFICIARY_DB := "fedcba9876543210fedcba9876543210";
  Env.TT_TEMPLATE_RAW := "TT_Form_template.docx";
  Env.BASE_DIR := "/srv/app";
  Env.pure_path := fun s => s;
  Env.resolve := fun s => Ok s;
  Env.path_exists := fun _ => Ok true
|}.

Definition paged_response (pages : list (list jval)) (payload : list (string * jval))
  : outcome Api.http_response :=
  let i := match assoc "start_cursor" payload with Some (JNum z) => Z.to_nat z | _ => 0%nat end in
  Ok {| Api.status_code := 200; Api.reason := "OK"; Api.url := ""; Api.text := "";
        Api.json := Ok (JObj [("results", JList (nth i pages []));
                              ("has_more", JBool (Nat.ltb (S i) (length pages)));
                              ("next_cursor", JNum (Z.of_nat (S i)))]) |}.

Definition ok_response (v : jval) : outcome Api.http_response :=
  Ok {| Api.status_code := 200; Api.reason := "OK"; Api.url := ""; Api.text := ""; Api.json := Ok v |}.

Definition api_fixture (pages : list (list jval)) : Api.world := {|
  Api.cfg := env_fixture;
  Api.http_get_database := fun _ =>
    ok_response (JObj [("properties", JObj [("Name", JObj [("type", JStr "title")])])]);
  Api.http_query := fun _ => paged_response pages;
  Api.http_get_page := fun _ => ok_response (JObj []);
  Api.http_patch := fun _ _ => ok_response (JObj [("object", JStr "page")]);
  Api.http_create := fun _ => ok_response (JObj [("object", JStr "page")])
|}.

Definition written_props (req : Api.request) : option (list (string * jval)) :=
  match req with
  | Api.PatchPageReq _ b | Api.CreatePageReq b =>
      match get b "properties" JNull with Ok (JObj p) => Some p | _ => None end
  | _ => None
  end.

Definition built_props (rt : string) (body : jval) (tp : string) : outcome (list (string * jval)) :=
  if String.eqb rt "remitter" then Codec.build_remitter_properties body tp
  else Codec.build_beneficiary_properties body tp.

Definition x14_body : list (string * jval) :=
  [("id", JStr "page-7"); ("name", JStr "Ravi"); ("account_no", JStr "ab12cd")].

Definition x15_body : list (string * jval) := [("id", JStr ""); ("name", JStr "Acme")].

Definition cursor_of (payload : list (string * jval)) : nat :=
  match assoc "start_cursor" payload with Some (JNum z) => Z.to_nat z | _ => 0%nat end.

Definition x16_pages : list (list jval) :=
  [[JStr "p1"; JStr "p2"]; []; [JStr "p3"]].

(** The order in which Flask's [jsonify] writes the keys of a dict
    ([sort_keys] is on). *)
Definition served_keys (fields : list (string * jval)) : list string :=
  Generate.py_sorted (map fst fields).


Definition layout_keys (layout : list (string * Codec.prop_name * Codec.decoder)) : list string :=
  map (fun e => fst (fst e)) layout.

Definition x18_reply : Generate.response :=
  Eval vm_compute in
    match fst (Api.api_record (api_fixture []) "remitter" "page-1") with
    | Api.Done r => r
    | Api.Fail _ => Generate.Json 0 []
    end.

Definition x19_body : list (string * jval) :=
  [("name", JStr "Ravi"); ("account_no", JStr "001")].

Definition x19_reply : Generate.response :=
  Eval vm_compute in
    match fst (Api.api_upsert (api_fixture []) "remitter" (JObj x19_body)) with
    | Api.Done r => r
    | Api.Fail _ => Generate.Json 0 []
    end.

Definition x20_page (i nm : string) : jval :=
  JObj [("id", JStr i);
        ("properties", JObj [("Name", JObj [("title", JList [JObj [("plain_text", JStr nm)]])])])].

Definition x20_pages : list (list jval) :=
  [[x20_page "r1" "Ravi"; x20_page "r2" "Mina"]; [x20_page "r3" "Omar"]].

Definition x20_reply : Generate.response :=
  Eval vm_compute in
    match fst (Api.api_options (api_fixture x20_pages) 4) with
    | Api.Done r => r
    | Api.Fail _ => Generate.Json 0 []
    end.

Definition upper_keys (ks : list string) (fs : list (string * jval)) : list (string * jval) :=
  map (fun kv => if existsb (String.eqb (fst kv)) ks then (fst kv, upper_v (snd kv)) else kv) fs.

Definition fragment_text (gs : list (string * jval)) : string :=
  match assoc "plain_text" gs with Some (JStr s) => s | _ => "" end.

Definition plain_text_ok (gs : list (string * jval)) : Prop :=
  match assoc "plain_text" gs with Some (JStr _) | None => True | _ => False end.

Definition x22_gss : list (list (string * jval)) :=
  [[("plain_text", JStr "Acme ")]; [("href", JNull)]; [("plain_text", JStr "Traders")]].

Definition x22_fs : list (string * jval) := [("type", JStr "title"); ("title", JList (map JObj x22_gss))].

Definition x23_file (kind url : string) : jval :=
  JObj [("type", JStr kind); (kind, JObj [("url", JStr url)])].

Definition x23_fs : list (string * jval) :=
  [("files", JList [x23_file "external" "https://example.org/a.png"; x23_file "file" "https://example.org/b.png"])].

Definition x24_db : jval :=
  JObj [("properties", JObj [("Notes", JObj [("type", JStr "rich_text")]);
                             ("Company", JObj [("type", JStr "title")])])].

(** * Properties *)

(** ** General lemmas *)

Lemma bind_ok_inv {A B} (m : outcome A) (k : A -> outcome B) (b : B) :
  bind m k = Ok b -> exists a, m = Ok a /\ k a = Ok b.
Proof. destruct m as [a|e]; simpl; [eauto | discriminate]. Qed.

Ltac inv_bind H :=
  repeat match type of H with
  | bind _ _ = Ok _ =>
      let a := fresh "a" in let Ea := fresh "Ea" in
      apply bind_ok_inv in H; destruct H as [a [Ea H]]
  end.

Lemma assoc_app_notin {A} (k : string) (l1 l2 : list (string * A)) :
  ~ In k (map fst l1) -> assoc k (l1 ++ l2) = assoc k l2.
Proof.
  induction l1 as [|[k' v] l1 IH]; simpl; intros Hn; [reflexivity|].
  destruct (String.eqb_spec k k'); [subst; tauto | apply IH; tauto].
Qed.

Lemma upper_char_idem (c : ascii) : Py.to_upper_char (Py.to_upper_char c) = Py.to_upper_char c.
Proof. destruct c as [[] [] [] [] [] [] [] []]; reflexivity. Qed.

Lemma upper_idem (s : string) : Py.upper (Py.upper s) = Py.upper s.
Proof. induction s as [|c s IH]; simpl; [reflexivity | now rewrite upper_char_idem, IH]. Qed.

Module ContextFacts.
Import Generate.

Lemma record_entries_keys b r fs recs :
  record_entries b r fs = Ok recs ->
  map fst recs = map (fun '(k, _, _, _) => k) fs.
Proof.
  revert recs; induction fs as [|[[[key src] k] up] fs IH]; simpl; intros recs H.
  - now inversion H.
  - inv_bind H. inversion H; subst. simpl. f_equal. now apply IH.
Qed.

End ContextFacts.

(** ** C1: the derived amount-words field *)

(** C1 (counterexample): on the spec's scenario (extras currency INR, amount
    1500.50) the context's amount-words field is the upper-cased speller
    output, with the comma [num2words] puts between groups; it is neither the
    spec's "One Thousand Five Hundred Rupees And Fifty Paise Only" nor the
    converter's output itself. *)
Lemma C1_scenario_field :
  Context.context_field "2026-10-18" Context.scenario "amount_figures_text"
    = Some (Generate.CJ (JStr "ONE THOUSAND, FIVE HUNDRED RUPEES AND FIFTY PAISE ONLY"))
  /\ Amount.amount_to_words "1500.50" "INR"
    = Ok "One Thousand, Five Hundred Rupees And Fifty Paise Only"
  /\ Context.context_field "2026-10-18" Context.scenario "amount_figures_text"
    <> Some (Generate.CJ (JStr "One Thousand Five Hundred Rupees And Fifty Paise Only"))
  /\ Context.context_field "2026-10-18" Context.scenario "amount_figures_text"
    <> Some (Generate.CJ (JStr "One Thousand, Five Hundred Rupees And Fifty Paise Only")).
Proof. vm_compute. repeat split; congruence. Qed.

(** C1 (amended): whenever the context is built, its amount-words field is
    derived (not read from the request): up to letter case it is the output of
    [amount_to_words] on the whitespace-stripped amount-in-figures string and
    the trimmed, upper-cased currency (default "USD"). *)
Theorem C1_amount_words_field :
  forall today data b r e cur ctx,
  Generate.build_context today data = Ok (b, r, e, cur, ctx) ->
  exists c0 cs a0 amount words text,
    get e "currency" JNull = Ok c0 /\ strip_v (py_or c0 (JStr "USD")) = Ok cs /\
    cur = Py.upper cs /\
    get e "amount_figures" JNull = Ok a0 /\ strip_v (py_or a0 (JStr "")) = Ok amount /\
    Amount.amount_to_words amount cur = Ok words /\
    assoc "amount_figures_text" ctx = Some (Generate.CJ (JStr text)) /\
    Py.upper text = Py.upper words.
Proof.
  intros today data b r e cur ctx H.
  unfold Generate.build_context in H. inv_bind H.
  injection H as <- <- <- <- <-.
  exists a2, a3, a4, a5, a6, (Py.upper a6).
  repeat split; auto using upper_idem.
  rewrite assoc_app_notin.
  - reflexivity.
  - erewrite ContextFacts.record_entries_keys by eassumption. simpl. intuition discriminate.
Qed.

Lemma C1_amount_words_field_witness :
  Generate.build_context "2026-10-18" Context.scenario
    = Ok (JObj [("beneficiary_name", JStr "Bob")],
          JObj [("name", JStr "Alice"); ("account_no", JStr "123")],
          JObj [("currency", JStr "INR"); ("amount_figures", JStr "1500.50")],
          "INR",
          match Generate.build_context "2026-10-18" Context.scenario with
          | Ok (_, _, _, _, ctx) => ctx | Raise _ => [] end)
  /\ exists c0 cs a0 amount words text,
    get (JObj [("currency", JStr "INR"); ("amount_figures", JStr "1500.50")]) "currency" JNull = Ok c0
    /\ strip_v (py_or c0 (JStr "USD")) = Ok cs /\ "INR" = Py.upper cs
    /\ get (JObj [("currency", JStr "INR"); ("amount_figures", JStr "1500.50")]) "amount_figures" JNull = Ok a0
    /\ strip_v (py_or a0 (JStr "")) = Ok amount
    /\ Amount.amount_to_words amount "INR" = Ok words
    /\ assoc "amount_figures_text"
         (match Generate.build_context "2026-10-18" Context.scenario with
          | Ok (_, _, _, _, ctx) => ctx | Raise _ => [] end)
       = Some (Generate.CJ (JStr text))
    /\ Py.upper text = Py.upper words.
Proof.
  assert (H : Generate.build_context "2026-10-18" Context.scenario
    = Ok (JObj [("beneficiary_name", JStr "Bob")],
          JObj [("name", JStr "Alice"); ("account_no", JStr "123")],
          JObj [("currency", JStr "INR"); ("amount_figures", JStr "1500.50")],
          "INR",
          match Generate.build_context "2026-10-18" Context.scenario with
          | Ok (_, _, _, _, ctx) => ctx | Raise _ => [] end)) by (vm_compute; reflexivity).
  split; [exact H | exact (C1_amount_words_field _ _ _ _ _ _ _ H)].
Defined.

(** ** C2: unit names and grammatical number *)

(** The INR, dollar, EUR and GBP branches choose the singular major-unit
    name exactly when the major part is 1. *)
Lemma unit_names_sibling_branches : forall major minor,
  fst (Amount.unit_names "INR" major minor) = (if major =? 1 then "Rupee" else "Rupees") /\
  fst (Amount.unit_names "USD" major minor) = (if major =? 1 then "Dollar" else "Dollars") /\
  fst (Amount.unit_names "EUR" major minor) = (if major =? 1 then "Euro" else "Euros") /\
  fst (Amount.unit_names "GBP" major minor) = (if major =? 1 then "Pound" else "Pounds").
Proof. intros; repeat split; reflexivity. Qed.

(** The Gulf branch always uses the singular name: for any major and minor
    part, AED gives "Dirham", SAR/QAR/OMR "Rial" and BHD/KWD "Dinar". *)
Lemma unit_names_gulf_singular : forall major minor,
  Amount.unit_names "AED" major minor = ("Dirham", "Fils") /\
  Amount.unit_names "SAR" major minor = ("Rial", "Fils") /\
  Amount.unit_names "QAR" major minor = ("Rial", "Fils") /\
  Amount.unit_names "OMR" major minor = ("Rial", "Fils") /\
  Amount.unit_names "BHD" major minor = ("Dinar", "Fils") /\
  Amount.unit_names "KWD" major minor = ("Dinar", "Fils").
Proof. intros; repeat split; reflexivity. Qed.

(** C2 (code_bug): for two units of a Gulf currency the output keeps the
    singular unit name ("Two Dirham Only", "Two Rial Only", "Two Dinar Only"),
    where the claim requires the plural ("Dirhams", "Rials", "Dinars"). *)
Theorem C2_gulf_amounts_not_pluralised :
  Amount.amount_to_words "2.00" "AED" = Ok "Two Dirham Only" /\
  Amount.amount_to_words "2.00" "SAR" = Ok "Two Rial Only" /\
  Amount.amount_to_words "2.00" "KWD" = Ok "Two Dinar Only" /\
  Amount.amount_to_words "2.50" "AED" = Ok "Two Dirham And Fifty Fils Only" /\
  Amount.amount_to_words "2.00" "USD" = Ok "Two Dollars Only".
Proof. vm_compute. repeat split. Qed.

(** ** C7: the major and minor parts *)

Lemma digit_char_facts (a : ascii) :
  Py.is_digit a = true ->
  Py.is_space a = false /\ Ascii.eqb a "-"%char = false /\
  Ascii.eqb a "+"%char = false /\ Ascii.eqb a "_"%char = false.
Proof. destruct a as [[] [] [] [] [] [] [] []]; vm_compute; intuition congruence. Qed.

Lemma lstrip_nonspace (c : ascii) (s : string) :
  Py.is_space c = false -> Py.lstrip (String c s) = String c s.
Proof. intros H; simpl; now rewrite H. Qed.

Lemma isdigit_cons (a : ascii) (s : string) :
  Py.isdigit (String a s) = Py.is_digit a && forallb Py.is_digit (list_ascii_of_string s).
Proof. reflexivity. Qed.

Lemma count_digits_le (s : string) : (Py.count_digits s <= String.length s)%nat.
Proof.
  unfold Py.count_digits. induction s as [|c s IH]; cbn [list_ascii_of_string filter]; [cbn; lia|].
  destruct (Py.is_digit c); cbn [List.length String.length]; lia.
Qed.

Lemma int_body_short (s : string) :
  (String.length s <= Py.max_str_digits)%nat -> Py.int_body s = Py.digits_value 0 false s.
Proof.
  intros H. unfold Py.int_body.
  replace (Py.max_str_digits <? Py.count_digits s)%nat with false; [reflexivity|].
  symmetry. apply Nat.ltb_ge. pose proof (count_digits_le s). lia.
Qed.

Lemma two_digit_int (a b : ascii) :
  Py.is_digit a = true -> Py.is_digit b = true ->
  Py.int_of_string (String a (String b EmptyString))
    = Some (10 * Py.digit_value a + Py.digit_value b).
Proof.
  intros Ha Hb.
  destruct (digit_char_facts a Ha) as [Sa [Ma [Pa _]]].
  destruct (digit_char_facts b Hb) as [Sb _].
  unfold Py.int_of_string, Py.strip. cbn [Py.rev_str].
  rewrite (lstrip_nonspace a _ Sa). cbn [Py.rev_str].
  rewrite (lstrip_nonspace b _ Sb). cbn [Py.rev_str].
  rewrite Ma, Pa. rewrite int_body_short by (cbn; unfold Py.max_str_digits; lia).
  cbn [Py.digits_value]. rewrite Ha, Hb. cbn [Py.digits_value].
  all: try (f_equal; lia).
Qed.

Lemma minor_parse (frac : string) :
  Py.isdigit frac = true ->
  Py.int_of_string (substring 0 2 (frac ++ "00")) = Some (minor_as_specified frac).
Proof.
  intros H. unfold minor_as_specified. rewrite H.
  destruct frac as [|a [|b rest]]; [discriminate| |].
  - rewrite isdigit_cons in H. apply andb_prop in H as [Ha _].
    cbn [append substring]. rewrite two_digit_int by (auto; reflexivity).
    f_equal. change (Py.digit_value "0") with 0. lia.
  - rewrite isdigit_cons in H. apply andb_prop in H as [Ha H].
    simpl in H. apply andb_prop in H as [Hb _].
    replace (substring 0 2 (String a (String b rest) ++ "00")) with (String a (String b ""))
      by (simpl; destruct rest; reflexivity).
    now rewrite two_digit_int.
Qed.




(** ** The speller answers every integer below its limit *)

Module Speller.
Import Num2Words.
Import Shapes.

Lemma wf_item_Lst l : wf_item (Lst l) = (l <> [] /\ wf_all l).
Proof. reflexivity. Qed.

Lemma list_weight_cons x l : list_weight (x :: l) = (item_weight x + 1 + list_weight l)%nat.
Proof. reflexivity. Qed.

Lemma item_weight_Lst l : item_weight (Lst l) = list_weight l.
Proof. reflexivity. Qed.

Lemma flat_ok (f : nat)
  (IH : forall ys, wf_list ys -> (list_weight ys < f)%nat ->
                   exists t k, clean f ys = Some (Tup t k)) :
  forall l, wf_all l -> (list_weight l <= f)%nat ->
  exists out, flat_with (clean f) l = Some out /\ wf_all out /\
              length out = length l /\
              (list_weight out + count_lst l <= list_weight l)%nat.
Proof.
  induction l as [|x l IHl]; intros Hwf Hw.
  - exists []. repeat split; simpl; auto.
  - destruct Hwf as [Hx Hl]. rewrite list_weight_cons in Hw.
    destruct IHl as [out [Hf [Hwo [Hlen Hle]]]]; [exact Hl | lia |].
    destruct x as [t n | ys].
    + exists (Tup t n :: out).
      change (flat_with (clean f) (Tup t n :: l))
        with (option_map (cons (Tup t n)) (flat_with (clean f) l)).
      rewrite Hf. rewrite !list_weight_cons. cbn [option_map count_lst length wf_all wf_item].
      repeat split; auto; cbn [item_weight]; lia.
    + rewrite wf_item_Lst in Hx. destruct Hx as [Hne Hys].
      destruct ys as [|y [|z zs]]; [congruence| |].
      * exists (y :: out).
        change (flat_with (clean f) (Lst [y] :: l))
          with (option_map (cons y) (flat_with (clean f) l)).
        rewrite Hf. destruct Hys as [Hy _].
        rewrite !list_weight_cons, item_weight_Lst, list_weight_cons in *.
        cbn [option_map count_lst length wf_all].
        repeat split; auto. cbn [list_weight fold_right]. lia.
      * rewrite item_weight_Lst in Hw.
        destruct (IH (y :: z :: zs)) as [t [k Hc]].
        { split; [exact Hys | left; simpl; lia]. }
        { lia. }
        exists (Tup t k :: out).
        change (flat_with (clean f) (Lst (y :: z :: zs) :: l))
          with (match clean f (y :: z :: zs), flat_with (clean f) l with
                | Some y, Some r => Some (y :: r) | _, _ => None end).
        rewrite Hc, Hf.
        rewrite !list_weight_cons, item_weight_Lst, !list_weight_cons in *.
        cbn [count_lst length wf_all wf_item].
        repeat split; auto. cbn [item_weight]. lia.
Qed.

Lemma clean_ok : forall n l, wf_list l -> (list_weight l < n)%nat ->
  exists t k, clean n l = Some (Tup t k).
Proof.
  induction n as [|f IH]; intros l [Hwf Hshape] Hw; [lia|].
  destruct l as [|x [|y rest]].
  - destruct Hshape as [H|[t [k H]]]; simpl in H; [lia|discriminate].
  - destruct Hshape as [H|[t [k H]]]; [simpl in H; lia|].
    injection H as ->. exists t, k; reflexivity.
  - assert (Hflat : (exists l1, x = Lst l1) \/ (exists l2, y = Lst l2) ->
                    exists t k, clean (S f) (x :: y :: rest) = Some (Tup t k)).
    { intros Hl.
      destruct (flat_ok f (IH) (x :: y :: rest) Hwf) as [out [Hf [Hwo [Hlen Hle]]]]; [lia|].
      assert (Hc : (1 <= count_lst (x :: y :: rest))%nat)
        by (destruct Hl as [[l1 ->]|[l2 ->]]; [simpl; lia | destruct x; simpl; lia]).
      assert (Hstep : clean (S f) (x :: y :: rest) = clean f out).
      { destruct Hl as [[l1 ->]|[l2 ->]].
        - cbn [clean]. now rewrite Hf.
        - destruct x; cbn [clean]; now rewrite Hf. }
      rewrite Hstep. apply IH; [| lia].
      split; [exact Hwo | left; rewrite Hlen; simpl; lia]. }
    destruct x as [t1 n1 | l1]; [destruct y as [t2 n2 | l2] |].
    + cbn [clean]. destruct (merge t1 n1 t2 n2) as [t n].
      rewrite !list_weight_cons in Hw. apply IH.
      * destruct rest as [|r rs].
        -- split; [simpl; auto | right; eauto].
        -- split; [| left; simpl; lia].
           destruct Hwf as [_ [_ Hr]]. cbn [wf_all]. rewrite wf_item_Lst.
           split; [exact I | split; [split; [discriminate | exact Hr] | exact I]].
      * cbn [item_weight] in Hw. destruct rest as [|r rs].
        -- change (list_weight [Tup t n]) with 2%nat.
           change (list_weight []) with 0%nat in Hw. lia.
        -- rewrite !list_weight_cons, item_weight_Lst.
           change (list_weight []) with 0%nat. cbn [item_weight]. lia.
    + apply Hflat; eauto.
    + apply Hflat; eauto.
Qed.

Lemma find_ge2 cards v :
  two_before_small cards = true -> 2 <= v ->
  exists e w, find (fun kw => fst kw <=? v) cards = Some (e, w) /\ 2 <= e <= v.
Proof.
  induction cards as [|[k w] r IH]; simpl; intros H Hv; [discriminate|].
  destruct (k =? 2) eqn:E2.
  - apply Z.eqb_eq in E2; subst. exists 2, w.
    replace (2 <=? v) with true by (symmetry; apply Z.leb_le; lia). split; [reflexivity | lia].
  - destruct (k <? 2) eqn:Elt; [discriminate|].
    apply Z.eqb_neq in E2. apply Z.ltb_ge in Elt.
    destruct (k <=? v) eqn:Ekv.
    + apply Z.leb_le in Ekv. exists k, w. split; [reflexivity | lia].
    + now apply IH.
Qed.

Lemma en_cards_ok : cards_ok en_cards.
Proof.
  split; [intros v Hv; apply find_ge2; [vm_compute; reflexivity | exact Hv]|].
  split; eexists; vm_compute; reflexivity.
Qed.

Lemma en_in_cards_ok : cards_ok en_in_cards.
Proof.
  split; [intros v Hv; apply find_ge2; [vm_compute; reflexivity | exact Hv]|].
  split; eexists; vm_compute; reflexivity.
Qed.
Lemma log2_half (a v : Z) : 1 <= a -> 2 * a <= v -> Z.log2 a < Z.log2 v.
Proof.
  intros Ha Hv.
  pose proof (Z.log2_double a ltac:(lia)) as Hd.
  pose proof (Z.log2_le_mono (2 * a) v Hv). lia.
Qed.

(** [splitnum] answers with a well-formed nested list once its fuel exceeds
    [log2 value]: both recursive calls are on at most half the value. *)
Lemma splitnum_ok (cards : list (Z * string)) (Hc : cards_ok cards) :
  forall fuel v, 0 <= v -> Z.log2 v < Z.of_nat fuel ->
  exists l, splitnum cards fuel v = Some l /\ wf_list l.
Proof.
  destruct Hc as [Hge [[w1 H1] [w0 H0]]].
  induction fuel as [|f IH]; intros v Hv Hf.
  - pose proof (Z.log2_nonneg v). lia.
  - destruct (Z.lt_total v 2) as [Hsmall | Hbig].
    + assert (v = 0 \/ v = 1) as [-> | ->] by lia.
      * cbn [splitnum]. rewrite H0. cbn.
        eexists; split; [reflexivity|]. split; [simpl; auto | left; simpl; lia].
      * cbn [splitnum]. rewrite H1. cbn.
        eexists; split; [reflexivity|]. split; [simpl; auto | left; simpl; lia].
    + destruct (Hge v) as [e [w [Hfind He]]]; [lia|].
      cbn [splitnum]. rewrite Hfind.
      replace (v =? 0) with false by (symmetry; apply Z.eqb_neq; lia).
      pose proof (Z.div_mod v e ltac:(lia)) as Hdm.
      pose proof (Z.mod_pos_bound v e ltac:(lia)) as Hmb.
      set (dv := v / e) in *. set (md := v mod e) in *.
      assert (Hdv1 : 1 <= dv) by nia.
      assert (Hdv2 : 2 * dv <= v) by nia.
      assert (Hmd : 2 * md < v) by nia.
      assert (Ht : exists t,
                 (if md =? 0 then Some []
                  else option_map (fun l => [Lst l]) (splitnum cards f md)) = Some t
                 /\ wf_all t).
      { destruct (md =? 0) eqn:Emd.
        - exists []. split; [reflexivity | exact I].
        - apply Z.eqb_neq in Emd.
          destruct (IH md) as [l [Hs [Hwl Hshape]]].
          + lia.
          + pose proof (log2_half md v ltac:(lia) ltac:(lia)). lia.
          + rewrite Hs. exists [Lst l]. split; [reflexivity|].
            cbn [wf_all]. rewrite wf_item_Lst. split; [|exact I].
            split; [|exact Hwl].
            destruct Hshape as [Hl | [t [k ->]]]; [|discriminate].
            intros ->; simpl in Hl; lia. }
      destruct Ht as [t [Ht Hwt]]. rewrite Ht.
      destruct (dv =? 1).
      * eexists; split; [reflexivity|].
        split; [cbn [wf_all wf_item]; auto | left; simpl; lia].
      * replace (dv =? v) with false by (symmetry; apply Z.eqb_neq; lia).
        destruct (IH dv) as [l [Hs [Hwl Hshape]]].
        -- lia.
        -- pose proof (log2_half dv v ltac:(lia) ltac:(lia)). lia.
        -- rewrite Hs. eexists; split; [reflexivity|].
           split; [| left; simpl; lia].
           cbn [wf_all]. rewrite wf_item_Lst.
           split; [split; [| exact Hwl] | split; [exact I | exact Hwt]].
           destruct Hshape as [Hl | [t' [k ->]]]; [|discriminate].
           intros ->; simpl in Hl; lia.
Qed.

(** [to_cardinal] spells every integer whose absolute value is below
    [MAXVAL]. *)
Lemma to_cardinal_ok (cards : list (Z * string)) (n : Z) :
  cards_ok cards -> Z.abs n < maxval cards ->
  exists s, to_cardinal cards n = Ok s.
Proof.
  intros Hc Hn. unfold to_cardinal.
  assert (Hpair : exists out v, (if n <? 0 then ("minus ", - n) else ("", n)) = (out, v)
                                /\ v = Z.abs n).
  { destruct (n <? 0) eqn:E; [apply Z.ltb_lt in E | apply Z.ltb_ge in E];
      eexists _, _; split; [reflexivity | lia | reflexivity | lia]. }
  destruct Hpair as [out [v [-> ->]]].
  replace (maxval cards <=? Z.abs n) with false by (symmetry; apply Z.leb_gt; lia).
  destruct (splitnum_ok cards Hc (S (S (Z.to_nat (Z.log2 (Z.abs n))))) (Z.abs n))
    as [l [Hs Hwl]]; [lia | pose proof (Z.log2_nonneg (Z.abs n)); lia |].
  rewrite Hs.
  destruct (clean_ok (S (list_weight l)) l Hwl ltac:(lia)) as [t [k Hcl]].
  rewrite Hcl. eexists; reflexivity.
Qed.

(** At or above [MAXVAL], [to_cardinal] raises [OverflowError]. *)
Lemma to_cardinal_overflow (cards : list (Z * string)) (n : Z) :
  maxval cards <= Z.abs n -> to_cardinal cards n = Raise OverflowError.
Proof.
  intros Hn. unfold to_cardinal.
  destruct (n <? 0) eqn:E; [apply Z.ltb_lt in E | apply Z.ltb_ge in E].
  - replace (maxval cards <=? - n) with true by (symmetry; apply Z.leb_le; lia). reflexivity.
  - replace (maxval cards <=? n) with true by (symmetry; apply Z.leb_le; lia). reflexivity.
Qed.
End Speller.

(** ** C5 and C6: the results of [amount_to_words] *)

Lemma speller_limit_maxval (cur : string) :
  Num2Words.maxval (if String.eqb (Amount.lang_of cur) "en_IN"
                    then Num2Words.en_in_cards else Num2Words.en_cards)
  = speller_limit cur.
Proof.
  unfold Amount.lang_of, speller_limit.
  destruct (String.eqb (Py.upper cur) "INR"); vm_compute; reflexivity.
Qed.

Lemma speller_limit_ge (cur : string) : 100 <= speller_limit cur.
Proof.
  unfold speller_limit. apply Z.leb_le.
  destruct (String.eqb (Py.upper cur) "INR"); vm_compute; reflexivity.
Qed.

Lemma words_ok (cur : string) (n : Z) :
  Z.abs n < speller_limit cur -> exists w, Amount.words (Amount.lang_of cur) n = Ok w.
Proof.
  intros Hn. unfold Amount.words, Num2Words.cardinal.
  rewrite <- speller_limit_maxval in Hn.
  destruct (String.eqb (Amount.lang_of cur) "en_IN").
  - destruct (Speller.to_cardinal_ok _ n Speller.en_in_cards_ok Hn) as [w ->].
    eexists; reflexivity.
  - destruct (Speller.to_cardinal_ok _ n Speller.en_cards_ok Hn) as [w ->].
    eexists; reflexivity.
Qed.

Lemma words_overflow (cur : string) (n : Z) :
  speller_limit cur <= Z.abs n ->
  Amount.words (Amount.lang_of cur) n = Raise OverflowError.
Proof.
  intros Hn. unfold Amount.words, Num2Words.cardinal.
  rewrite <- speller_limit_maxval in Hn.
  now rewrite (Speller.to_cardinal_overflow _ n Hn).
Qed.

Lemma digit_value_range (a : ascii) : Py.is_digit a = true -> 0 <= Py.digit_value a <= 9.
Proof.
  unfold Py.is_digit, Py.digit_value. intros H.
  apply andb_prop in H as [H1 H2]. apply Nat.leb_le in H1, H2. lia.
Qed.

Lemma minor_as_specified_range (frac : string) :
  0 <= minor_as_specified frac < 100.
Proof.
  unfold minor_as_specified. destruct (Py.isdigit frac) eqn:Hd; [|lia].
  destruct frac as [|a [|b rest]]; [lia| |].
  - rewrite isdigit_cons in Hd. apply andb_prop in Hd as [Ha _].
    pose proof (digit_value_range a Ha). lia.
  - rewrite isdigit_cons in Hd. apply andb_prop in Hd as [Ha Hd].
    simpl in Hd. apply andb_prop in Hd as [Hb _].
    pose proof (digit_value_range a Ha). pose proof (digit_value_range b Hb). lia.
Qed.

Lemma minor_range (s : string) (major minor : Z) :
  Amount.parse_parts s = Some (major, minor) -> 0 <= minor < 100.
Proof.
  intros H. unfold Amount.parse_parts in H. cbv zeta in H.
  set (parts := Py.split_char "." s) in H.
  destruct (if String.eqb (hd "" parts) "" then Some 0 else Py.int_of_string (hd "" parts));
    [|discriminate].
  destruct parts as [|p0 [|p1 rest]]; try (injection H as _ <-; lia).
  destruct (Py.isdigit p1) eqn:Hd; [|injection H as _ <-; lia].
  rewrite minor_parse in H by exact Hd. injection H as _ <-.
  apply minor_as_specified_range.
Qed.

Lemma amount_to_words_compose (s cur : string) (major minor : Z) (major_words : string) :
  s <> "" -> Amount.parse_parts (Amount.normalize s) = Some (major, minor) ->
  Amount.words (Amount.lang_of cur) major = Ok major_words ->
  exists minor_words,
    (minor <> 0 -> Amount.words (Amount.lang_of cur) minor = Ok minor_words) /\
    Amount.amount_to_words s cur =
      Ok (Amount.compose major_words minor_words
            (fst (Amount.unit_names (Py.upper cur) major minor))
            (snd (Amount.unit_names (Py.upper cur) major minor)) minor).
Proof.
  intros Hs Hp Hmw.
  pose proof (minor_range _ _ _ Hp) as Hr.
  unfold Amount.amount_to_words.
  replace (String.eqb s "") with false by (symmetry; now apply String.eqb_neq).
  rewrite Hp. cbv zeta. rewrite Hmw. cbn [bind].
  destruct (minor =? 0) eqn:E0.
  - exists "". split; [apply Z.eqb_eq in E0; lia|].
    destruct (Amount.unit_names (Py.upper cur) major minor); reflexivity.
  - destruct (words_ok cur minor) as [mw ->].
    { pose proof (speller_limit_ge cur). lia. }
    exists mw. split; [reflexivity|]. cbn [bind].
    destruct (Amount.unit_names (Py.upper cur) major minor); reflexivity.
Qed.


(** C5 (amended): [amount_to_words] returns "" for the empty string and for
    an amount its [try] block cannot parse; it raises for exactly one kind
    of input, a parsable amount whose major part is at or beyond the
    speller's limit ([10 ** 10] for INR, [10 ** 306] otherwise), and then
    the exception is num2words' [OverflowError]. *)
Theorem C5_amount_to_words_raises_only_on_overflow : forall s cur,
  (s = "" -> Amount.amount_to_words s cur = Ok "") /\
  (Amount.parse_parts (Amount.normalize s) = None -> Amount.amount_to_words s cur = Ok "") /\
  (forall e, Amount.amount_to_words s cur = Raise e <->
     e = OverflowError /\ s <> "" /\
     exists major minor, Amount.parse_parts (Amount.normalize s) = Some (major, minor) /\
                         speller_limit cur <= Z.abs major).
Proof.
  intros s cur. split; [intros ->; reflexivity|].
  split.
  { intros Hp. unfold Amount.amount_to_words. rewrite Hp.
    destruct (String.eqb s ""); reflexivity. }
  intros e. destruct (String.eqb s "") eqn:Es.
  - apply String.eqb_eq in Es; subst. cbn.
    split; [discriminate | intros [_ [H _]]; congruence].
  - apply String.eqb_neq in Es.
    destruct (Amount.parse_parts (Amount.normalize s)) as [[major minor]|] eqn:Hp.
    + destruct (Z_lt_le_dec (Z.abs major) (speller_limit cur)) as [Hl | Hl].
      * destruct (words_ok cur major Hl) as [mw Hmw].
        destruct (amount_to_words_compose s cur major minor mw Es Hp Hmw) as [minw [_ ->]].
        split; [discriminate|].
        intros [_ [_ [ma [mi [Heq Hge]]]]]. injection Heq as <- <-. lia.
      * unfold Amount.amount_to_words.
        replace (String.eqb s "") with false by (symmetry; now apply String.eqb_neq).
        rewrite Hp. cbv zeta. rewrite (words_overflow cur major Hl). cbn [bind].
        split.
        -- intros H. injection H as <-. split; [reflexivity|]. split; [exact Es|].
           exists major, minor. split; [reflexivity | exact Hl].
        -- intros [-> _]. reflexivity.
    + unfold Amount.amount_to_words.
      replace (String.eqb s "") with false by (symmetry; now apply String.eqb_neq).
      rewrite Hp. split; [discriminate|].
      intros [_ [_ [ma [mi [H _]]]]]. discriminate.
Qed.

Lemma C5_amount_to_words_raises_only_on_overflow_witness :
  Amount.amount_to_words "abc" "USD" = Ok "" /\
  Amount.amount_to_words "10000000000.00" "inr" = Raise OverflowError.
Proof.
  split.
  - apply (proj1 (proj2 (C5_amount_to_words_raises_only_on_overflow "abc" "USD"))).
    vm_compute; reflexivity.
  - apply (proj2 (proj2 (proj2 (C5_amount_to_words_raises_only_on_overflow
                                  "10000000000.00" "inr")) OverflowError)).
    split; [reflexivity|]. split; [discriminate|].
    exists (10 ^ 10), 0. split; [vm_compute; reflexivity|].
    apply Z.leb_le. vm_compute. reflexivity.
Defined.

(** C5 is refuted: ten thousand million rupees make [amount_to_words]
    raise (num2words' [OverflowError] is not caught). *)
Lemma C5_overflow_raises :
  Amount.amount_to_words "10000000000" "INR" = Raise OverflowError.
Proof. vm_compute. reflexivity. Qed.




(** ** C3: reconciliation of template placeholders with the context *)

Lemma str_compare_refl (a : string) : String.compare a a = Eq.
Proof.
  pose proof (String.compare_antisym a a) as H.
  destruct (String.compare a a); simpl in H; congruence.
Qed.

Lemma str_lt_irrefl (a : string) : ~ str_lt a a.
Proof. unfold str_lt, String.ltb. now rewrite str_compare_refl. Qed.

Lemma str_compare_lt_trans : forall a b c,
  String.compare a b = Lt -> String.compare b c = Lt -> String.compare a c = Lt.
Proof.
  induction a as [|x a IH]; intros [|y b] [|z c]; simpl; try discriminate; try reflexivity.
  intros H1 H2.
  destruct (Ascii.compare x y) eqn:E1; try discriminate H1.
  - apply Ascii.compare_eq_iff in E1. subst y.
    destruct (Ascii.compare x z); try discriminate H2; [exact (IH b c H1 H2) | reflexivity].
  - destruct (Ascii.compare y z) eqn:E2; try discriminate H2.
    + apply Ascii.compare_eq_iff in E2. subst z. now rewrite E1.
    + assert (E : Ascii.compare x z = Lt).
      { unfold Ascii.compare in *. rewrite N.compare_lt_iff in E1, E2 |- *.
        exact (N.lt_trans _ _ _ E1 E2). }
      now rewrite E.
Qed.

Lemma str_lt_trans (a b c : string) : str_lt a b -> str_lt b c -> str_lt a c.
Proof.
  unfold str_lt, String.ltb.
  destruct (String.compare a b) eqn:E1; try discriminate.
  destruct (String.compare b c) eqn:E2; try discriminate.
  now rewrite (str_compare_lt_trans a b c E1 E2).
Qed.

Lemma str_lt_total (a b : string) : String.ltb a b = false -> a <> b -> str_lt b a.
Proof.
  unfold str_lt, String.ltb. rewrite (String.compare_antisym b a).
  destruct (String.compare a b) eqn:E; simpl; try discriminate; [|reflexivity].
  intros _ Hne. apply String.compare_eq_iff in E. contradiction.
Qed.

Lemma insert_sorted_perm (x : string) (l : list string) :
  Permutation (Generate.insert_sorted x l) (x :: l).
Proof.
  induction l as [|y l IH]; simpl; [reflexivity|].
  destruct (String.ltb x y); [reflexivity|].
  rewrite IH. apply perm_swap.
Qed.

Lemma py_sorted_perm (l : list string) : Permutation (Generate.py_sorted l) l.
Proof.
  induction l as [|x l IH]; [reflexivity|].
  unfold Generate.py_sorted in *. cbn [fold_right].
  rewrite insert_sorted_perm. now apply perm_skip.
Qed.

Lemma insert_sorted_sorted (x : string) (l : list string) :
  Sorted str_lt l -> ~ In x l -> Sorted str_lt (Generate.insert_sorted x l).
Proof.
  induction l as [|y l IH]; simpl; intros Hs Hn.
  - repeat constructor.
  - destruct (String.ltb x y) eqn:E.
    + constructor; [exact Hs | constructor; exact E].
    + assert (Hyx : str_lt y x) by (apply str_lt_total; [exact E | intros ->; tauto]).
      apply Sorted_inv in Hs as [Hs Hh].
      constructor; [apply IH; tauto|].
      destruct l as [|z l']; simpl; [constructor; exact Hyx|].
      destruct (String.ltb x z); constructor; [exact Hyx|].
      now inversion Hh.
Qed.

Lemma py_sorted_sorted (l : list string) : NoDup l -> Sorted str_lt (Generate.py_sorted l).
Proof.
  induction l as [|x l IH]; intros Hnd; [constructor|].
  apply NoDup_cons_iff in Hnd as [Hx Hnd].
  unfold Generate.py_sorted. cbn [fold_right]. apply insert_sorted_sorted.
  - exact (IH Hnd).
  - intros Hin. apply Hx. exact (Permutation_in _ (py_sorted_perm l) Hin).
Qed.

Lemma strongly_sorted_unique : forall l1 l2 : list string,
  StronglySorted str_lt l1 -> StronglySorted str_lt l2 ->
  (forall x, In x l1 <-> In x l2) -> l1 = l2.
Proof.
  induction l1 as [|a l1 IH]; intros [|b l2] H1 H2 Hin.
  - reflexivity.
  - exfalso. apply (proj2 (Hin b)). now left.
  - exfalso. apply (proj1 (Hin a)). now left.
  - apply StronglySorted_inv in H1 as [H1 F1].
    apply StronglySorted_inv in H2 as [H2 F2].
    assert (Hab : a = b).
    { destruct (string_dec a b) as [|Hne]; [assumption|exfalso].
      assert (Ha : In a l2) by (destruct (proj1 (Hin a) (or_introl eq_refl)) as [E|E]; [congruence | exact E]).
      assert (Hb : In b l1) by (destruct (proj2 (Hin b) (or_introl eq_refl)) as [E|E]; [congruence | exact E]).
      apply (str_lt_irrefl a).
      apply str_lt_trans with b.
      - exact (proj1 (Forall_forall _ _) F1 b Hb).
      - exact (proj1 (Forall_forall _ _) F2 a Ha). }
    subst b. f_equal. apply IH; [exact H1 | exact H2|].
    intros x. split; intros Hx.
    + destruct (proj1 (Hin x) (or_intror Hx)) as [E|H]; [|exact H]. subst x.
      exfalso. exact (str_lt_irrefl a (proj1 (Forall_forall _ _) F1 a Hx)).
    + destruct (proj2 (Hin x) (or_intror Hx)) as [E|H]; [|exact H]. subst x.
      exfalso. exact (str_lt_irrefl a (proj1 (Forall_forall _ _) F2 a Hx)).
Qed.

Lemma py_sorted_permutation (P P' : list string) :
  NoDup P -> Permutation P P' -> Generate.py_sorted P' = Generate.py_sorted P.
Proof.
  intros Hnd Hp.
  apply strongly_sorted_unique.
  - apply Sorted_StronglySorted; [exact str_lt_trans|].
    apply py_sorted_sorted. exact (Permutation_NoDup Hp Hnd).
  - apply Sorted_StronglySorted; [exact str_lt_trans|]. now apply py_sorted_sorted.
  - intros x. rewrite (py_sorted_perm P'), (py_sorted_perm P).
    split; apply Permutation_in; [symmetry|]; exact Hp.
Qed.

Lemma existsb_eqb_In (a : string) (K : list string) :
  existsb (String.eqb a) K = true <-> In a K.
Proof.
  rewrite existsb_exists. split.
  - intros [x [Hx E]]. apply String.eqb_eq in E. now subst.
  - intros H. exists a. split; [exact H | apply String.eqb_refl].
Qed.

Lemma missing_vars_In (W : list string) (ctx : Generate.context) (m : string) :
  In m (Generate.missing_vars W ctx) <-> In m W /\ ~ In m (map fst ctx).
Proof.
  unfold Generate.missing_vars. rewrite filter_In, negb_true_iff.
  split; intros [H1 H2]; split; try exact H1.
  - intros Hk. apply existsb_eqb_In in Hk. congruence.
  - destruct (existsb (String.eqb m) (map fst ctx)) eqn:E; [|reflexivity].
    apply existsb_eqb_In in E. contradiction.
Qed.

Lemma filter_strongly_sorted (f : string -> bool) (l : list string) :
  StronglySorted str_lt l -> StronglySorted str_lt (filter f l).
Proof.
  induction l as [|x l IH]; simpl; intros H; [constructor|].
  apply StronglySorted_inv in H as [H F].
  destruct (f x); [|now apply IH].
  constructor; [now apply IH|].
  apply Forall_forall. intros y Hy. apply filter_In in Hy as [Hy _].
  exact (proj1 (Forall_forall _ _) F y Hy).
Qed.

Lemma missing_vars_keys (W : list string) (ctx ctx' : Generate.context) :
  (forall k, In k (map fst ctx) <-> In k (map fst ctx')) ->
  Generate.missing_vars W ctx' = Generate.missing_vars W ctx.
Proof.
  intros HK. unfold Generate.missing_vars. apply filter_ext. intros a. f_equal.
  destruct (existsb (String.eqb a) (map fst ctx)) eqn:E.
  - apply existsb_eqb_In, HK, existsb_eqb_In in E. exact E.
  - destruct (existsb (String.eqb a) (map fst ctx')) eqn:E'; [|reflexivity].
    apply existsb_eqb_In, HK, existsb_eqb_In in E'. congruence.
Qed.

Lemma render_stage_gate (w : Generate.world) (tpl_path currency : string)
  (ctx : Generate.context) (wanted : list string) (beneficiary extra : jval) :
  (Generate.missing_vars wanted ctx <> [] ->
   Generate.render_stage w tpl_path currency ctx wanted beneficiary extra
   = ret (Generate.missing_response (Generate.missing_vars wanted ctx))) /\
  (Generate.missing_vars wanted ctx = [] ->
   exists rest, snd (Generate.render_stage w tpl_path currency ctx wanted beneficiary extra)
                = Render :: rest).
Proof.
  unfold Generate.render_stage.
  destruct (Generate.missing_vars wanted ctx) as [|m ms]; split; intros H; try congruence.
  unfold mbind at 1, call.
  destruct (Generate.render w ctx) as [u|e]; [|exists []; reflexivity].
  match goal with |- exists rest, snd (let '(r, t') := ?X in _) = _ => destruct X end.
  eexists; reflexivity.
Qed.

Lemma list_template_vars_listed (w : Generate.world) (P : list string) :
  Generate.open_template w = Ok tt -> Generate.vars_with_env w = Ok P ->
  Generate.list_template_vars w = (Ok (Generate.py_sorted P), [OpenTemplate; ListVars true]).
Proof.
  intros Ho Hv. unfold Generate.list_template_vars, call, mbind, try_except, ret.
  rewrite Ho, Hv. reflexivity.
Qed.

(** C3: with the declared placeholders [P] (a Python set, so duplicate-free)
    listed by [list_template_vars], the missing list is [P] minus the
    context's keys (exact, case-sensitive string equality), sorted and
    duplicate-free; it is unchanged when [P] is reordered or the context is
    replaced by one with the same key set; and rendering is reached exactly
    when it is empty, the 400 answer carrying the list otherwise. *)
Theorem C3_reconciliation_set_difference : forall (P : list string) (ctx : Generate.context),
  NoDup P ->
  let missing := Generate.missing_vars (Generate.py_sorted P) ctx in
  (forall w, Generate.open_template w = Ok tt -> Generate.vars_with_env w = Ok P ->
     fst (Generate.list_template_vars w) = Ok (Generate.py_sorted P)) /\
  (forall m, In m missing <-> In m P /\ ~ In m (map fst ctx)) /\
  Sorted str_lt missing /\ NoDup missing /\
  (forall P' ctx', Permutation P P' ->
     (forall k, In k (map fst ctx) <-> In k (map fst ctx')) ->
     Generate.missing_vars (Generate.py_sorted P') ctx' = missing) /\
  (forall w tpl_path currency beneficiary extra,
     (missing <> [] ->
      Generate.render_stage w tpl_path currency ctx (Generate.py_sorted P) beneficiary extra
      = ret (Generate.missing_response missing)) /\
     (In Render (snd (Generate.render_stage w tpl_path currency ctx (Generate.py_sorted P)
                        beneficiary extra)) <-> missing = [])).
Proof.
  intros P ctx Hnd missing.
  assert (Hss : StronglySorted str_lt missing).
  { apply filter_strongly_sorted, Sorted_StronglySorted; [exact str_lt_trans|].
    now apply py_sorted_sorted. }
  split; [intros w Ho Hv; now rewrite (list_template_vars_listed w P Ho Hv)|].
  split.
  { intros m. unfold missing. rewrite missing_vars_In.
    split; intros [H1 H2]; split; try exact H2;
      [exact (Permutation_in _ (py_sorted_perm P) H1)
      | exact (Permutation_in _ (Permutation_sym (py_sorted_perm P)) H1)]. }
  split; [now apply StronglySorted_Sorted|].
  split.
  { apply NoDup_filter. apply (Permutation_NoDup (Permutation_sym (py_sorted_perm P))).
    exact Hnd. }
  split.
  { intros P' ctx' Hp HK. rewrite (py_sorted_permutation P P' Hnd Hp).
    now apply missing_vars_keys. }
  intros w tpl_path currency beneficiary extra.
  destruct (render_stage_gate w tpl_path currency ctx (Generate.py_sorted P) beneficiary extra)
    as [Hne Hemp].
  fold missing in Hne, Hemp.
  split; [exact Hne|].
  destruct missing as [|m ms] eqn:Em.
  - destruct (Hemp eq_refl) as [rest ->]. split; [reflexivity | intros _; now left].
  - rewrite (Hne ltac:(discriminate)). split; [intros [] | discriminate].
Qed.

Lemma C3_reconciliation_set_difference_witness :
  NoDup ["total"; "date"] /\
  let missing := Generate.missing_vars (Generate.py_sorted ["total"; "date"])
                   [("date", Generate.CJ (JStr "2024-01-01"))] in
  (forall w, Generate.open_template w = Ok tt -> Generate.vars_with_env w = Ok ["total"; "date"] ->
     fst (Generate.list_template_vars w) = Ok (Generate.py_sorted ["total"; "date"])) /\
  (forall m, In m missing <-> In m ["total"; "date"] /\
                             ~ In m (map fst [("date", Generate.CJ (JStr "2024-01-01"))])) /\
  Sorted str_lt missing /\ NoDup missing /\
  (forall P' ctx', Permutation ["total"; "date"] P' ->
     (forall k, In k (map fst [("date", Generate.CJ (JStr "2024-01-01"))]) <->
                In k (map fst ctx')) ->
     Generate.missing_vars (Generate.py_sorted P') ctx' = missing) /\
  (forall w tpl_path currency beneficiary extra,
     (missing <> [] ->
      Generate.render_stage w tpl_path currency [("date", Generate.CJ (JStr "2024-01-01"))]
        (Generate.py_sorted ["total"; "date"]) beneficiary extra
      = ret (Generate.missing_response missing)) /\
     (In Render (snd (Generate.render_stage w tpl_path currency
                        [("date", Generate.CJ (JStr "2024-01-01"))]
                        (Generate.py_sorted ["total"; "date"]) beneficiary extra))
      <-> missing = [])).
Proof.
  assert (Hnd : NoDup ["total"; "date"]).
  { constructor; [simpl; intros [H|[]]; discriminate H|].
    constructor; [intros []|constructor]. }
  split; [exact Hnd|].
  exact (C3_reconciliation_set_difference ["total"; "date"]
           [("date", Generate.CJ (JStr "2024-01-01"))] Hnd).
Defined.

(** ** C4: the order of the signature strategies *)

Lemma scan_pages_cons (tp target : string) (p : jval) (rest : list jval) :
  Resolver.scan_pages tp target (p :: rest) =
  match page_title tp p with
  | Ok n =>
      if negb (String.eqb n "") && String.eqb (Py.upper (Py.strip n)) target
      then page_signature p else Resolver.scan_pages tp target rest
  | Raise e => Raise e
  end.
Proof.
  unfold page_title, page_signature. cbn [Resolver.scan_pages].
  destruct (get p "properties" (JObj [])) as [props|e]; cbn [bind]; [|reflexivity].
  destruct (get props tp (JObj [])) as [t|e]; cbn [bind]; [|reflexivity].
  destruct (Notion.get_title t); reflexivity.
Qed.

Lemma scan_pages_skip (tp target : string) (pre rest : list jval) :
  Forall (no_match tp target) pre ->
  Resolver.scan_pages tp target (pre ++ rest) = Resolver.scan_pages tp target rest.
Proof.
  induction pre as [|q pre IH]; intros H; [reflexivity|].
  apply Forall_cons_iff in H as [[n [Hn Hnm]] H].
  cbn [app]. rewrite scan_pages_cons, Hn.
  replace (negb (String.eqb n "") && String.eqb (Py.upper (Py.strip n)) target) with false.
  - now apply IH.
  - destruct Hnm as [-> | Hne]; [reflexivity|].
    apply String.eqb_neq in Hne. now rewrite Hne, andb_false_r.
Qed.

Lemma find_by_name_falsy (st : Resolver.store) (name : jval) :
  truthy name = false -> Resolver.find_by_name st name = (Ok (JStr ""), []).
Proof. intros H. unfold Resolver.find_by_name. now rewrite H. Qed.

Lemma find_by_name_total (st : Resolver.store) (name : jval) :
  exists u, fst (Resolver.find_by_name st name) = Ok u.
Proof.
  unfold Resolver.find_by_name. destruct (negb (truthy name)); [eexists; reflexivity|].
  unfold try_except.
  destruct (mbind (call GetDatabase (Resolver.get_database st)) _) as [[u|e] t];
    eexists; reflexivity.
Qed.

Lemma find_by_name_search (st : Resolver.store) (s : string) (db : jval) (tp : string)
  (pages : list jval) :
  truthy (JStr s) = true -> Resolver.get_database st = Ok db ->
  Notion.title_prop_name db = Ok tp -> Resolver.query_all st = Ok pages ->
  fst (Resolver.find_by_name st (JStr s)) =
  match Resolver.scan_pages tp (Py.upper (Py.strip s)) pages with
  | Ok u => Ok u
  | Raise _ => Ok (JStr "")
  end.
Proof.
  intros Ht Hdb Htp Hq. unfold Resolver.find_by_name. rewrite Ht. cbn [negb].
  unfold try_except, mbind, call, lift, ret. rewrite Hdb, Htp, Hq.
  destruct (Resolver.scan_pages tp (Py.upper (Py.strip s)) pages); reflexivity.
Qed.

Lemma by_identity_cases (st : Resolver.store) (page_id : jval) :
  Resolver.by_identity st page_id =
  match fetch_and_extract st page_id with
  | Ok u => (Ok (Some u), [FetchPage page_id])
  | Raise _ => (Ok None, [FetchPage page_id])
  end.
Proof.
  unfold Resolver.by_identity, fetch_and_extract, try_except, mbind, call, lift, ret.
  destruct (Resolver.fetch_page st page_id) as [page|e]; cbn [bind]; [|reflexivity].
  destruct (get page "properties" (JObj [])) as [props|e]; cbn [bind]; [|reflexivity].
  destruct (get props "Signature" (JObj [])) as [sigp|e]; cbn [bind]; [|reflexivity].
  destruct (Notion.get_file_url sigp); reflexivity.
Qed.

Lemma fetch_signature_url_unfold (st : Resolver.store) (fs : list (string * jval)) :
  Resolver.fetch_signature_url st (JObj fs) =
  if truthy (py_or (field fs "signature_url") (JStr "")) then
    (Ok (py_or (field fs "signature_url") (JStr "")), [])
  else
    mbind (if truthy (field fs "id") then Resolver.by_identity st (field fs "id") else ret None)
      (fun found => match found with
                    | Some u => ret u
                    | None => Resolver.find_by_name st (candidate_name fs)
                    end).
Proof.
  unfold Resolver.fetch_signature_url, candidate_name, field, py_or.
  cbn [mbind lift get ret app].
  destruct (truthy (if truthy _ then _ else _)); [reflexivity|].
  cbn [mbind lift get ret app].
  destruct (if truthy _ then _ else _) as [[[u|]|e] t]; cbn [mbind ret app];
    try rewrite app_nil_r; try reflexivity.
  destruct (truthy (match assoc "name" fs with Some v => v | None => JNull end)).
  - cbn [mbind ret app]. destruct (Resolver.find_by_name _ _); reflexivity.
  - cbn [mbind ret app lift get]. destruct (Resolver.find_by_name _ _); reflexivity.
Qed.

(** C4 (amended): for a remitter object, [fetch_signature_url] never raises;
    a truthy [signature_url] is returned with no call made; otherwise a
    truthy [id] fetches that page first, and when the fetch and extraction
    succeed their reference is returned as it is, empty or not, with no
    name search, while an exception there falls through to the name search;
    without an id the name search runs directly. The name search returns ""
    with no call for a falsy candidate name, and otherwise the signature of
    the first page whose non-empty display name, trimmed and upper-cased,
    equals the trimmed, upper-cased candidate ("" when no page matches or
    an exception is raised). *)
Theorem C4_resolver_strategies : forall (st : Resolver.store) (fs : list (string * jval)),
  let direct := py_or (field fs "signature_url") (JStr "") in
  let page_id := field fs "id" in
  let name := candidate_name fs in
  (exists u, fst (Resolver.fetch_signature_url st (JObj fs)) = Ok u) /\
  (truthy direct = true ->
     Resolver.fetch_signature_url st (JObj fs) = (Ok direct, [])) /\
  (truthy direct = false -> truthy page_id = true ->
     match fetch_and_extract st page_id with
     | Ok u => Resolver.fetch_signature_url st (JObj fs) = (Ok u, [FetchPage page_id])
     | Raise _ =>
         Resolver.fetch_signature_url st (JObj fs) =
           (fst (Resolver.find_by_name st name), FetchPage page_id :: snd (Resolver.find_by_name st name))
     end) /\
  (truthy direct = false -> truthy page_id = false ->
     Resolver.fetch_signature_url st (JObj fs) = Resolver.find_by_name st name) /\
  (truthy name = false -> Resolver.find_by_name st name = (Ok (JStr ""), [])) /\
  (forall (s : string) (db : jval) (tp : string) (pre : list jval) (p : jval)
          (post : list jval) (n : string),
     name = JStr s -> truthy name = true ->
     Resolver.get_database st = Ok db -> Notion.title_prop_name db = Ok tp ->
     Resolver.query_all st = Ok (pre ++ p :: post)%list ->
     Forall (no_match tp (Py.upper (Py.strip s))) pre ->
     page_title tp p = Ok n -> n <> "" -> Py.upper (Py.strip n) = Py.upper (Py.strip s) ->
     fst (Resolver.find_by_name st name) =
       match page_signature p with Ok u => Ok u | Raise _ => Ok (JStr "") end) /\
  (forall (s : string) (db : jval) (tp : string) (pages : list jval),
     name = JStr s -> truthy name = true ->
     Resolver.get_database st = Ok db -> Notion.title_prop_name db = Ok tp ->
     Resolver.query_all st = Ok pages ->
     Forall (no_match tp (Py.upper (Py.strip s))) pages ->
     fst (Resolver.find_by_name st name) = Ok (JStr "")) /\
  (truthy name = true ->
     (forall e, Resolver.get_database st = Raise e ->
        fst (Resolver.find_by_name st name) = Ok (JStr "")) /\
     (forall db e, Resolver.get_database st = Ok db -> Notion.title_prop_name db = Raise e ->
        fst (Resolver.find_by_name st name) = Ok (JStr "")) /\
     (forall db tp e, Resolver.get_database st = Ok db -> Notion.title_prop_name db = Ok tp ->
        Resolver.query_all st = Raise e ->
        fst (Resolver.find_by_name st name) = Ok (JStr "")) /\
     (forall db tp pages, Resolver.get_database st = Ok db -> Notion.title_prop_name db = Ok tp ->
        Resolver.query_all st = Ok pages -> (forall s, name <> JStr s) ->
        fst (Resolver.find_by_name st name) = Ok (JStr "")) /\
     (forall s db tp pre p post e, name = JStr s ->
        Resolver.get_database st = Ok db -> Notion.title_prop_name db = Ok tp ->
        Resolver.query_all st = Ok (pre ++ p :: post)%list ->
        Forall (no_match tp (Py.upper (Py.strip s))) pre ->
        page_title tp p = Raise e ->
        fst (Resolver.find_by_name st name) = Ok (JStr ""))).
Proof.
  intros st fs direct page_id name.
  pose proof (fetch_signature_url_unfold st fs) as Hu. fold direct page_id name in Hu.
  split.
  { rewrite Hu. destruct (truthy direct); [eexists; reflexivity|].
    destruct (truthy page_id).
    - rewrite by_identity_cases.
      destruct (fetch_and_extract st page_id); cbn [mbind ret]; [eexists; reflexivity|].
      destruct (find_by_name_total st name) as [u Hf].
      destruct (Resolver.find_by_name st name) as [r t]. cbn in Hf |- *. subst r.
      eexists; reflexivity.
    - cbn [mbind ret app]. destruct (find_by_name_total st name) as [u Hf].
      destruct (Resolver.find_by_name st name) as [r t]. cbn in Hf |- *. subst r.
      eexists; reflexivity. }
  split; [intros Hd; now rewrite Hu, Hd|].
  split.
  { intros Hd Hp. rewrite Hu, Hd, Hp, by_identity_cases.
    destruct (fetch_and_extract st page_id); cbn [mbind ret]; [reflexivity|].
    destruct (Resolver.find_by_name st name); reflexivity. }
  split.
  { intros Hd Hp. rewrite Hu, Hd, Hp. cbn [mbind ret app].
    destruct (Resolver.find_by_name st name); reflexivity. }
  split; [apply find_by_name_falsy|].
  split.
  { intros s db tp pre p post n -> Ht Hdb Htp Hq Hpre Hn Hne Heq.
    rewrite (find_by_name_search st s db tp _ Ht Hdb Htp Hq).
    rewrite (scan_pages_skip _ _ pre (p :: post) Hpre), scan_pages_cons, Hn.
    apply String.eqb_neq in Hne. rewrite Hne, Heq, String.eqb_refl. reflexivity. }
  split.
  { intros s db tp pages -> Ht Hdb Htp Hq Hall.
    rewrite (find_by_name_search st s db tp _ Ht Hdb Htp Hq).
    rewrite <- (app_nil_r pages), (scan_pages_skip _ _ pages [] Hall). reflexivity. }
  intros Ht.
  split.
  { intros e He. unfold Resolver.find_by_name. rewrite Ht. cbn [negb].
    unfold try_except, mbind, call, lift, ret. rewrite He. reflexivity. }
  split.
  { intros db e Hdb He. unfold Resolver.find_by_name. rewrite Ht. cbn [negb].
    unfold try_except, mbind, call, lift, ret. rewrite Hdb, He. reflexivity. }
  split.
  { intros db tp e Hdb Htp He. unfold Resolver.find_by_name. rewrite Ht. cbn [negb].
    unfold try_except, mbind, call, lift, ret. rewrite Hdb, Htp, He. reflexivity. }
  split.
  { intros db tp pages Hdb Htp Hq Hns. unfold Resolver.find_by_name. rewrite Ht. cbn [negb].
    unfold try_except, mbind, call, lift, ret. rewrite Hdb, Htp, Hq.
    clearbody name. destruct name as [| | |s0| |]; try reflexivity.
    exfalso. exact (Hns s0 eq_refl). }
  intros s db tp pre p post e -> Hdb Htp Hq Hpre He.
  rewrite (find_by_name_search st s db tp _ Ht Hdb Htp Hq).
  rewrite (scan_pages_skip _ _ pre (p :: post) Hpre), scan_pages_cons, He. reflexivity.
Qed.

(** C4 is refuted: with both an identity and a name, the identity fetch
    succeeds but finds no signature file; the code returns "" and never
    searches by name, while the strategy order of the claim falls through
    to the name search, which finds Alice's signature. *)
Lemma C4_identity_miss_ends_search :
  Resolver.fetch_signature_url c4_store (JObj [("id", JStr "p1"); ("name", JStr "Alice")])
    = (Ok (JStr ""), [FetchPage (JStr "p1")]) /\
  Resolver.find_by_name c4_store (JStr "Alice")
    = (Ok (JStr "https://files.example/alice.png"), [GetDatabase; QueryAll]) /\
  Resolver.resolve_as_specified c4_store (JObj [("id", JStr "p1"); ("name", JStr "Alice")])
    = JStr "https://files.example/alice.png".
Proof. vm_compute. repeat split. Qed.

Lemma C4_resolver_strategies_witness :
  candidate_name [("name", JStr "Alice")] = JStr "Alice" /\
  Resolver.query_all c4_store = Ok ([] ++ c4_alice_page :: [])%list /\
  fst (Resolver.find_by_name c4_store (candidate_name [("name", JStr "Alice")]))
    = Ok (JStr "https://files.example/alice.png").
Proof.
  split; [reflexivity|]. split; [reflexivity|].
  destruct (C4_resolver_strategies c4_store [("name", JStr "Alice")])
    as [_ [_ [_ [_ [_ [H _]]]]]].
  rewrite (H "Alice" (JObj [("properties", JObj [("Name", JObj [("type", JStr "title")])])])
             "Name" [] c4_alice_page [] "Alice" eq_refl eq_refl eq_refl eq_refl eq_refl
             (Forall_nil _) eq_refl ltac:(discriminate) eq_refl).
  vm_compute. reflexivity.
Defined.

(** ** C8: the fields of the flat context *)

Lemma assoc_In {A} (k : string) (l : list (string * A)) (v : A) :
  assoc k l = Some v -> In (k, v) l.
Proof.
  induction l as [|[k' v'] l IH]; simpl; [discriminate|].
  destruct (String.eqb_spec k k') as [->|_]; intros H; [injection H as ->; now left|].
  right. now apply IH.
Qed.

Lemma field_string (fs : list (string * jval)) (k : string) :
  string_fields fs -> field fs k = JNull \/ field fs k = JStr (text_of (field fs k)).
Proof.
  intros H. unfold field. destruct (assoc k fs) as [v|] eqn:E; [|now left].
  right. apply assoc_In in E.
  destruct (proj1 (Forall_forall _ _) H _ E) as [s Hs]. simpl in Hs. now subst.
Qed.

Lemma get_string (fs : list (string * jval)) (k d : string) :
  string_fields fs ->
  get (JObj fs) k (JStr d) =
  Ok (JStr (match assoc k fs with Some v => text_of v | None => d end)).
Proof.
  intros H. unfold get. destruct (assoc k fs) as [v|] eqn:E; [|reflexivity].
  apply assoc_In in E. destruct (proj1 (Forall_forall _ _) H _ E) as [s Hs].
  simpl in Hs. now subst.
Qed.

Lemma get_string_empty (fs : list (string * jval)) (k : string) :
  string_fields fs -> get (JObj fs) k (JStr "") = Ok (JStr (text_of (field fs k))).
Proof.
  intros H. rewrite get_string by exact H. unfold field.
  destruct (assoc k fs); reflexivity.
Qed.

Lemma py_or_string (fs : list (string * jval)) (k d : string) :
  string_fields fs -> py_or (field fs k) (JStr d) = JStr (str_or d (field fs k)).
Proof.
  intros H. unfold str_or.
  destruct (field_string fs k H) as [E|E].
  - rewrite E. reflexivity.
  - rewrite E. set (t := text_of (field fs k)). unfold py_or, truthy. cbn [text_of].
    destruct (String.eqb t ""); reflexivity.
Qed.

Lemma record_entries_strings (bf rf : list (string * jval)) fs :
  string_fields bf -> string_fields rf ->
  Generate.record_entries (JObj bf) (JObj rf) fs = Ok (map (record_entry bf rf) fs).
Proof.
  intros Hb Hr. induction fs as [|[[[key src] k] up] fs IH]; [reflexivity|].
  cbn [Generate.record_entries].
  assert (Hg : get (match src with Generate.FromBeneficiary => JObj bf
                                 | Generate.FromRemitter => JObj rf end) k (JStr "")
               = Ok (JStr (text_of (field (record_of src bf rf) k))))
    by (destruct src; apply get_string_empty; assumption).
  rewrite Hg. cbn [bind]. rewrite IH. cbn [bind].
  destruct up; reflexivity.
Qed.

(** [build_context] on string-valued records, computed. *)
Lemma build_context_strings (today : string) (bf rf ef : list (string * jval)) :
  string_fields bf -> string_fields rf -> string_fields ef ->
  Generate.build_context today
    (JObj [("beneficiary", JObj bf); ("remitter", JObj rf); ("extra", JObj ef)]) =
  let currency := Py.upper (Py.strip (str_or "USD" (field ef "currency"))) in
  let amount := Py.strip (str_or "" (field ef "amount_figures")) in
  match Amount.amount_to_words amount currency with
  | Ok words =>
      Ok (JObj bf, JObj rf, JObj ef, currency,
          (map (record_entry bf rf) Generate.record_fields ++
           [("date", Generate.CJ (JStr (str_or today (field ef "date"))));
            ("currency", Generate.CJ (JStr currency));
            ("amount_figures", Generate.CJ (JStr amount));
            ("amount_figures_text", Generate.CJ (JStr (Py.upper words)));
            ("charges", Generate.CJ (JStr (Py.upper (match assoc "charges" ef with
                                                      | Some v => text_of v
                                                      | None => "SHA" end))));
            ("account_to_be_debited_number_currency",
               Generate.CJ (JStr (Py.upper (text_of (field ef "account_to_be_debited_number_currency")))));
            ("notes", Generate.CJ (JStr (Py.upper (text_of (field ef "notes")))))])%list)
  | Raise e => Raise e
  end.
Proof.
  intros Hb Hr He. cbv zeta. unfold Generate.build_context.
  change (get (JObj [("beneficiary", JObj bf); ("remitter", JObj rf); ("extra", JObj ef)])
              "beneficiary" (JObj [])) with (Ok (JObj bf) : outcome jval).
  change (get (JObj [("beneficiary", JObj bf); ("remitter", JObj rf); ("extra", JObj ef)])
              "remitter" (JObj [])) with (Ok (JObj rf) : outcome jval).
  change (get (JObj [("beneficiary", JObj bf); ("remitter", JObj rf); ("extra", JObj ef)])
              "extra" (JObj [])) with (Ok (JObj ef) : outcome jval).
  cbn [bind].
  change (get (JObj ef) "currency" JNull) with (Ok (field ef "currency") : outcome jval).
  change (get (JObj ef) "amount_figures" JNull) with (Ok (field ef "amount_figures") : outcome jval).
  change (get (JObj ef) "date" JNull) with (Ok (field ef "date") : outcome jval).
  cbn [bind]. rewrite !py_or_string by exact He. cbn [strip_v bind].
  destruct (Amount.amount_to_words _ _) as [words|e]; cbn [bind]; [|reflexivity].
  rewrite record_entries_strings by assumption. cbn [bind].
  rewrite get_string by exact He. rewrite !get_string_empty by exact He.
  cbn [bind upper_v]. reflexivity.
Qed.

(** C8 (amended): for request records whose present fields are strings (an
    absent record being the [{}] that [data.get] supplies), the context is
    built exactly when [amount_to_words] answers for the normalized amount
    and currency; it then has exactly the builder's keys, every beneficiary
    and remitter field is the record's text ([""] when absent, upper-cased
    where the code applies [upper]), the currency is [upper(strip(currency or
    "USD"))], the date is [date or today], the charges are upper-cased with
    the default "SHA", and the debit account and notes are upper-cased with
    the default [""]. *)
Theorem C8_context_fields : forall today bf rf ef,
  string_fields bf -> string_fields rf -> string_fields ef ->
  let data := JObj [("beneficiary", JObj bf); ("remitter", JObj rf); ("extra", JObj ef)] in
  let currency := Py.upper (Py.strip (str_or "USD" (field ef "currency"))) in
  let amount := Py.strip (str_or "" (field ef "amount_figures")) in
  ((exists r, Generate.build_context today data = Ok r) <->
   (exists w, Amount.amount_to_words amount currency = Ok w)) /\
  (forall b r e cur ctx, Generate.build_context today data = Ok (b, r, e, cur, ctx) ->
     map fst ctx = context_keys /\
     cur = currency /\
     assoc "currency" ctx = Some (Generate.CJ (JStr currency)) /\
     assoc "date" ctx = Some (Generate.CJ (JStr (str_or today (field ef "date")))) /\
     assoc "amount_figures" ctx = Some (Generate.CJ (JStr amount)) /\
     assoc "charges" ctx =
       Some (Generate.CJ (JStr (Py.upper (match assoc "charges" ef with
                                          | Some v => text_of v | None => "SHA" end)))) /\
     assoc "account_to_be_debited_number_currency" ctx =
       Some (Generate.CJ (JStr (Py.upper (text_of (field ef "account_to_be_debited_number_currency"))))) /\
     assoc "notes" ctx = Some (Generate.CJ (JStr (Py.upper (text_of (field ef "notes"))))) /\
     Forall (fun f => assoc (fst (record_entry bf rf f)) ctx = Some (snd (record_entry bf rf f)))
            Generate.record_fields /\
     (forall key src k up, In (key, src, k, up) Generate.record_fields ->
        assoc k (record_of src bf rf) = None ->
        assoc key ctx = Some (Generate.CJ (JStr "")))).
Proof.
  intros today bf rf ef Hb Hr He data currency amount.
  pose proof (build_context_strings today bf rf ef Hb Hr He) as Hbc.
  fold data currency amount in Hbc. cbv zeta in Hbc.
  split.
  { rewrite Hbc. destruct (Amount.amount_to_words amount currency).
    - split; intros _; eexists; reflexivity.
    - split; intros [x H]; discriminate. }
  intros b r e cur ctx H. rewrite Hbc in H.
  destruct (Amount.amount_to_words amount currency) as [w|]; [|discriminate].
  injection H as <- <- <- <- <-.
  assert (HF : Forall (fun f => assoc (fst (record_entry bf rf f))
      (map (record_entry bf rf) Generate.record_fields ++
       [("date", Generate.CJ (JStr (str_or today (field ef "date"))));
        ("currency", Generate.CJ (JStr currency));
        ("amount_figures", Generate.CJ (JStr amount));
        ("amount_figures_text", Generate.CJ (JStr (Py.upper w)));
        ("charges", Generate.CJ (JStr (Py.upper (match assoc "charges" ef with
                                                  | Some v => text_of v | None => "SHA" end))));
        ("account_to_be_debited_number_currency",
           Generate.CJ (JStr (Py.upper (text_of (field ef "account_to_be_debited_number_currency")))));
        ("notes", Generate.CJ (JStr (Py.upper (text_of (field ef "notes")))))])%list
      = Some (snd (record_entry bf rf f))) Generate.record_fields).
  { repeat (apply Forall_cons; [reflexivity|]). apply Forall_nil. }
  split; [reflexivity|]. split; [reflexivity|].
  do 6 (split; [reflexivity|]).
  split; [exact HF|].
  intros key src k up Hin Hnone.
  pose proof (proj1 (Forall_forall _ _) HF _ Hin) as Ha.
  cbn [record_entry fst snd] in Ha. unfold field in Ha. rewrite Hnone in Ha.
  destruct up; exact Ha.
Qed.

Lemma C8_context_fields_witness :
  exists ctx,
    Generate.build_context "2026-10-18"
      (JObj [("beneficiary", JObj []); ("remitter", JObj [("name", JStr "Alice")]);
             ("extra", JObj [("currency", JStr " inr ")])])
      = Ok (JObj [], JObj [("name", JStr "Alice")], JObj [("currency", JStr " inr ")], "INR", ctx) /\
    map fst ctx = context_keys /\
    assoc "currency" ctx = Some (Generate.CJ (JStr "INR")) /\
    assoc "date" ctx = Some (Generate.CJ (JStr "2026-10-18")) /\
    assoc "beneficiary_name" ctx = Some (Generate.CJ (JStr "")).
Proof.
  set (data := JObj [("beneficiary", JObj []); ("remitter", JObj [("name", JStr "Alice")]);
                     ("extra", JObj [("currency", JStr " inr ")])]).
  set (ctx := match Generate.build_context "2026-10-18" data with
              | Ok (_, _, _, _, c) => c | Raise _ => [] end).
  assert (E : Generate.build_context "2026-10-18" data
              = Ok (JObj [], JObj [("name", JStr "Alice")], JObj [("currency", JStr " inr ")],
                    "INR", ctx)) by (vm_compute; reflexivity).
  assert (Hs0 : string_fields []) by constructor.
  assert (Hs1 : string_fields [("name", JStr "Alice")])
    by (constructor; [eexists; reflexivity | constructor]).
  assert (Hs2 : string_fields [("currency", JStr " inr ")])
    by (constructor; [eexists; reflexivity | constructor]).
  destruct (C8_context_fields "2026-10-18" [] [("name", JStr "Alice")]
              [("currency", JStr " inr ")] Hs0 Hs1 Hs2) as [_ H].
  destruct (H _ _ _ _ _ E) as [Hk [_ [Hc [Hd [_ [_ [_ [_ [_ Habs]]]]]]]]].
  exists ctx. split; [exact E|]. split; [exact Hk|]. split; [exact Hc|]. split; [exact Hd|].
  apply (Habs "beneficiary_name" Generate.FromBeneficiary "beneficiary_name" true);
    [simpl; tauto | reflexivity].
Defined.

(** C8 is refuted: with every field absent the charges field is "SHA", not
    "", and an amount beyond the speller's limit makes the builder raise. *)
Lemma C8_builder_defaults_and_raises :
  Context.context_field "2026-10-18" (JObj []) "charges" = Some (Generate.CJ (JStr "SHA")) /\
  Generate.build_context "2026-10-18"
    (JObj [("extra", JObj [("currency", JStr "INR"); ("amount_figures", JStr "10000000000")])])
    = Raise OverflowError.
Proof. vm_compute. split; reflexivity. Qed.

(** ** C9: the answers of [/generate] on failure *)

Lemma quiet_mbind {A B} (m : M A) (k : A -> M B) :
  Forall (fun ev => quiet ev = true) (snd m) ->
  (forall a, Forall (fun ev => quiet ev = true) (snd (k a))) ->
  Forall (fun ev => quiet ev = true) (snd (mbind m k)).
Proof.
  destruct m as [[a|e] t]; cbn [mbind snd]; intros Hm Hk; [|exact Hm].
  specialize (Hk a). destruct (k a) as [r t']. cbn [snd] in *.
  apply Forall_app; split; assumption.
Qed.

Lemma quiet_try {A} (m : M A) (h : exn -> M A) :
  Forall (fun ev => quiet ev = true) (snd m) ->
  (forall e, Forall (fun ev => quiet ev = true) (snd (h e))) ->
  Forall (fun ev => quiet ev = true) (snd (try_except m h)).
Proof.
  destruct m as [[a|e] t]; cbn [try_except snd]; intros Hm Hh; [exact Hm|].
  specialize (Hh e). destruct (h e) as [r t']. cbn [snd] in *.
  apply Forall_app; split; assumption.
Qed.

Lemma quiet_ret {A} (a : A) : Forall (fun ev => quiet ev = true) (snd (ret a)).
Proof. constructor. Qed.

Lemma quiet_lift {A} (o : outcome A) : Forall (fun ev => quiet ev = true) (snd (lift o)).
Proof. constructor. Qed.

Lemma quiet_call {A} (ev : event) (o : outcome A) :
  quiet ev = true -> Forall (fun ev => quiet ev = true) (snd (call ev o)).
Proof. intros H. repeat constructor. exact H. Qed.

Ltac quiet_steps :=
  repeat match goal with
  | |- Forall _ (snd (mbind _ _)) => apply quiet_mbind; [|intro]
  | |- Forall _ (snd (try_except _ _)) => apply quiet_try; [|intro]
  | |- Forall _ (snd (ret _)) => apply quiet_ret
  | |- Forall _ (snd (lift _)) => apply quiet_lift
  | |- Forall _ (snd (call _ _)) => apply quiet_call; reflexivity
  | |- Forall _ (snd (if ?b then _ else _)) => destruct b
  | x : option _ |- _ => destruct x
  | x : exn |- _ => destruct x
  end.

Lemma find_by_name_quiet (st : Resolver.store) (name : jval) :
  Forall (fun ev => quiet ev = true) (snd (Resolver.find_by_name st name)).
Proof. unfold Resolver.find_by_name. quiet_steps. Qed.

Lemma fetch_signature_url_quiet (st : Resolver.store) (remitter : jval) :
  Forall (fun ev => quiet ev = true) (snd (Resolver.fetch_signature_url st remitter)).
Proof.
  unfold Resolver.fetch_signature_url, Resolver.by_identity. cbv zeta.
  quiet_steps; apply find_by_name_quiet.
Qed.

Lemma build_signature_image_total (w : Generate.world) (url : jval) :
  exists c, fst (Generate.build_signature_image w url) = Ok c.
Proof.
  unfold Generate.build_signature_image. destruct (negb (truthy url)); [eexists; reflexivity|].
  unfold try_except, mbind, call, ret. destruct (Generate.download w url); eexists; reflexivity.
Qed.

Lemma build_signature_image_quiet (w : Generate.world) (url : jval) :
  Forall (fun ev => quiet ev = true) (snd (Generate.build_signature_image w url)).
Proof. unfold Generate.build_signature_image. quiet_steps. Qed.

Lemma list_template_vars_quiet (w : Generate.world) :
  Forall (fun ev => quiet ev = true) (snd (Generate.list_template_vars w)).
Proof. unfold Generate.list_template_vars. quiet_steps. Qed.

Lemma generate_missing (w : Generate.world) (data b r e : jval) (cur tpl : string)
  (ctx : Generate.context) (sig_url : jval) (img : Generate.cval) (wanted : list string) :
  Generate.env_error w = None ->
  Generate.build_context (Generate.today w) data = Ok (b, r, e, cur, ctx) ->
  Generate.template_path w = Ok tpl -> Generate.open_template w = Ok tt ->
  fst (Resolver.fetch_signature_url (Generate.store w) r) = Ok sig_url ->
  fst (Generate.build_signature_image w sig_url) = Ok img ->
  fst (Generate.list_template_vars w) = Ok wanted ->
  Generate.missing_vars wanted (ctx ++ [("signature", img)])%list <> [] ->
  fst (Generate.generate w (Ok data))
    = Ok (Generate.missing_response (Generate.missing_vars wanted (ctx ++ [("signature", img)])%list)) /\
  Forall (fun ev => quiet ev = true) (snd (Generate.generate w (Ok data))).
Proof.
  intros Henv Hbc Htp Hot Hsig Himg Hwant Hne.
  pose proof (fetch_signature_url_quiet (Generate.store w) r) as Q1.
  pose proof (build_signature_image_quiet w sig_url) as Q2.
  pose proof (list_template_vars_quiet w) as Q3.
  unfold Generate.generate, Generate.generate_block. rewrite Henv.
  cbn [mbind lift]. rewrite Hbc. cbn [mbind]. rewrite Htp. cbn [mbind lift call].
  rewrite Hot. cbn [mbind].
  destruct (Resolver.fetch_signature_url (Generate.store w) r) as [o1 t1].
  cbn [fst snd] in Hsig, Q1. subst o1. cbn [mbind].
  destruct (Generate.build_signature_image w sig_url) as [o2 t2].
  cbn [fst snd] in Himg, Q2. subst o2. cbn [mbind].
  destruct (Generate.list_template_vars w) as [o3 t3].
  cbn [fst snd] in Hwant, Q3. subst o3. cbn [mbind].
  rewrite (proj1 (render_stage_gate w tpl cur _ wanted b e) Hne).
  cbn [ret try_except fst snd app].
  split; [reflexivity|].
  rewrite !app_nil_r. constructor; [reflexivity|].
  repeat (apply Forall_app; split); assumption.
Qed.

(** C9 (amended): a failing environment check answers [{ok, error}] with
    status 400; an exception inside the [try] block answers [{ok, error}]
    with status 500 after the calls made so far, the error being
    ["<Type>: <message>"], [type(e).__name__] and [str(e)]; a reconciliation failure
    answers [{ok, error, missing_variables}] with status 400 and neither
    renders nor saves; but an exception while reading the body or building
    the context (a non-object body, a non-string currency, an amount beyond
    the speller's limit) escapes the view with no JSON answer at all. *)
Theorem C9_generate_failures : forall (w : Generate.world) (body : outcome jval),
  (forall status msg, exists fields,
     Generate.error_response status msg = Generate.Json status fields /\
     map fst fields = ["ok"; "error"]) /\
  (forall missing, exists fields,
     Generate.missing_response missing = Generate.Json 400 fields /\
     map fst fields = ["ok"; "error"; "missing_variables"]) /\
  (forall msg, Generate.env_error w = Some msg ->
     Generate.generate w body = ret (Generate.error_response 400 msg)) /\
  (forall ex, Generate.env_error w = None -> body = Raise ex ->
     Generate.generate w body = (Raise ex, [])) /\
  (forall data ex, Generate.env_error w = None -> body = Ok data ->
     Generate.build_context (Generate.today w) data = Raise ex ->
     Generate.generate w body = (Raise ex, [])) /\
  (forall data b r e cur ctx ex, Generate.env_error w = None -> body = Ok data ->
     Generate.build_context (Generate.today w) data = Ok (b, r, e, cur, ctx) ->
     fst (Generate.generate_block w cur ctx b r e) = Raise ex ->
     Generate.generate w body =
       (Ok (Generate.error_response 500
              (Generate.exn_name ex ++ ": " ++ Generate.exn_message w ex)),
        snd (Generate.generate_block w cur ctx b r e))) /\
  (forall data b r e cur tpl ctx sig_url img wanted,
     Generate.env_error w = None -> body = Ok data ->
     Generate.build_context (Generate.today w) data = Ok (b, r, e, cur, ctx) ->
     Generate.template_path w = Ok tpl -> Generate.open_template w = Ok tt ->
     fst (Resolver.fetch_signature_url (Generate.store w) r) = Ok sig_url ->
     fst (Generate.build_signature_image w sig_url) = Ok img ->
     fst (Generate.list_template_vars w) = Ok wanted ->
     Generate.missing_vars wanted (ctx ++ [("signature", img)])%list <> [] ->
     fst (Generate.generate w body)
       = Ok (Generate.missing_response
               (Generate.missing_vars wanted (ctx ++ [("signature", img)])%list)) /\
     ~ In Render (snd (Generate.generate w body)) /\
     (forall target, ~ In (SaveTo target) (snd (Generate.generate w body)))).
Proof.
  intros w body.
  split; [intros status msg; eexists; split; reflexivity|].
  split; [intros missing; eexists; split; reflexivity|].
  split; [intros msg H; unfold Generate.generate; now rewrite H|].
  split; [intros ex H -> ; unfold Generate.generate; now rewrite H|].
  split.
  { intros data ex H -> Hbc. unfold Generate.generate. rewrite H.
    cbn [mbind lift]. now rewrite Hbc. }
  split.
  { intros data b r e cur ctx ex H -> Hbc Hblk. unfold Generate.generate. rewrite H.
    cbn [mbind lift]. rewrite Hbc. cbn [mbind].
    destruct (Generate.generate_block w cur ctx b r e) as [o t].
    cbn [fst snd] in Hblk |- *. subst o. cbn [try_except ret app].
    now rewrite app_nil_r. }
  intros data b r e cur tpl ctx sig_url img wanted H -> Hbc Htp Hot Hsig Himg Hwant Hne.
  destruct (generate_missing w data b r e cur tpl ctx sig_url img wanted
              H Hbc Htp Hot Hsig Himg Hwant Hne) as [Hres Hq].
  split; [exact Hres|]. split.
  - intros Hin. exact (Bool.diff_false_true (proj1 (Forall_forall _ _) Hq _ Hin)).
  - intros target Hin. exact (Bool.diff_false_true (proj1 (Forall_forall _ _) Hq _ Hin)).
Qed.

Lemma C9_generate_failures_witness :
  fst (Generate.generate (c9_world ["remitter_email"]) (Ok Context.scenario))
    = Ok (Generate.missing_response ["remitter_email"]) /\
  ~ In Render (snd (Generate.generate (c9_world ["remitter_email"]) (Ok Context.scenario))).
Proof.
  destruct (C9_generate_failures (c9_world ["remitter_email"]) (Ok Context.scenario))
    as [_ [_ [_ [_ [_ [_ H]]]]]].
  destruct (H Context.scenario
              (JObj [("beneficiary_name", JStr "Bob")])
              (JObj [("name", JStr "Alice"); ("account_no", JStr "123")])
              (JObj [("currency", JStr "INR"); ("amount_figures", JStr "1500.50")])
              "INR" "templates/tt_form.docx" c9_context
              (JStr "https://files.example/alice.png")
              (Generate.CImage (JStr "https://files.example/alice.png"))
              ["remitter_email"])
    as [Hres [Hr _]];
    [reflexivity | reflexivity | vm_compute; reflexivity | reflexivity | reflexivity
    | vm_compute; reflexivity | reflexivity | reflexivity | vm_compute; discriminate |].
  split; [|exact Hr].
  rewrite Hres. vm_compute. reflexivity.
Defined.

(** C9 is refuted: a body that is not an object, and an amount beyond the
    speller's limit, make the exception escape the view; no
    [{ok: false, error}] object is answered. *)
Lemma C9_failures_escape :
  Generate.generate (c9_world []) (Ok (JList [])) = (Raise AttributeError, []) /\
  Generate.generate (c9_world [])
    (Ok (JObj [("extra", JObj [("currency", JStr "INR"); ("amount_figures", JStr "10000000000")])]))
    = (Raise OverflowError, []).
Proof. vm_compute. split; reflexivity. Qed.

(** ** C10: template variable listing on exceptions *)

(** C10 (amended): when the enumeration with an environment raises an
    exception other than [TypeError], [list_template_vars] answers [[]] and
    the reconciliation gate then passes for every context, so rendering is
    reached; when it raises [TypeError], the enumeration is retried without
    an environment, and the retry's sorted answer is returned or its
    exception propagates. *)
Theorem C10_listing_exceptions : forall (w : Generate.world),
  Generate.open_template w = Ok tt ->
  (forall e, Generate.vars_with_env w = Raise e -> e <> TypeError ->
     Generate.list_template_vars w = (Ok [], [OpenTemplate; ListVars true]) /\
     forall tpl_path currency ctx beneficiary extra,
       Generate.missing_vars [] ctx = [] /\
       exists rest, snd (Generate.render_stage w tpl_path currency ctx [] beneficiary extra)
                    = Render :: rest) /\
  (Generate.vars_with_env w = Raise TypeError ->
     Generate.list_template_vars w =
       (match Generate.vars_without_env w with
        | Ok vs => Ok (Generate.py_sorted vs)
        | Raise e' => Raise e'
        end, [OpenTemplate; ListVars true; ListVars false])) /\
  (forall data b r e cur ctx tpl sig_url e',
     Generate.vars_with_env w = Raise TypeError -> Generate.vars_without_env w = Raise e' ->
     Generate.env_error w = None ->
     Generate.build_context (Generate.today w) data = Ok (b, r, e, cur, ctx) ->
     Generate.template_path w = Ok tpl ->
     fst (Resolver.fetch_signature_url (Generate.store w) r) = Ok sig_url ->
     fst (Generate.generate w (Ok data))
       = Ok (Generate.error_response 500
               (Generate.exn_name e' ++ ": " ++ Generate.exn_message w e'))).
Proof.
  intros w Ho. split.
  - intros e He Hne. split.
    + unfold Generate.list_template_vars, call, mbind, try_except, ret.
      rewrite Ho, He. destruct e; try reflexivity. contradiction.
    + intros tpl_path currency ctx beneficiary extra. split; [reflexivity|].
      exact (proj2 (render_stage_gate w tpl_path currency ctx [] beneficiary extra) eq_refl).
  - split.
    + intros He. unfold Generate.list_template_vars, call, mbind, try_except, ret.
      rewrite Ho, He. destruct (Generate.vars_without_env w); reflexivity.
    + intros data b r e cur ctx tpl sig_url e' He Hwo Henv Hbc Htp Hsig.
      assert (Hl : fst (Generate.list_template_vars w) = Raise e').
      { unfold Generate.list_template_vars, call, mbind, try_except, ret.
        rewrite Ho, He, Hwo. reflexivity. }
      unfold Generate.generate, Generate.generate_block. rewrite Henv.
      cbn [mbind lift]. rewrite Hbc. cbn [mbind]. rewrite Htp. cbn [mbind lift call].
      rewrite Ho. cbn [mbind].
      destruct (Resolver.fetch_signature_url (Generate.store w) r) as [o1 t1].
      cbn [fst] in Hsig. subst o1. cbn [mbind].
      destruct (build_signature_image_total w sig_url) as [img Himg].
      destruct (Generate.build_signature_image w sig_url) as [o2 t2].
      cbn [fst] in Himg. subst o2. cbn [mbind].
      destruct (Generate.list_template_vars w) as [o3 t3].
      cbn [fst] in Hl. subst o3. cbn [mbind try_except fst]. reflexivity.
Qed.

Lemma C10_listing_exceptions_witness :
  Generate.list_template_vars (c10_world (RuntimeError "undefined filter") (Ok []))
    = (Ok [], [OpenTemplate; ListVars true]) /\
  Generate.list_template_vars (c10_world TypeError (Raise ValueError))
    = (Raise ValueError, [OpenTemplate; ListVars true; ListVars false]) /\
  fst (Generate.generate (c10_world TypeError (Raise ValueError)) (Ok Context.scenario))
    = Ok (Generate.error_response 500 "ValueError: unexpected '/'").
Proof.
  split; [|split].
  - apply (proj1 (proj1 (C10_listing_exceptions
                           (c10_world (RuntimeError "undefined filter") (Ok [])) eq_refl)
                  (RuntimeError "undefined filter") eq_refl ltac:(discriminate))).
  - apply (proj1 (proj2 (C10_listing_exceptions (c10_world TypeError (Raise ValueError)) eq_refl))
                 eq_refl).
  - apply (proj2 (proj2 (C10_listing_exceptions (c10_world TypeError (Raise ValueError)) eq_refl))
             Context.scenario
             (JObj [("beneficiary_name", JStr "Bob")])
             (JObj [("name", JStr "Alice"); ("account_no", JStr "123")])
             (JObj [("currency", JStr "INR"); ("amount_figures", JStr "1500.50")])
             "INR" c9_context "templates/tt_form.docx"
             (JStr "https://files.example/alice.png") ValueError);
      [reflexivity | reflexivity | reflexivity | vm_compute; reflexivity | reflexivity
      | vm_compute; reflexivity].
Defined.

(** C10 is refuted: a [TypeError] whose retry raises makes
    [list_template_vars] raise (the request then answers 500), and a
    [TypeError] whose retry succeeds gives the retry's list, not [[]]. *)
Lemma C10_typeerror_not_swallowed :
  fst (Generate.list_template_vars (c10_world TypeError (Raise ValueError))) = Raise ValueError /\
  fst (Generate.list_template_vars (c10_world TypeError (Ok ["remitter_email"])))
    = Ok ["remitter_email"] /\
  fst (Generate.generate (c10_world TypeError (Raise ValueError)) (Ok Context.scenario))
    = Ok (Generate.error_response 500 "ValueError: unexpected '/'").
Proof. vm_compute. repeat split. Qed.

(** ** Further properties of the code *)

Lemma str_app_assoc (a b c : string) : (a ++ b) ++ c = a ++ b ++ c.
Proof. induction a as [|x a IH]; simpl; [reflexivity | now rewrite IH]. Qed.

Lemma title_minus (r : string) : Py.title ("minus " ++ r) = "Minus " ++ Py.title r.
Proof. reflexivity. Qed.

Lemma words_negative (lang : string) (m : Z) (w : string) :
  m < 0 -> Amount.words lang m = Ok w -> exists r, w = "minus " ++ r.
Proof.
  intros Hm H. unfold Amount.words, Num2Words.cardinal, Num2Words.to_cardinal in H.
  replace (m <? 0) with true in H by (symmetry; now apply Z.ltb_lt).
  match type of H with context [if ?b then _ else _] => destruct b end; [discriminate|].
  match type of H with context [Num2Words.splitnum ?c ?f ?v] => destruct (Num2Words.splitnum c f v) end;
    [|discriminate].
  match type of H with context [Num2Words.clean ?f ?v] => destruct (Num2Words.clean f v) as [[t n|]|] end;
    try discriminate.
  cbn [bind] in H. injection H as <-.
  exists (Py.replace_char "-" " " t). reflexivity.
Qed.

Lemma compose_prefix (mw nw mu nu : string) (mi : Z) :
  exists rest, Amount.compose mw nw mu nu mi = Py.title mw ++ rest.
Proof.
  unfold Amount.compose.
  destruct (negb (mi =? 0) && negb (String.eqb nu "")); [eexists; reflexivity|].
  destruct (negb (String.eqb mu "")); [eexists; reflexivity|].
  destruct (mi =? 0); eexists; reflexivity.
Qed.

(** X2: when the normalised amount parses with a negative major part, a successful conversion starts with "Minus ". *)
Theorem X2_negative_amounts_minus : forall a c m mi t,
  Amount.parse_parts (Amount.normalize a) = Some (m, mi) -> m < 0 ->
  Amount.amount_to_words a c = Ok t -> exists rest, t = "Minus " ++ rest.
Proof.
  intros a c m mi t Hp Hm H.
  destruct (String.eqb a "") eqn:Ea.
  - apply String.eqb_eq in Ea; subst a. vm_compute in Hp. injection Hp as <- _. lia.
  - unfold Amount.amount_to_words in H. rewrite Ea, Hp in H. cbv zeta in H.
    destruct (Amount.words (Amount.lang_of c) m) as [mw|] eqn:Hw; [|discriminate].
    cbn [bind] in H.
    destruct (if mi =? 0 then Ok "" else Amount.words (Amount.lang_of c) mi) as [nw|]; [|discriminate].
    cbn [bind] in H.
    destruct (Amount.unit_names (Py.upper c) m mi) as [mu nu].
    injection H as <-.
    destruct (words_negative _ _ _ Hm Hw) as [r ->].
    destruct (compose_prefix ("minus " ++ r) nw mu nu mi) as [rest ->].
    rewrite title_minus. exists (Py.title r ++ rest). now rewrite str_app_assoc.
Qed.

Lemma X2_negative_amounts_minus_witness :
  Amount.parse_parts (Amount.normalize "-5") = Some (-5, 0) /\
  Amount.amount_to_words "-5" "USD" = Ok "Minus Five Dollars Only" /\
  exists rest, "Minus Five Dollars Only" = "Minus " ++ rest.
Proof.
  split; [vm_compute; reflexivity|]. split; [vm_compute; reflexivity|].
  apply (X2_negative_amounts_minus "-5" "USD" (-5) 0); [vm_compute; reflexivity | lia | vm_compute; reflexivity].
Defined.

(** X1: [amount_to_words] reads the currency code case-insensitively: upper-casing the code never changes the outcome, text or exception. *)
Theorem X1_currency_case_insensitive : forall a c,
  Amount.amount_to_words a c = Amount.amount_to_words a (Py.upper c).
Proof.
  intros a c. unfold Amount.amount_to_words, Amount.lang_of. now rewrite !upper_idem.
Qed.

(** X3: a non-empty amount that becomes empty once its surrounding whitespace is stripped and its commas removed (such as " , ", ",," or " ") is converted as zero (e.g. " , " in USD gives "Zero Dollars Only"). *)
Theorem X3_blank_amount_is_zero : forall a c,
  a <> "" -> Amount.normalize a = "" ->
  Amount.amount_to_words a c =
    Ok (Amount.compose "zero" "" (fst (Amount.unit_names (Py.upper c) 0 0))
          (snd (Amount.unit_names (Py.upper c) 0 0)) 0).
Proof.
  intros a c Ha Hn. unfold Amount.amount_to_words.
  replace (String.eqb a "") with false by (symmetry; now apply String.eqb_neq).
  rewrite Hn. cbv zeta.
  replace (Amount.parse_parts "") with (Some (0, 0)) by (vm_compute; reflexivity).
  replace (Amount.words (Amount.lang_of c) 0) with (Ok "zero")
    by (unfold Amount.lang_of; destruct (String.eqb (Py.upper c) "INR"); vm_compute; reflexivity).
  cbn [bind Z.eqb].
  destruct (Amount.unit_names (Py.upper c) 0 0); reflexivity.
Qed.

Lemma X3_blank_amount_is_zero_witness :
  Amount.amount_to_words " , " "USD" = Ok "Zero Dollars Only" /\
  Amount.amount_to_words " " "XYZ" = Ok "Zero Only".
Proof.
  split.
  - rewrite (X3_blank_amount_is_zero " , " "USD"); [vm_compute; reflexivity | discriminate | vm_compute; reflexivity].
  - rewrite (X3_blank_amount_is_zero " " "XYZ"); [vm_compute; reflexivity | discriminate | vm_compute; reflexivity].
Defined.

Lemma lstrip_app_space (a : string) (sp : ascii) :
  Py.is_space sp = true ->
  Py.lstrip (a ++ String sp "") =
    if String.eqb (Py.lstrip a) "" then "" else Py.lstrip a ++ String sp "".
Proof.
  intros Hs. induction a as [|c a IH]; simpl.
  - now rewrite Hs.
  - destruct (Py.is_space c); [exact IH|reflexivity].
Qed.

Lemma rev_str_app (x y acc : string) : Py.rev_str (x ++ y) acc = Py.rev_str y (Py.rev_str x acc).
Proof. revert acc; induction x as [|c x IH]; intros acc; simpl; [reflexivity | apply IH]. Qed.

Lemma strip_space_left (a : string) (sp : ascii) :
  Py.is_space sp = true -> Py.strip (String sp a) = Py.strip a.
Proof. intros Hs. unfold Py.strip. simpl. now rewrite Hs. Qed.

Lemma strip_space_right (a : string) (sp : ascii) :
  Py.is_space sp = true -> Py.strip (a ++ String sp "") = Py.strip a.
Proof.
  intros Hs. unfold Py.strip. rewrite (lstrip_app_space a sp Hs).
  destruct (String.eqb (Py.lstrip a) "") eqn:E.
  - apply String.eqb_eq in E. rewrite E. reflexivity.
  - rewrite rev_str_app. simpl. now rewrite Hs.
Qed.

(** X4: one whitespace character before or after a non-empty amount does not change the conversion. *)
Theorem X4_surrounding_whitespace_ignored : forall a c sp,
  a <> "" -> Py.is_space sp = true ->
  Amount.amount_to_words (String sp a) c = Amount.amount_to_words a c /\
  Amount.amount_to_words (a ++ String sp "") c = Amount.amount_to_words a c.
Proof.
  intros a c sp Ha Hs. unfold Amount.amount_to_words, Amount.normalize.
  replace (String.eqb a "") with false by (symmetry; now apply String.eqb_neq).
  replace (String.eqb (a ++ String sp "") "") with false
    by (symmetry; apply String.eqb_neq; destruct a; discriminate).
  cbn [String.eqb].
  rewrite strip_space_left, strip_space_right by exact Hs. split; reflexivity.
Qed.

Lemma X4_surrounding_whitespace_ignored_witness :
  Amount.amount_to_words " 1,500.50" "INR" = Amount.amount_to_words "1,500.50" "INR" /\
  Amount.amount_to_words ("1,500.50" ++ " ") "INR" = Amount.amount_to_words "1,500.50" "INR".
Proof. apply X4_surrounding_whitespace_ignored; [discriminate | reflexivity]. Defined.

Ltac split_outcomes :=
  repeat match goal with
  | |- context [match ?o with Ok _ => _ | Raise _ => _ end] =>
      destruct o; cbn [mbind lift call ret fst snd app]
  | |- context [if ?b then _ else _] => destruct b; cbn [mbind lift call ret fst snd app]
  end.

Lemma render_stage_trace w tpl cur ctx wanted b e :
  render_save_shape (snd (Generate.render_stage w tpl cur ctx wanted b e)).
Proof.
  unfold render_save_shape, Generate.render_stage.
  destruct (Generate.missing_vars wanted ctx); cbn [mbind lift call ret fst snd app];
    [|left; reflexivity].
  split_outcomes; eauto 10.
Qed.

Lemma quiet_then_nil (P : list event -> Prop) (t : list event) :
  P [] -> Forall (fun ev => quiet ev = true) t -> quiet_then P t.
Proof. intros HP Ht. exists t, []. rewrite app_nil_r. auto. Qed.

Lemma quiet_then_mbind {A B} (P : list event -> Prop) (m : M A) (k : A -> M B) :
  P [] -> Forall (fun ev => quiet ev = true) (snd m) ->
  (forall a, fst m = Ok a -> quiet_then P (snd (k a))) ->
  quiet_then P (snd (mbind m k)).
Proof.
  intros HP Hm Hk. destruct m as [[a|e] t]; cbn [mbind fst snd] in *.
  - specialize (Hk a eq_refl). destruct (k a) as [r t']. cbn [snd] in *.
    destruct Hk as [pre [post [-> [Hq Hp]]]].
    exists (t ++ pre)%list, post. rewrite app_assoc. repeat split; auto.
    apply Forall_app; auto.
  - now apply quiet_then_nil.
Qed.

(** The trace of the [try] block of [generate]: quiet calls, then the
    trace of [render_stage] for the template path. *)
Lemma generate_block_trace w cur ctx b r e :
  quiet_then (fun post => post = [] \/ exists tpl ctx' wanted,
                 Generate.template_path w = Ok tpl /\
                 post = snd (Generate.render_stage w tpl cur ctx' wanted b e))
    (snd (Generate.generate_block w cur ctx b r e)).
Proof.
  unfold Generate.generate_block.
  apply quiet_then_mbind; [now left | constructor |]. intros tpl Htpl.
  apply quiet_then_mbind; [now left | apply quiet_call; reflexivity |]. intros u _.
  apply quiet_then_mbind; [now left | apply fetch_signature_url_quiet |]. intros sig _.
  apply quiet_then_mbind; [now left | apply build_signature_image_quiet |]. intros img _.
  apply quiet_then_mbind; [now left | apply list_template_vars_quiet |]. intros wanted _.
  exists [], (snd (Generate.render_stage w tpl cur (ctx ++ [("signature", img)])%list wanted b e)).
  split; [reflexivity|]. split; [constructor|].
  right. exists tpl, (ctx ++ [("signature", img)])%list, wanted. split; [exact Htpl | reflexivity].
Qed.

Lemma generate_trace w body :
  quiet_then (fun post => post = [] \/ exists data tpl b r e cur ctx ctx' wanted,
                 body = Ok data /\ Generate.env_error w = None /\
                 Generate.build_context (Generate.today w) data = Ok (b, r, e, cur, ctx) /\
                 Generate.template_path w = Ok tpl /\
                 post = snd (Generate.render_stage w tpl cur ctx' wanted b e))
    (snd (Generate.generate w body)).
Proof.
  unfold Generate.generate.
  destruct (Generate.env_error w) eqn:Henv; [apply quiet_then_nil; [now left | constructor]|].
  destruct body as [data|ex]; cbn [mbind lift]; [|apply quiet_then_nil; [now left | constructor]].
  destruct (Generate.build_context (Generate.today w) data) as [[[[[b r] e] cur] ctx]|ex] eqn:Hbc;
    cbn [mbind lift]; [|apply quiet_then_nil; [now left | constructor]].
  pose proof (generate_block_trace w cur ctx b r e) as [pre [post [Ht [Hq Hp]]]].
  destruct (Generate.generate_block w cur ctx b r e) as [[resp|ex] t]; cbn [try_except snd] in *.
  - exists pre, post. split; [exact Ht|]. split; [exact Hq|].
    destruct Hp as [->|[tpl [ctx' [wanted [Htpl ->]]]]]; [now left|].
    right. exists data, tpl, b, r, e, cur, ctx, ctx', wanted. auto 6.
  - exists pre, post. cbn [snd ret]. split; [rewrite ?app_nil_r; exact Ht|]. split; [exact Hq|].
    destruct Hp as [->|[tpl [ctx' [wanted [Htpl ->]]]]]; [now left|].
    right. exists data, tpl, b, r, e, cur, ctx, ctx', wanted. auto 6.
Qed.

(** X6: the effects of [generate] are calls that neither render, create a directory nor save, followed by at most one render and, after it, at most one save; the render may instead be followed by one creation of a target's parent directory and then at most one save, to that same target. *)
Theorem X6_render_and_save_once : forall w body,
  exists pre post, snd (Generate.generate w body) = (pre ++ post)%list /\
    Forall (fun ev => quiet ev = true) pre /\ render_save_shape post.
Proof.
  intros w body. destruct (generate_trace w body) as [pre [post [Ht [Hq Hp]]]].
  exists pre, post. split; [exact Ht|]. split; [exact Hq|].
  destruct Hp as [->|[data [tpl [b [r [e [cur [ctx [ctx' [wanted [_ [_ [_ [_ ->]]]]]]]]]]]]]].
  - now left.
  - apply render_stage_trace.
Qed.

Lemma render_stage_overwrite w tpl cur ctx wanted b e ov t :
  get e "overwrite" JNull = Ok ov -> truthy ov = true ->
  In (SaveTo t) (snd (Generate.render_stage w tpl cur ctx wanted b e)) -> t = tpl.
Proof.
  intros Hov Ht. unfold Generate.render_stage.
  destruct (Generate.missing_vars wanted ctx); cbn [mbind lift call ret fst snd app];
    [|intros []].
  destruct (Generate.render w ctx); cbn [mbind lift call ret fst snd app];
    [|intros [H|[]]; discriminate].
  rewrite Hov. cbn [mbind lift].
  destruct (get e "out_path" JNull); cbn [mbind lift call ret fst snd app];
    [|intros [H|[]]; discriminate].
  rewrite Ht. destruct (Generate.save w tpl); cbn [mbind lift call ret fst snd app];
    intros [H|[H|[]]]; congruence.
Qed.

Lemma quiet_not_save (pre : list event) (t : string) :
  Forall (fun ev => quiet ev = true) pre -> ~ In (SaveTo t) pre.
Proof. intros Hq Hin. rewrite Forall_forall in Hq. specialize (Hq _ Hin). discriminate. Qed.

(** X7: with a truthy "overwrite" extra, the only file [generate] saves to is the resolved template path. *)
Theorem X7_overwrite_saves_template : forall w data b r e cur ctx tpl ov t,
  Generate.env_error w = None ->
  Generate.build_context (Generate.today w) data = Ok (b, r, e, cur, ctx) ->
  Generate.template_path w = Ok tpl ->
  get e "overwrite" JNull = Ok ov -> truthy ov = true ->
  In (SaveTo t) (snd (Generate.generate w (Ok data))) -> t = tpl.
Proof.
  intros w data b r e cur ctx tpl ov t Henv Hbc Htpl Hov Hovt Hin.
  destruct (generate_trace w (Ok data)) as [pre [post [Ht [Hq Hp]]]].
  rewrite Ht in Hin. apply in_app_or in Hin as [Hin|Hin].
  - exfalso. exact (quiet_not_save pre t Hq Hin).
  - destruct Hp as [->|[data' [tpl' [b' [r' [e' [cur' [ctx0 [ctx' [wanted
                     [Hd [_ [Hbc' [Htpl' ->]]]]]]]]]]]]]]; [destruct Hin|].
    injection Hd as <-. rewrite Hbc in Hbc'. injection Hbc' as <- <- <- <- <-.
    rewrite Htpl in Htpl'. injection Htpl' as <-.
    exact (render_stage_overwrite w tpl cur ctx' wanted b e ov t Hov Hovt Hin).
Qed.

Lemma X7_overwrite_saves_template_witness :
  In (SaveTo "templates/tt_form.docx") (snd (Generate.generate (c9_world []) (Ok x7_data))) /\
  "templates/tt_form.docx" = "templates/tt_form.docx".
Proof.
  split; [vm_compute; tauto|].
  eapply (X7_overwrite_saves_template (c9_world []) x7_data (JObj []) (JObj []) x7_extra "USD"
            _ "templates/tt_form.docx" (JBool true)).
  - reflexivity.
  - vm_compute. reflexivity.
  - reflexivity.
  - reflexivity.
  - reflexivity.
  - vm_compute. tauto.
Defined.

Lemma fst_mbind_ok {A B} (m : M A) (k : A -> M B) (r : B) :
  fst (mbind m k) = Ok r -> exists a, fst m = Ok a /\ fst (k a) = Ok r.
Proof.
  destruct m as [[a|e] t]; cbn [mbind fst]; [|discriminate].
  destruct (k a) as [r' t'] eqn:E. cbn [fst]. intros ->. exists a. rewrite E. auto.
Qed.

Lemma fst_try_ok {A} (m : M A) (h : exn -> M A) (r : A) :
  fst (try_except m h) = Ok r -> fst m = Ok r \/ exists e, fst (h e) = Ok r.
Proof.
  destruct m as [[a|e] t]; cbn [try_except fst]; [auto|].
  destruct (h e) as [r' t'] eqn:E. cbn [fst]. intros ->. right. exists e. now rewrite E.
Qed.

Lemma list_ascii_of_string_app (a b : string) :
  list_ascii_of_string (a ++ b) = (list_ascii_of_string a ++ list_ascii_of_string b)%list.
Proof. induction a as [|x a IH]; simpl; [reflexivity | now rewrite IH]. Qed.

Lemma replace_char_absent (c d : ascii) (rp s : string) :
  forallb (fun x => negb (Ascii.eqb x d)) (list_ascii_of_string rp) = true ->
  (d = c \/ forallb (fun x => negb (Ascii.eqb x d)) (list_ascii_of_string s) = true) ->
  forallb (fun x => negb (Ascii.eqb x d)) (list_ascii_of_string (Py.replace_char c rp s)) = true.
Proof.
  intros Hr. induction s as [|x s IH]; intros Hs; [reflexivity|].
  cbn [Py.replace_char]. destruct (Ascii.eqb c x) eqn:Ecx.
  - rewrite list_ascii_of_string_app, forallb_app, Hr. apply IH.
    destruct Hs as [Hs|Hs]; [now left|]. cbn in Hs. apply andb_prop in Hs. now right.
  - cbn [list_ascii_of_string forallb]. apply andb_true_intro. split.
    + destruct Hs as [->|Hs].
      * rewrite Ascii.eqb_sym, Ecx. reflexivity.
      * cbn in Hs. now apply andb_prop in Hs.
    + apply IH. destruct Hs as [Hs|Hs]; [now left|]. cbn in Hs. apply andb_prop in Hs. now right.
Qed.

Lemma name_safe_iff (s : string) :
  name_safe s = forallb (fun x => negb (Ascii.eqb x ":")) (list_ascii_of_string s)
                && forallb (fun x => negb (Ascii.eqb x "/")) (list_ascii_of_string s).
Proof.
  unfold name_safe, safe_char. induction (list_ascii_of_string s) as [|x l IH]; [reflexivity|].
  cbn [forallb]. rewrite IH.
  destruct (negb (Ascii.eqb x ":")), (negb (Ascii.eqb x "/")),
    (forallb (fun y => negb (Ascii.eqb y ":")) l), (forallb (fun y => negb (Ascii.eqb y "/")) l);
    reflexivity.
Qed.

Lemma replace_unsafe_safe (s : string) : name_safe (Generate.replace_unsafe s) = true.
Proof.
  rewrite name_safe_iff. unfold Generate.replace_unsafe. apply andb_true_intro. split.
  - apply replace_char_absent; [reflexivity|]. right.
    apply replace_char_absent; [reflexivity | now left].
  - apply replace_char_absent; [reflexivity | now left].
Qed.

Ltac ok_steps H :=
  repeat match type of H with
  | fst (mbind _ _) = Ok _ => let a := fresh "a" in let H' := fresh "H" in
                              apply fst_mbind_ok in H as [a [H' H]]; clear H'
  | fst (ret _) = Ok _ => cbn [ret fst] in H; injection H as <-
  | fst (lift _) = Ok _ => discriminate H || clear H
  | fst (call _ _) = Ok _ => discriminate H || clear H
  | fst (if ?b then _ else _) = Ok _ => destruct b
  end.

Lemma render_stage_safe w tpl cur ctx wanted b e resp :
  fst (Generate.render_stage w tpl cur ctx wanted b e) = Ok resp -> response_safe resp = true.
Proof.
  unfold Generate.render_stage. destruct (Generate.missing_vars wanted ctx) as [|m ms].
  - intros H. ok_steps H; try reflexivity.
    cbn [response_safe]. rewrite !replace_unsafe_safe. reflexivity.
  - intros H. cbn [ret fst] in H. injection H as <-. reflexivity.
Qed.

(** X5: every successful reply of [generate] that sends a file has a download name whose parts contain no ':' and no '/'. *)
Theorem X5_download_name_safe : forall w body resp,
  fst (Generate.generate w body) = Ok resp -> response_safe resp = true.
Proof.
  intros w body resp H. unfold Generate.generate in H.
  destruct (Generate.env_error w); [cbn [ret fst] in H; injection H as <-; reflexivity|].
  apply fst_mbind_ok in H as [data [_ H]].
  apply fst_mbind_ok in H as [[[[[b r] e] cur] ctx] [_ H]].
  apply fst_try_ok in H as [H|[ex H]]; [|cbn [ret fst] in H; injection H as <-; reflexivity].
  unfold Generate.generate_block in H.
  do 5 (apply fst_mbind_ok in H as [? [_ H]]).
  exact (render_stage_safe _ _ _ _ _ _ _ _ H).
Qed.

Lemma X5_download_name_safe_witness :
  fst (Generate.generate (c9_world []) (Ok x5_data))
    = Ok (Generate.SendFile "A-B TRADERS" "USD" "1200" "2026-10-18T10-30") /\
  response_safe (Generate.SendFile "A-B TRADERS" "USD" "1200" "2026-10-18T10-30") = true.
Proof.
  assert (H : fst (Generate.generate (c9_world []) (Ok x5_data))
              = Ok (Generate.SendFile "A-B TRADERS" "USD" "1200" "2026-10-18T10-30"))
    by (vm_compute; reflexivity).
  split; [exact H | exact (X5_download_name_safe _ _ _ H)].
Defined.

(** The exceptions of [_template_path()]: its own [RuntimeError]s, or what
    [Path.resolve()] or [Path.exists()] raise. *)
Definition fs_or_runtime (c : Env.config) (e : exn) : Prop :=
  (exists msg, e = RuntimeError msg) \/
  (exists p, Env.resolve c p = Raise e) \/ (exists p, Env.path_exists c p = Raise e).

Lemma template_path_raise (c : Env.config) (e : exn) :
  Env.template_path c = Raise e -> fs_or_runtime c e.
Proof.
  unfold fs_or_runtime, Env.template_path.
  destruct (String.eqb _ _); [intros H; injection H as <-; left; eauto|].
  cbv zeta. destruct (String.prefix "/" _); cbn [bind].
  - destruct (Env.path_exists c _) as [[]|e0] eqn:He; cbn [bind]; intros H;
      [discriminate | injection H as <-; left; eauto | injection H as <-; right; right; eauto].
  - destruct (Env.resolve c _) as [p|e0] eqn:Hr; cbn [bind];
      [|intros H; injection H as <-; right; left; eauto].
    destruct (Env.path_exists c p) as [[]|e0] eqn:He; cbn [bind]; intros H;
      [discriminate | injection H as <-; left; eauto | injection H as <-; right; right; eauto].
Qed.

(** X8: [_assert_env] succeeds exactly when the token starts with "secret_" or "ntn_", both database ids have 32 characters and the template path resolves to an existing file; each failure is a RuntimeError of its own checks or an exception raised by [Path.resolve()] or [Path.exists()]. *)
Theorem X8_assert_env_accepts : forall c,
  (Env.assert_env c = Ok tt <->
     (String.prefix "secret_" (Env.NOTION_TOKEN c) = true \/
      String.prefix "ntn_" (Env.NOTION_TOKEN c) = true) /\
     String.length (Env.REMITTER_DB c) = 32%nat /\
     String.length (Env.BENEFICIARY_DB c) = 32%nat /\
     exists p, Env.template_path c = Ok p) /\
  (forall e, Env.assert_env c = Raise e ->
     (exists msg, e = RuntimeError msg) \/
     (exists p, Env.resolve c p = Raise e) \/ (exists p, Env.path_exists c p = Raise e)).
Proof.
  intros c. unfold Env.assert_env.
  destruct (String.eqb (Env.NOTION_TOKEN c) "") eqn:E0.
  - apply String.eqb_eq in E0. rewrite E0. split.
    + split; [discriminate|]. intros [[H|H] _]; discriminate.
    + intros e H. injection H as <-. left; eauto.
  - destruct (String.prefix "secret_" (Env.NOTION_TOKEN c) || String.prefix "ntn_" (Env.NOTION_TOKEN c))
      eqn:E1; cbn [negb].
    + apply orb_true_iff in E1.
      destruct ((String.length (Env.REMITTER_DB c) =? 32)%nat
                && (String.length (Env.BENEFICIARY_DB c) =? 32)%nat) eqn:E2; cbn [negb].
      * apply andb_prop in E2 as [E2 E3]. apply Nat.eqb_eq in E2, E3.
        destruct (Env.template_path c) as [p|e0] eqn:Htp; cbn [bind]; split.
        -- split; [eauto 6 | reflexivity].
        -- discriminate.
        -- split; [discriminate|]. intros (_ & _ & _ & p & Hp). discriminate.
        -- intros e H. injection H as <-. exact (template_path_raise c e0 Htp).
      * split; [split; [discriminate|] | intros e H; injection H as <-; left; eauto].
        intros (_ & H2 & H3 & _). rewrite H2, H3 in E2. discriminate.
    + split; [split; [discriminate|] | intros e H; injection H as <-; left; eauto].
      intros ([H|H] & _); rewrite H in E1; [discriminate|]. now rewrite orb_true_r in E1.
Qed.

Lemma substring_prefix (n : nat) (s : string) :
  String.prefix (substring 0 n s) s = true /\
  String.length (substring 0 n s) = Nat.min n (String.length s).
Proof.
  revert s; induction n as [|n IH]; intros s.
  - destruct s; split; cbn; auto.
  - destruct s as [|a s]; cbn; [split; reflexivity|].
    destruct (IH s) as [H1 H2]. split; [|lia].
    destruct (Ascii.ascii_dec a a) as [_|]; [exact H1 | congruence].
Qed.

(** X9: [debug_env] shows the token only as its first entry: null exactly for an empty token, otherwise its first six characters (all of them when it is shorter) followed by "..."; the other entries do not depend on the token. *)
Theorem X9_debug_env_token : forall c tok',
  tl (Env.debug_env c) = tl (Env.debug_env (with_token c tok')) /\
  exists v, hd_error (Env.debug_env c) = Some ("token_prefix", v) /\
    ((Env.NOTION_TOKEN c = "" /\ v = JNull) \/
     (Env.NOTION_TOKEN c <> "" /\
      exists pre, v = JStr (pre ++ "...") /\
                  String.length pre = Nat.min 6 (String.length (Env.NOTION_TOKEN c)) /\
                  String.prefix pre (Env.NOTION_TOKEN c) = true)).
Proof.
  intros c tok'. split.
  { unfold Env.debug_env.
    change (Env.template_path (with_token c tok')) with (Env.template_path c).
    change (Env.path_exists (with_token c tok')) with (Env.path_exists c).
    destruct (Env.template_path c) as [p|e]; cbn [bind]; [|reflexivity].
    destruct (Env.path_exists c p); reflexivity. }
  unfold Env.debug_env.
  match goal with |- context [match ?X with Ok _ => _ | Raise _ => _ end] =>
    destruct X as [[b p]|e] end;
  eexists; (split; [reflexivity|]);
  (destruct (String.eqb (Env.NOTION_TOKEN c) "") eqn:E;
   [left; split; [now apply String.eqb_eq | reflexivity]
   |right; split; [now apply String.eqb_neq|];
    exists (substring 0 6 (Env.NOTION_TOKEN c)); split; [reflexivity | apply and_comm, substring_prefix]]).
Qed.

(** X10: a page with an empty "properties" dict parses to its id and an empty string for every other field, for remitters and beneficiaries alike. *)
Theorem X10_parse_without_properties : forall fs t,
  get (JObj fs) "properties" (JObj []) = Ok (JObj []) ->
  Codec.parse_remitter (JObj fs) t =
    Ok (("id", id_of fs) :: map (fun k => (k, JStr "")) (map (fun x => fst (fst x)) Codec.remitter_layout)) /\
  Codec.parse_beneficiary (JObj fs) t =
    Ok (("id", id_of fs) :: map (fun k => (k, JStr "")) (map (fun x => fst (fst x)) Codec.beneficiary_layout)).
Proof.
  intros fs t H. unfold Codec.parse_remitter, Codec.parse_beneficiary, Codec.parse_with.
  rewrite H. cbn [bind get]. unfold id_of. split; reflexivity.
Qed.

Lemma X10_parse_without_properties_witness :
  Codec.parse_remitter (JObj [("id", JStr "p1"); ("properties", JObj [])]) "Name" =
    Ok [("id", JStr "p1"); ("name", JStr ""); ("account_no", JStr ""); ("address", JStr "");
        ("phone", JStr ""); ("id_type", JStr ""); ("id_value", JStr ""); ("signature_url", JStr "")].
Proof.
  exact (proj1 (X10_parse_without_properties [("id", JStr "p1"); ("properties", JObj [])] "Name" eq_refl)).
Defined.

Ltac settle_keys E tp H :=
  repeat (cbn [Codec.dict_set] in H;
          match type of H with
          | context [String.eqb ?k tp] => rewrite (E k) in H by (cbn; tauto)
          | context [String.eqb ?a ?b] =>
              let r := eval vm_compute in (String.eqb a b) in change (String.eqb a b) with r in H
          end).

Lemma build_remitter_obj (row : jval) (tp : string) (props : list (string * jval)) :
  Codec.build_remitter_properties row tp = Ok props -> exists fs, row = JObj fs.
Proof. destruct row; try discriminate. eauto. Qed.

(** X11: [build_remitter_properties] writes the title key first and then the five fixed keys; when the title property is one of the fixed names, the later field overwrites the title value in place. *)
Theorem X11_title_property_collision : forall row tp props,
  Codec.build_remitter_properties row tp = Ok props ->
  map fst props = tp :: filter (fun k => negb (String.eqb k tp)) remitter_fixed_props /\
  (In tp remitter_fixed_props -> forall v, ~ In (tp, Codec.title_ v) props) /\
  (~ In tp remitter_fixed_props -> exists v, assoc tp props = Some (Codec.title_ v)).
Proof.
  intros row tp props H. destruct (build_remitter_obj _ _ _ H) as [fs ->].
  unfold Codec.build_remitter_properties, Codec.remitter_assignments in H.
  cbn [Codec.build_with Codec.target Codec.source_key Codec.uppercase Codec.encoder get bind] in H.
  destruct (in_dec string_dec tp remitter_fixed_props) as [Hin|Hn].
  - pose proof Hin as Hin'. cbn [remitter_fixed_props In] in Hin'.
    destruct Hin' as [<-|[<-|[<-|[<-|[<-|[]]]]]];
      cbn in H; injection H as <-; (split; [reflexivity|]); (split; [|intros Hn; contradiction]);
      intros _ v Hv; cbn [In] in Hv;
      unfold Codec.rich_, Codec.title_, Codec.phone_, Codec.select_ in Hv;
      repeat match type of Hv with context [truthy ?x] => destruct (truthy x) end;
      intuition discriminate.
  - assert (E : forall k, In k remitter_fixed_props -> String.eqb k tp = false).
    { intros k Hk. apply String.eqb_neq. intros ->. exact (Hn Hk). }
    settle_keys E tp H.
    injection H as <-. split; [|split; [intros Hin; contradiction|]].
    + cbn [map fst remitter_fixed_props filter].
      rewrite (E "Account No"), (E "Address"), (E "Phone"), (E "ID Type"), (E "ID Value")
        by (cbn; tauto).
      reflexivity.
    + intros _. eexists. cbn [assoc]. now rewrite String.eqb_refl.
Qed.

Lemma X11_title_property_collision_witness :
  Codec.build_remitter_properties (JObj [("name", JStr "alice"); ("address", JStr "x st")]) "Address"
    = Ok [("Address", Codec.rich_ (JStr "X ST")); ("Account No", Codec.rich_ (JStr ""));
          ("Phone", Codec.phone_ (JStr "")); ("ID Type", Codec.select_ (JStr ""));
          ("ID Value", Codec.rich_ (JStr ""))] /\
  ~ In ("Address", Codec.title_ (JStr "ALICE"))
      [("Address", Codec.rich_ (JStr "X ST")); ("Account No", Codec.rich_ (JStr ""));
       ("Phone", Codec.phone_ (JStr "")); ("ID Type", Codec.select_ (JStr ""));
       ("ID Value", Codec.rich_ (JStr ""))].
Proof.
  assert (H : Codec.build_remitter_properties (JObj [("name", JStr "alice"); ("address", JStr "x st")]) "Address"
    = Ok [("Address", Codec.rich_ (JStr "X ST")); ("Account No", Codec.rich_ (JStr ""));
          ("Phone", Codec.phone_ (JStr "")); ("ID Type", Codec.select_ (JStr ""));
          ("ID Value", Codec.rich_ (JStr ""))]) by (vm_compute; reflexivity).
  split; [exact H|].
  exact (proj1 (proj2 (X11_title_property_collision _ _ _ H)) (or_intror (or_introl eq_refl)) _).
Defined.

(** X12: a null name becomes the title text "None" and a null phone becomes the empty phone number. *)
Theorem X12_null_fields : forall fs tp props,
  assoc "name" fs = Some JNull -> assoc "phone" fs = Some JNull ->
  ~ In tp remitter_fixed_props ->
  Codec.build_remitter_properties (JObj fs) tp = Ok props ->
  assoc tp props = Some (JObj [("title", JList [JObj [("text", JObj [("content", JStr "None")])]])]) /\
  assoc "Phone" props = Some (JObj [("phone_number", JStr "")]).
Proof.
  intros fs tp props Hn Hp Hnin H.
  unfold Codec.build_remitter_properties, Codec.remitter_assignments in H.
  cbn [Codec.build_with Codec.target Codec.source_key Codec.uppercase Codec.encoder get bind] in H.
  rewrite Hn, Hp in H.
  assert (E : forall k, In k remitter_fixed_props -> String.eqb k tp = false).
  { intros k Hk. apply String.eqb_neq. intros ->. exact (Hnin Hk). }
  settle_keys E tp H.
  injection H as <-. split.
  - cbn [assoc]. now rewrite String.eqb_refl.
  - cbn [assoc]. rewrite (E "Phone") by (cbn; tauto). reflexivity.
Qed.

Lemma X12_null_fields_witness :
  Codec.build_remitter_properties (JObj [("name", JNull); ("phone", JNull)]) "Name" =
    Ok [("Name", Codec.title_ JNull); ("Account No", Codec.rich_ (JStr ""));
        ("Address", Codec.rich_ (JStr "")); ("Phone", Codec.phone_ JNull);
        ("ID Type", Codec.select_ (JStr "")); ("ID Value", Codec.rich_ (JStr ""))] /\
  assoc "Name" [("Name", Codec.title_ JNull); ("Account No", Codec.rich_ (JStr ""));
        ("Address", Codec.rich_ (JStr "")); ("Phone", Codec.phone_ JNull);
        ("ID Type", Codec.select_ (JStr "")); ("ID Value", Codec.rich_ (JStr ""))]
    = Some (JObj [("title", JList [JObj [("text", JObj [("content", JStr "None")])]])]).
Proof.
  assert (H : Codec.build_remitter_properties (JObj [("name", JNull); ("phone", JNull)]) "Name" =
    Ok [("Name", Codec.title_ JNull); ("Account No", Codec.rich_ (JStr ""));
        ("Address", Codec.rich_ (JStr "")); ("Phone", Codec.phone_ JNull);
        ("ID Type", Codec.select_ (JStr "")); ("ID Value", Codec.rich_ (JStr ""))]) by (vm_compute; reflexivity).
  split; [exact H|].
  apply (X12_null_fields [("name", JNull); ("phone", JNull)] "Name" _ eq_refl eq_refl);
    [cbn; intuition discriminate | exact H].
Defined.

(** X13: for an rtype other than remitter and beneficiary, [api_record] and [api_upsert] send no request and, once the environment is valid, abort with 400. *)
Theorem X13_unknown_rtype_rejected : forall w rt page_id body,
  rt <> "remitter" -> rt <> "beneficiary" ->
  snd (Api.api_record w rt page_id) = [] /\ snd (Api.api_upsert w rt body) = [] /\
  (Env.assert_env (Api.cfg w) = Ok tt ->
   fst (Api.api_record w rt page_id) = Api.Fail (Api.Abort 400 Api.rtype_error) /\
   fst (Api.api_upsert w rt body) = Api.Fail (Api.Abort 400 Api.rtype_error)).
Proof.
  intros w rt page_id body H1 H2.
  apply String.eqb_neq in H1, H2.
  unfold Api.api_record, Api.api_upsert. rewrite H1, H2. cbn [orb negb].
  destruct (Env.assert_env (Api.cfg w)) as [[]|e]; cbn [Api.alift Api.abind Api.abort fst snd app].
  - auto.
  - split; [reflexivity | split; [reflexivity | discriminate]].
Qed.

Lemma X13_unknown_rtype_rejected_witness :
  snd (Api.api_record (api_fixture []) "invoice" "p1") = [] /\
  snd (Api.api_upsert (api_fixture []) "invoice" (JObj [])) = [] /\
  (Env.assert_env (Api.cfg (api_fixture [])) = Ok tt ->
   fst (Api.api_record (api_fixture []) "invoice" "p1") = Api.Fail (Api.Abort 400 Api.rtype_error) /\
   fst (Api.api_upsert (api_fixture []) "invoice" (JObj [])) = Api.Fail (Api.Abort 400 Api.rtype_error)).
Proof. apply X13_unknown_rtype_rejected; discriminate. Defined.

Lemma api_bind_in {A B} (m : Api.AM A) (k : A -> Api.AM B) x :
  In x (snd (Api.abind m k)) -> In x (snd m) \/ exists a, fst m = Api.Done a /\ In x (snd (k a)).
Proof.
  destruct m as [[a|f] t]; cbn; [|auto].
  destruct (k a) as [r t'] eqn:E; cbn. rewrite in_app_iff.
  intros [H|H]; [left; exact H | right; exists a; rewrite E; auto].
Qed.

Lemma api_bind_done {A B} (m : Api.AM A) (k : A -> Api.AM B) b :
  fst (Api.abind m k) = Api.Done b -> exists a, fst m = Api.Done a /\ fst (k a) = Api.Done b.
Proof.
  destruct m as [[a|f] t]; cbn; [|discriminate].
  destruct (k a) as [r t'] eqn:E; cbn. intros ->. exists a. rewrite E. auto.
Qed.

Lemma alift_trace {A} (o : outcome A) : snd (Api.alift o) = [].
Proof. destruct o; reflexivity. Qed.

Lemma alift_done {A} (o : outcome A) a : fst (Api.alift o) = Api.Done a -> o = Ok a.
Proof. destruct o; cbn; congruence. Qed.

Lemma send_trace {A} req (o : outcome A) : snd (Api.send req o) = [req].
Proof. destruct o; reflexivity. Qed.

Lemma get_database_reqs w d x :
  In x (snd (Api.notion_get_database w d)) -> x = Api.GetDatabaseReq d.
Proof.
  unfold Api.notion_get_database. intros H.
  apply api_bind_in in H as [H|[r [_ H]]].
  - rewrite send_trace in H. destruct H as [<-|[]]. reflexivity.
  - destruct (Api.status_code r =? 404); [contradiction|].
    apply api_bind_in in H as [H|[u [_ H]]].
    + unfold Api.raise_for_status in H.
      destruct (_ && _); [rewrite alift_trace in H|]; contradiction.
    + rewrite alift_trace in H. contradiction.
Qed.

Lemma upsert_requests w rt body0 x :
  In x (snd (Api.api_upsert w rt body0)) ->
  (exists d, x = Api.GetDatabaseReq d) \/
  exists tp props page_id,
    built_props rt (Api.upper_body body0) tp = Ok props /\
    get (Api.upper_body body0) "id" JNull = Ok page_id /\
    ((truthy page_id = true /\ x = Api.PatchPageReq page_id (JObj [("properties", JObj props)])) \/
     (truthy page_id = false /\
      x = Api.CreatePageReq
            (JObj [("parent", JObj [("database_id",
                     JStr (if String.eqb rt "remitter" then Env.REMITTER_DB (Api.cfg w)
                           else Env.BENEFICIARY_DB (Api.cfg w)))]);
                   ("properties", JObj props)]))).
Proof.
  unfold Api.api_upsert. intros H.
  apply api_bind_in in H as [H|[u [_ H]]]; [rewrite alift_trace in H; contradiction|].
  apply api_bind_in in H as [H|[props [Hp H]]].
  - left. unfold built_props.
    destruct (String.eqb rt "remitter"); [|destruct (String.eqb rt "beneficiary"); [|contradiction]];
      (apply api_bind_in in H as [H|[db [_ H]]];
       [eexists; eapply get_database_reqs; exact H|];
       apply api_bind_in in H as [H|[t [_ H]]]; rewrite alift_trace in H; contradiction).
  - right.
    assert (Hb : exists tp, built_props rt (Api.upper_body body0) tp = Ok props).
    { unfold built_props.
      destruct (String.eqb rt "remitter"); [|destruct (String.eqb rt "beneficiary"); [|discriminate]];
        (apply api_bind_done in Hp as [db [_ Hp]];
         apply api_bind_done in Hp as [t [_ Hp]];
         exists t; apply alift_done; exact Hp). }
    destruct Hb as [tp Hb].
    apply api_bind_in in H as [H|[page_id [Hid H]]]; [rewrite alift_trace in H; contradiction|].
    apply alift_done in Hid.
    exists tp, props, page_id. split; [exact Hb|]. split; [exact Hid|].
    apply api_bind_in in H as [H|[res [_ H]]].
    + destruct (truthy page_id); rewrite send_trace in H; destruct H as [<-|[]]; auto.
    + destruct (300 <=? Api.status_code res); [contradiction|].
      apply api_bind_in in H as [H|[pg [_ H]]]; rewrite ?alift_trace in H; contradiction.
Qed.

Lemma assoc_dict_set_same {A} k (v : A) d : assoc k (Codec.dict_set k v d) = Some v.
Proof.
  induction d as [|[k' v'] d IH]; cbn.
  - rewrite String.eqb_refl. reflexivity.
  - destruct (String.eqb k k') eqn:E; cbn; [rewrite String.eqb_refl; reflexivity|].
    rewrite E. exact IH.
Qed.

Lemma assoc_dict_set_other {A} k k' (v : A) d :
  k <> k' -> assoc k (Codec.dict_set k' v d) = assoc k d.
Proof.
  intros Hne. apply String.eqb_neq in Hne.
  induction d as [|[k2 v2] d IH]; cbn.
  - rewrite Hne. reflexivity.
  - destruct (String.eqb k' k2) eqn:E; cbn.
    + apply String.eqb_eq in E. subst k2. rewrite Hne. reflexivity.
    + rewrite IH. reflexivity.
Qed.

Lemma assoc_upper_body k fs :
  assoc k (map (fun kv => (fst kv, upper_v (snd kv))) fs) = option_map upper_v (assoc k fs).
Proof.
  induction fs as [|[k' v] fs IH]; cbn; [reflexivity|].
  destruct (String.eqb k k'); [reflexivity | exact IH].
Qed.

Lemma build_with_step row tp a asg props r :
  Codec.build_with row tp (a :: asg) props = Ok r ->
  exists v, get row (Codec.source_key a) (JStr "") = Ok v /\
    Codec.build_with row tp asg
      (Codec.dict_set (match Codec.target a with Codec.PTitle => tp | Codec.PNamed n => n end)
         (Codec.encoder a (if Codec.uppercase a then upper_v v else v)) props) = Ok r.
Proof.
  cbn [Codec.build_with]. destruct (get row (Codec.source_key a) (JStr "")) as [v|e]; cbn [mbind].
  - intros H. exists v. auto.
  - discriminate.
Qed.

Lemma build_with_nil row tp props r :
  Codec.build_with row tp [] props = Ok r -> props = r.
Proof. cbn [Codec.build_with]. congruence. Qed.

Lemma remitter_account_no fs tp props :
  Codec.build_remitter_properties (JObj fs) tp = Ok props ->
  assoc "Account No" props =
  Some (Codec.rich_ (match assoc "account_no" fs with Some v => v | None => JStr "" end)).
Proof.
  unfold Codec.build_remitter_properties, Codec.remitter_assignments. intros H.
  apply build_with_step in H as [v1 [_ H]].
  apply build_with_step in H as [v2 [Hv2 H]].
  do 4 (apply build_with_step in H as [? [_ H]]).
  apply build_with_nil in H. subst props.
  cbn [Codec.target Codec.source_key Codec.encoder Codec.uppercase] in *.
  rewrite !assoc_dict_set_other by discriminate.
  rewrite assoc_dict_set_same. cbn in Hv2. congruence.
Qed.

(** X14: [api_upsert] upper-cases the whole request body first, so the remitter "Account No" it writes is the upper-cased account number, although [build_remitter_properties] itself keeps that field as it is. *)
Theorem X14_upsert_uppercases_account_no : forall w fs s x props,
  assoc "account_no" fs = Some (JStr s) ->
  In x (snd (Api.api_upsert w "remitter" (JObj fs))) ->
  written_props x = Some props ->
  assoc "Account No" props = Some (Codec.rich_ (JStr (Py.upper s))).
Proof.
  intros w fs s x props Hs Hin Hw.
  apply upsert_requests in Hin as [[d ->]|[tp [props' [pid [Hb [_ Hx]]]]]]; [discriminate|].
  assert (props' = props) as <-.
  { destruct Hx as [[_ ->]|[_ ->]]; cbn in Hw; congruence. }
  apply remitter_account_no in Hb.
  rewrite assoc_upper_body, Hs in Hb. exact Hb.
Qed.

Lemma X14_upsert_uppercases_account_no_witness :
  assoc "account_no" x14_body = Some (JStr "ab12cd") /\
  In (Api.PatchPageReq (JStr "PAGE-7")
        (JObj [("properties", JObj [("Name", Codec.title_ (JStr "RAVI"));
                                     ("Account No", Codec.rich_ (JStr "AB12CD"));
                                     ("Address", Codec.rich_ (JStr ""));
                                     ("Phone", Codec.phone_ (JStr ""));
                                     ("ID Type", Codec.select_ (JStr ""));
                                     ("ID Value", Codec.rich_ (JStr ""))])]))
     (snd (Api.api_upsert (api_fixture []) "remitter" (JObj x14_body))) /\
  assoc "Account No" [("Name", Codec.title_ (JStr "RAVI"));
                       ("Account No", Codec.rich_ (JStr "AB12CD"));
                       ("Address", Codec.rich_ (JStr ""));
                       ("Phone", Codec.phone_ (JStr ""));
                       ("ID Type", Codec.select_ (JStr ""));
                       ("ID Value", Codec.rich_ (JStr ""))]
  = Some (Codec.rich_ (JStr (Py.upper "ab12cd"))).
Proof.
  assert (Hs : assoc "account_no" x14_body = Some (JStr "ab12cd")) by reflexivity.
  assert (Hin : In (Api.PatchPageReq (JStr "PAGE-7")
        (JObj [("properties", JObj [("Name", Codec.title_ (JStr "RAVI"));
                                     ("Account No", Codec.rich_ (JStr "AB12CD"));
                                     ("Address", Codec.rich_ (JStr ""));
                                     ("Phone", Codec.phone_ (JStr ""));
                                     ("ID Type", Codec.select_ (JStr ""));
                                     ("ID Value", Codec.rich_ (JStr ""))])]))
     (snd (Api.api_upsert (api_fixture []) "remitter" (JObj x14_body)))) by (vm_compute; auto 10).
  split; [exact Hs|]. split; [exact Hin|].
  exact (X14_upsert_uppercases_account_no (api_fixture []) x14_body "ab12cd" _ _ Hs Hin eq_refl).
Defined.

Lemma upper_body_id fs :
  get (Api.upper_body (JObj fs)) "id" JNull =
  Ok (upper_v (match assoc "id" fs with Some v => v | None => JNull end)).
Proof.
  cbn [Api.upper_body get]. rewrite assoc_upper_body.
  destruct (assoc "id" fs); reflexivity.
Qed.

(** X15: [api_upsert] patches the page named by the upper-cased "id" when it is truthy, and otherwise creates a page whose parent is the rtype's database. *)
Theorem X15_upsert_patch_or_create : forall w rt fs x,
  In x (snd (Api.api_upsert w rt (JObj fs))) ->
  (forall pid b, x = Api.PatchPageReq pid b ->
     pid = upper_v (match assoc "id" fs with Some v => v | None => JNull end) /\ truthy pid = true) /\
  (forall b, x = Api.CreatePageReq b ->
     truthy (upper_v (match assoc "id" fs with Some v => v | None => JNull end)) = false /\
     get b "parent" JNull =
       Ok (JObj [("database_id", JStr (if String.eqb rt "remitter" then Env.REMITTER_DB (Api.cfg w)
                                       else Env.BENEFICIARY_DB (Api.cfg w)))])).
Proof.
  intros w rt fs x Hin.
  apply upsert_requests in Hin as [[d ->]|[tp [props [pid [_ [Hid Hx]]]]]];
    [split; intros; discriminate|].
  rewrite upper_body_id in Hid. injection Hid as <-.
  destruct Hx as [[Ht ->]|[Ht ->]]; split; try (intros ? ? E || intros ? E; discriminate).
  - intros p b E. injection E as <- _. auto.
  - intros b E. injection E as <-. auto.
Qed.

Lemma X15_upsert_patch_or_create_witness :
  exists b, In (Api.CreatePageReq b) (snd (Api.api_upsert (api_fixture []) "remitter" (JObj x15_body))) /\
    truthy (upper_v (JStr "")) = false /\
    get b "parent" JNull = Ok (JObj [("database_id", JStr "0123456789abcdef0123456789abcdef")]).
Proof.
  remember (nth 1 (snd (Api.api_upsert (api_fixture []) "remitter" (JObj x15_body)))
              (Api.GetDatabaseReq "")) as x eqn:Ex.
  assert (Hin : In x (snd (Api.api_upsert (api_fixture []) "remitter" (JObj x15_body))))
    by (subst x; vm_compute; auto).
  vm_compute in Ex. subst x.
  eexists. split; [exact Hin|].
  apply (proj2 (X15_upsert_patch_or_create _ _ _ _ Hin)). reflexivity.
Defined.

Lemma skipn_nth_cons {A} (l : list A) i d :
  (i < length l)%nat -> skipn i l = nth i l d :: skipn (S i) l.
Proof.
  revert i. induction l as [|a l IH]; intros [|i] Hi; cbn in *; try lia; auto.
  apply IH. lia.
Qed.

Lemma query_loop_pages w dbid pages : forall fuel i payload acc,
  (forall p, Api.http_query w dbid p = paged_response pages p) ->
  cursor_of payload = i -> (i < length pages)%nat -> (length pages - i <= fuel)%nat ->
  fst (Api.query_loop w dbid fuel payload acc) = Api.Done (acc ++ concat (skipn i pages))%list /\
  length (snd (Api.query_loop w dbid fuel payload acc)) = (length pages - i)%nat.
Proof.
  induction fuel as [|f IH]; intros i payload acc Hq Hc Hi Hf; [lia|].
  cbn [Api.query_loop]. rewrite Hq. unfold paged_response. fold (cursor_of payload). rewrite Hc.
  cbn [Api.send Api.alift Api.abind Api.raise_for_status Api.status_code Api.json Api.text
       Api.aret get assoc String.eqb Ascii.eqb Bool.eqb andb fst snd Z.leb Z.ltb Z.compare
       Pos.compare Pos.compare_cont Api.extend truthy negb].
  rewrite (skipn_nth_cons pages i []) by exact Hi. cbn [concat].
  destruct (Nat.ltb (S i) (length pages)) eqn:Hlt; cbn [negb truthy].
  - apply Nat.ltb_lt in Hlt.
    destruct (IH (S i) (Codec.dict_set "start_cursor" (JNum (Z.of_nat (S i))) payload)
                (acc ++ nth i pages [])%list Hq) as [IH1 IH2]; try lia.
    { unfold cursor_of. rewrite assoc_dict_set_same. apply Nat2Z.id. }
    destruct (Api.query_loop w dbid f _ _) as [r t] eqn:E. cbn [fst snd] in *.
    rewrite IH1, <- app_assoc. cbn [app length]. split; [reflexivity | lia].
  - apply Nat.ltb_ge in Hlt.
    rewrite (skipn_all2 pages) by lia. cbn [concat]. rewrite app_nil_r.
    split; [reflexivity | cbn; lia].
Qed.

(** X16: against a server that pages its results, [notion_query_all] with enough turns returns all pages' results in order and posts exactly one query per page. *)
Theorem X16_query_all_collects_pages : forall w dbid pages fuel,
  (forall p, Api.http_query w dbid p = paged_response pages p) ->
  pages <> [] -> (length pages <= fuel)%nat ->
  fst (Api.notion_query_all w dbid fuel) = Api.Done (concat pages) /\
  length (snd (Api.notion_query_all w dbid fuel)) = length pages.
Proof.
  intros w dbid pages fuel Hq Hne Hf.
  destruct pages as [|p ps]; [congruence|].
  destruct (query_loop_pages w dbid (p :: ps) fuel 0 [] [] Hq eq_refl) as [H1 H2];
    cbn [length] in *; try lia.
  unfold Api.notion_query_all. rewrite H1, H2. cbn. split; [reflexivity | lia].
Qed.

Lemma X16_query_all_collects_pages_witness :
  fst (Api.notion_query_all (api_fixture x16_pages) "db" 5) = Api.Done [JStr "p1"; JStr "p2"; JStr "p3"] /\
  length (snd (Api.notion_query_all (api_fixture x16_pages) "db" 5)) = 3%nat.
Proof.
  exact (X16_query_all_collects_pages (api_fixture x16_pages) "db" x16_pages 5
           (fun p => eq_refl) ltac:(discriminate) ltac:(cbn; lia)).
Defined.

Lemma get_database_trace w d :
  snd (Api.notion_get_database w d) = [Api.GetDatabaseReq d].
Proof.
  unfold Api.notion_get_database.
  destruct (Api.http_get_database w d) as [r|e]; cbn [Api.send Api.alift Api.abind]; [|reflexivity].
  destruct (Api.status_code r =? 404); [reflexivity|].
  unfold Api.raise_for_status. destruct (_ && _); [reflexivity|].
  cbn [Api.aret Api.abind]. destruct (Api.json r); reflexivity.
Qed.



Lemma parse_entries_keys p t layout r :
  Codec.parse_entries p t layout = Ok r -> map fst r = layout_keys layout.
Proof.
  revert r. induction layout as [|[[k pn] dd] layout IH]; intros r; cbn.
  - intros H. injection H as <-. reflexivity.
  - destruct (get p _ (JObj [])) as [x|e]; cbn; [|discriminate].
    destruct (Codec.decode dd x) as [v|e]; cbn; [|discriminate].
    destruct (Codec.parse_entries p t layout) as [rest|e]; cbn; [|discriminate].
    intros H. injection H as <-. cbn. f_equal. apply IH. reflexivity.
Qed.

Lemma parse_with_keys layout page t r :
  Codec.parse_with layout page t = Ok r -> map fst r = "id" :: layout_keys layout.
Proof.
  unfold Codec.parse_with.
  destruct (get page "properties" (JObj [])) as [p|e]; cbn; [|discriminate].
  destruct (get page "id" JNull) as [i|e]; cbn; [|discriminate].
  destruct (Codec.parse_entries p t layout) as [rest|e] eqn:E; cbn; [|discriminate].
  intros H. injection H as <-. cbn. f_equal. eapply parse_entries_keys. exact E.
Qed.

(** X18: a successful [api_record] reply is a 200 JSON object; the dict handed to [jsonify] holds "id" followed by the parser's keys in the parser's order, and [jsonify] writes these keys in sorted order; the reply follows exactly a database read and a page read. *)
Theorem X18_record_reply_shape : forall w rt page_id resp,
  fst (Api.api_record w rt page_id) = Api.Done resp ->
  exists data, resp = Generate.Json 200 data /\
    map fst data = "id" :: layout_keys (if String.eqb rt "remitter" then Codec.remitter_layout
                                        else Codec.beneficiary_layout) /\
    served_keys data =
      Generate.py_sorted ("id" :: layout_keys (if String.eqb rt "remitter" then Codec.remitter_layout
                                               else Codec.beneficiary_layout)) /\
    snd (Api.api_record w rt page_id) =
      [Api.GetDatabaseReq (if String.eqb rt "remitter" then Env.REMITTER_DB (Api.cfg w)
                           else Env.BENEFICIARY_DB (Api.cfg w));
       Api.GetPageReq page_id].
Proof.
  intros w rt page_id resp H. unfold Api.api_record in *.
  destruct (Env.assert_env (Api.cfg w)) as [[]|e]; cbn [Api.alift Api.abind] in *; [|discriminate].
  destruct (negb _); [discriminate|].
  destruct (Api.notion_get_database w _) as [[db|f] t1] eqn:Edb; cbn [Api.abind fst] in H |- *;
    [|discriminate].
  assert (t1 = [Api.GetDatabaseReq (if String.eqb rt "remitter" then Env.REMITTER_DB (Api.cfg w)
                                    else Env.BENEFICIARY_DB (Api.cfg w))]) as ->.
  { pose proof (get_database_trace w (if String.eqb rt "remitter" then Env.REMITTER_DB (Api.cfg w)
                                    else Env.BENEFICIARY_DB (Api.cfg w))) as T.
    destruct (String.eqb rt "remitter"); rewrite Edb in T; exact T. }
  destruct (Notion.title_prop_name db) as [t|e]; cbn [Api.alift Api.abind fst snd] in H |- *;
    [|discriminate].
  destruct (Api.http_get_page w page_id) as [r|e]; cbn [Api.send Api.alift Api.abind fst snd] in H |- *;
    [|discriminate].
  unfold Api.raise_for_status in *.
  destruct (_ && _); cbn [Api.alift Api.aret Api.abind fst snd] in H |- *; [discriminate|].
  destruct (Api.json r) as [page|e]; cbn [Api.alift Api.abind fst snd] in H |- *; [|discriminate].
  destruct (if String.eqb rt "remitter" then Codec.parse_remitter page t
            else Codec.parse_beneficiary page t) as [data|e] eqn:Ep;
    cbn [Api.alift Api.aret Api.abind fst snd] in H |- *; [|discriminate].
  injection H as <-. exists data. split; [reflexivity|].
  assert (Hk : map fst data = "id" :: layout_keys (if String.eqb rt "remitter" then Codec.remitter_layout
                                                   else Codec.beneficiary_layout))
    by (destruct (String.eqb rt "remitter"); eapply parse_with_keys; exact Ep).
  split; [exact Hk|]. split; [unfold served_keys; now rewrite Hk|].
  reflexivity.
Qed.

Lemma X18_record_reply_shape_witness :
  exists data, x18_reply = Generate.Json 200 data /\
    map fst data = "id" :: layout_keys Codec.remitter_layout /\
    served_keys data = Generate.py_sorted ("id" :: layout_keys Codec.remitter_layout) /\
    snd (Api.api_record (api_fixture []) "remitter" "page-1") =
      [Api.GetDatabaseReq "0123456789abcdef0123456789abcdef"; Api.GetPageReq "page-1"].
Proof.
  assert (E : fst (Api.api_record (api_fixture []) "remitter" "page-1") = Api.Done x18_reply)
    by (vm_compute; reflexivity).
  exact (X18_record_reply_shape _ _ _ _ E).
Defined.

Lemma api_in_bind_left {A B} (m : Api.AM A) (k : A -> Api.AM B) x :
  In x (snd m) -> In x (snd (Api.abind m k)).
Proof.
  destruct m as [[a|f] t]; cbn; [|auto].
  destruct (k a) as [r t']; cbn. intros H. apply in_app_iff. auto.
Qed.

Lemma api_in_bind_right {A B} (m : Api.AM A) (k : A -> Api.AM B) a x :
  fst m = Api.Done a -> In x (snd (k a)) -> In x (snd (Api.abind m k)).
Proof.
  destruct m as [[a'|f] t]; cbn; [|discriminate].
  intros E. injection E as <-. destruct (k a') as [r t']; cbn. intros H. apply in_app_iff. auto.
Qed.

(** X19: a successful [api_upsert] reply follows a write request, and is either 200 with "ok" true or 400 with "ok" false. *)
Theorem X19_upsert_reply_after_write : forall w rt body resp,
  fst (Api.api_upsert w rt body) = Api.Done resp ->
  (exists x, In x (snd (Api.api_upsert w rt body)) /\ written_props x <> None) /\
  exists fields, resp = Generate.Json 200 (("ok", JBool true) :: fields) \/
                 resp = Generate.Json 400 (("ok", JBool false) :: fields).
Proof.
  intros w rt body resp H. unfold Api.api_upsert in *.
  apply api_bind_done in H as [u [Hu H]].
  apply api_bind_done in H as [props [Hp H]].
  apply api_bind_done in H as [pid [Hpid H]].
  apply api_bind_done in H as [res [Hres H]].
  split.
  - destruct (truthy pid) eqn:Et; eexists; split;
      (do 3 (eapply api_in_bind_right; [eassumption|]); apply api_in_bind_left;
       cbv beta; rewrite Et, send_trace; left; reflexivity) || (cbn; discriminate).
  - destruct (300 <=? Api.status_code res); cbn [Api.aret fst] in H.
    + injection H as <-. eexists. right. reflexivity.
    + apply api_bind_done in H as [page [_ H]]. cbn in H. injection H as <-.
      eexists. left. reflexivity.
Qed.

Lemma X19_upsert_reply_after_write_witness :
  (exists x, In x (snd (Api.api_upsert (api_fixture []) "remitter" (JObj x19_body))) /\
             written_props x <> None) /\
  exists fields, x19_reply = Generate.Json 200 (("ok", JBool true) :: fields) \/
                 x19_reply = Generate.Json 400 (("ok", JBool false) :: fields).
Proof.
  assert (E : fst (Api.api_upsert (api_fixture []) "remitter" (JObj x19_body)) = Api.Done x19_reply)
    by (vm_compute; reflexivity).
  exact (X19_upsert_reply_after_write _ _ _ _ E).
Defined.

Lemma parse_all_length parse t pages rs :
  Api.parse_all parse t pages = Ok rs -> length rs = length pages.
Proof.
  revert rs. induction pages as [|p ps IH]; intros rs; cbn.
  - intros H. injection H as <-. reflexivity.
  - destruct (parse p t) as [r|e]; cbn; [|discriminate].
    destruct (Api.parse_all parse t ps) as [rs'|e] eqn:E; cbn; [|discriminate].
    intros H. injection H as <-. cbn. f_equal. apply IH. reflexivity.
Qed.

Lemma summaries_shape k records out :
  Api.summaries k records = Ok out ->
  length out = length records /\
  Forall (fun s => exists i n, s = JObj [("id", i); ("name", n)]) out.
Proof.
  revert out. induction records as [|r rs IH]; intros out; cbn.
  - intros H. injection H as <-. split; [reflexivity | constructor].
  - destruct (Api.index r "id") as [i|e]; cbn; [|discriminate].
    destruct (Api.index r k) as [n|e]; cbn; [|discriminate].
    destruct (Api.summaries k rs) as [rest|e] eqn:E; cbn; [|discriminate].
    intros H. injection H as <-. destruct (IH rest eq_refl) as [H1 H2].
    split; [cbn; f_equal; exact H1 | constructor; [eauto | exact H2]].
Qed.

(** X20: a successful [api_options] reply holds one {id, name} summary per remitter page and per beneficiary page. *)
Theorem X20_options_one_summary_per_page : forall w fuel resp rp bp,
  fst (Api.api_options w fuel) = Api.Done resp ->
  fst (Api.notion_query_all w (Env.REMITTER_DB (Api.cfg w)) fuel) = Api.Done rp ->
  fst (Api.notion_query_all w (Env.BENEFICIARY_DB (Api.cfg w)) fuel) = Api.Done bp ->
  exists rs bs tps,
    resp = Generate.Json 200 [("remitters", JList rs); ("beneficiaries", JList bs); ("title_props", tps)] /\
    length rs = length rp /\ length bs = length bp /\
    Forall (fun s => exists i n, s = JObj [("id", i); ("name", n)]) (rs ++ bs).
Proof.
  intros w fuel resp rp bp H Hr Hb. unfold Api.api_options in H.
  apply api_bind_done in H as [u [_ H]].
  apply api_bind_done in H as [rdb [_ H]].
  apply api_bind_done in H as [bdb [_ H]].
  apply api_bind_done in H as [rt [_ H]].
  apply api_bind_done in H as [bt [_ H]].
  apply api_bind_done in H as [rpages [Hrp H]]. rewrite Hr in Hrp. injection Hrp as <-.
  apply api_bind_done in H as [bpages [Hbp H]]. rewrite Hb in Hbp. injection Hbp as <-.
  apply api_bind_done in H as [rems [Hrems H]]. apply alift_done, parse_all_length in Hrems.
  apply api_bind_done in H as [bens [Hbens H]]. apply alift_done, parse_all_length in Hbens.
  apply api_bind_done in H as [rs [Hrs H]]. apply alift_done, summaries_shape in Hrs as [Hrs1 Hrs2].
  apply api_bind_done in H as [bs [Hbs H]]. apply alift_done, summaries_shape in Hbs as [Hbs1 Hbs2].
  cbn in H. injection H as <-.
  exists rs, bs. eexists. split; [reflexivity|].
  split; [congruence|]. split; [congruence|]. apply Forall_app. auto.
Qed.

Lemma X20_options_one_summary_per_page_witness :
  exists rs bs tps,
    x20_reply = Generate.Json 200 [("remitters", JList rs); ("beneficiaries", JList bs); ("title_props", tps)] /\
    length rs = 3%nat /\ length bs = 3%nat /\
    Forall (fun s => exists i n, s = JObj [("id", i); ("name", n)]) (rs ++ bs).
Proof.
  assert (E : fst (Api.api_options (api_fixture x20_pages) 4) = Api.Done x20_reply)
    by (vm_compute; reflexivity).
  exact (X20_options_one_summary_per_page _ _ _ (concat x20_pages) (concat x20_pages) E
           eq_refl eq_refl).
Defined.

Lemma upper_v_idem v : upper_v (upper_v v) = upper_v v.
Proof. destruct v; cbn; try reflexivity. rewrite upper_idem. reflexivity. Qed.

Lemma assoc_upper_keys ks k fs :
  assoc k (upper_keys ks fs) =
  option_map (fun v => if existsb (String.eqb k) ks then upper_v v else v) (assoc k fs).
Proof.
  induction fs as [|[k' v] fs IH]; cbn; [reflexivity|].
  destruct (String.eqb k k') eqn:E.
  - apply String.eqb_eq in E. subst k'.
    destruct (existsb (String.eqb k) ks); cbn; rewrite String.eqb_refl; reflexivity.
  - destruct (existsb (String.eqb k') ks); cbn; rewrite E; exact IH.
Qed.

Lemma build_with_upper_body ks fs tp asg props :
  Forall (fun a => Codec.uppercase a = true \/ existsb (String.eqb (Codec.source_key a)) ks = true) asg ->
  Codec.build_with (Api.upper_body (JObj fs)) tp asg props =
  Codec.build_with (JObj (upper_keys ks fs)) tp asg props.
Proof.
  intros Hall. revert props. induction Hall as [|a asg Ha Hall IH]; intros props; [reflexivity|].
  cbn [Codec.build_with Api.upper_body get bind].
  rewrite assoc_upper_body, assoc_upper_keys.
  destruct (assoc (Codec.source_key a) fs) as [v|]; cbn [option_map bind].
  - destruct Ha as [Hu|Hk].
    + rewrite Hu, upper_v_idem.
      destruct (existsb _ ks); [rewrite upper_v_idem|]; apply IH.
    + rewrite Hk. apply IH.
  - apply IH.
Qed.

(** X21: the upper-casing pass of [api_upsert] matters only for the fields the builders keep as they are: building from the upper-cased body equals building from the body with only "account_no" and "phone" (remitter) or "beneficiary_account_number" (beneficiary) upper-cased. *)
Theorem X21_upper_body_only_touches_kept_fields : forall fs tp,
  Codec.build_remitter_properties (Api.upper_body (JObj fs)) tp =
    Codec.build_remitter_properties (JObj (upper_keys ["account_no"; "phone"] fs)) tp /\
  Codec.build_beneficiary_properties (Api.upper_body (JObj fs)) tp =
    Codec.build_beneficiary_properties (JObj (upper_keys ["beneficiary_account_number"] fs)) tp.
Proof.
  intros fs tp. split; apply build_with_upper_body;
    repeat (apply Forall_cons; [first [left; reflexivity | right; reflexivity] |]); apply Forall_nil.
Qed.

Lemma concat_empty_cons (x : string) l : String.concat "" (x :: l) = x ++ String.concat "" l.
Proof.
  destruct l; cbn; [|reflexivity].
  induction x as [|c x IH]; cbn; [reflexivity | rewrite <- IH; reflexivity].
Qed.

(** X22: [get_title] joins the "plain_text" of every title fragment in order; a fragment without "plain_text" contributes nothing. *)
Theorem X22_get_title_concatenates : forall fs gss,
  assoc "title" fs = Some (JList (map JObj gss)) ->
  Forall plain_text_ok gss ->
  Notion.get_title (JObj fs) = Ok (String.concat "" (map fragment_text gss)).
Proof.
  intros fs gss Ht Hall. unfold Notion.get_title. cbn [get]. rewrite Ht. cbn [bind].
  destruct gss as [|g gss]; [reflexivity|].
  replace (truthy (JList (map JObj (g :: gss)))) with true by reflexivity. cbn [negb].
  clear Ht. revert Hall. generalize (g :: gss). clear g gss. intros l Hall.
  induction Hall as [|gs gss Hg Hall IH]; [reflexivity|].
  cbn [map get bind]. rewrite IH. cbn [bind].
  unfold plain_text_ok in Hg. unfold fragment_text.
  rewrite concat_empty_cons.
  destruct (assoc "plain_text" gs) as [[]|]; try contradiction; reflexivity.
Qed.

(** X23: [get_file_url] reads only the first entry of a non-empty "files" list. *)
Theorem X23_file_url_first_file_only : forall fs f rest,
  assoc "files" fs = Some (JList (f :: rest)) ->
  Notion.get_file_url (JObj fs) = Notion.get_file_url (JObj [("files", JList [f])]).
Proof.
  intros fs f rest H. unfold Notion.get_file_url. cbn [get]. rewrite H. reflexivity.
Qed.

(** X24: [title_prop_name] returns "Name" or the name of a property of the database whose "type" is "title". *)
Theorem X24_title_prop_name_sound : forall db name,
  Notion.title_prop_name db = Ok name ->
  name = "Name" \/
  exists fs prop, get db "properties" (JObj []) = Ok (JObj fs) /\ In (name, prop) fs /\
    get prop "type" JNull = Ok (JStr "title").
Proof.
  intros db name H. unfold Notion.title_prop_name in H.
  destruct (get db "properties" (JObj [])) as [props|e] eqn:Ep; cbn [bind] in H; [|discriminate].
  destruct props as [| | | | |fs]; try discriminate.
  assert (Hs : forall l, incl l fs -> (fix scan (fs : list (string * jval)) : outcome string :=
        match fs with
        | [] => Ok "Name"
        | (name, prop) :: fs' =>
            ty <- get prop "type" JNull ;;
            match ty with
            | JStr s => if String.eqb s "title" then Ok name else scan fs'
            | _ => scan fs'
            end
        end) l = Ok name ->
     name = "Name" \/ exists prop, In (name, prop) fs /\ get prop "type" JNull = Ok (JStr "title")).
  { induction l as [|[n p] l IH]; intros Hi Hl; [injection Hl as <-; auto|].
    destruct (get p "type" JNull) as [ty|e] eqn:Et; cbn [bind] in Hl; [|discriminate].
    assert (Hi' : incl l fs) by (intros x Hx; apply Hi; right; exact Hx).
    destruct ty; try (apply IH; assumption).
    destruct (String.eqb s "title") eqn:Es; [|apply IH; assumption].
    injection Hl as <-. apply String.eqb_eq in Es. subst s.
    right. exists p. split; [apply Hi; left; reflexivity | exact Et]. }
  destruct (Hs fs (incl_refl fs) H) as [Hn|[prop [Hin Ht]]]; [left; exact Hn|].
  right. exists fs, prop. auto.
Qed.

Lemma X22_get_title_concatenates_witness :
  Notion.get_title (JObj x22_fs) = Ok (String.concat "" (map fragment_text x22_gss)).
Proof.
  apply X22_get_title_concatenates; [reflexivity|].
  repeat (apply Forall_cons; [exact I|]). apply Forall_nil.
Defined.

Lemma X23_file_url_first_file_only_witness :
  Notion.get_file_url (JObj x23_fs) =
  Notion.get_file_url (JObj [("files", JList [x23_file "external" "https://example.org/a.png"])]).
Proof. apply (X23_file_url_first_file_only x23_fs _ [x23_file "file" "https://example.org/b.png"]). reflexivity. Defined.

Lemma X24_title_prop_name_sound_witness :
  "Company" = "Name" \/
  exists fs prop, get x24_db "properties" (JObj []) = Ok (JObj fs) /\ In ("Company", prop) fs /\
    get prop "type" JNull = Ok (JStr "title").
Proof. apply X24_title_prop_name_sound. reflexivity. Defined.

(** X25: a select or phone value written by [_select] or [_phone] reads back unchanged through [get_select] or [get_phone], while a value written by [_rich] or [_title] reads back as the empty string, since the writers fill "text.content" and the readers look at "plain_text". *)
Theorem X25_write_read_round_trip : forall s,
  Codec.decode Codec.DSelect (Codec.select_ (JStr s)) = Ok (JStr s) /\
  Codec.decode Codec.DPhone (Codec.phone_ (JStr s)) = Ok (JStr s) /\
  Codec.decode Codec.DRich (Codec.rich_ (JStr s)) = Ok (JStr "") /\
  Codec.decode Codec.DTitle (Codec.title_ (JStr s)) = Ok (JStr "").
Proof.
  intros s. unfold Codec.select_, Codec.phone_.
  cbn [truthy]. destruct (String.eqb s "") eqn:E.
  - apply String.eqb_eq in E. subst s. repeat split; reflexivity.
  - cbn [negb]. repeat split; cbn; unfold py_or; cbn [truthy]; rewrite ?E; reflexivity.
Qed.
